(** * Open Banking Consent Choreographer: the three agents

    A shallow embedding of the decision pipeline of
    [src/agents/monitoring_agent.py], [src/agents/validation_agent.py]
    and [src/agents/audit_agent.py]:

    - [Py]: the fragment of the Python runtime the agents rely on
      (dynamically typed values, exceptions, string methods, [float]);
    - [MonitoringAgent]: the trigger detector;
    - [A2AMessageQueue]: the HTTP messaging between the agents;
    - [MonitoringCycle]: polling, the processing cycle and the API for
      manual triggers of the monitoring agent;
    - [ValidationAgent]: the rule-based and the AI-assisted decision
      engine, its A2A receive handler and its HTTP endpoints;
    - [SharedMessageQueue]: the file-based queue of
      [src/agents/shared_queue.py];
    - [AuditAgent]: the audit ledger, its A2A receive handler, its HTTP
      endpoints and its polling loop;
    - [PSD3ConsentManager]: the mock consent manager of
      [src/agents/consent_mock.py].

    Conventions.  Text is ASCII: a [str] is a [string] and [len], [lower],
    [upper], [strip] act on its characters.  A Python [float] is the
    rational it denotes (always a binary64 value, see [float_of_Q]) or an
    infinity or NaN; the sign of zero is not tracked.  Console output
    ([print]) is not part of the modelled state, and a handler runs from
    start to end without another request in between. *)

From Stdlib Require Import ZArith QArith Qabs Qround String Ascii List Bool Lia.
Import ListNotations.

Local Open Scope string_scope.
Local Open Scope list_scope.

(* ================================================================== *)
(** * The Python runtime fragment                                      *)
(* ================================================================== *)

Module Py.

(** ** Exceptions and fallible computations *)

Inductive exn : Type :=
| ValueError
| TypeError
| AttributeError
| IndexError
| OverflowError
| RequestException
| OtherException (msg : string).

Inductive result (A : Type) : Type :=
| Ok (a : A)
| Raise (e : exn).

Arguments Ok {A} a.
Arguments Raise {A} e.

Definition bind {A B : Type} (m : result A) (k : A -> result B) : result B :=
  match m with
  | Ok a => k a
  | Raise e => Raise e
  end.

Notation "x <- m ;; k" := (bind m (fun x => k))
  (at level 61, m at next level, right associativity).

(** [try: m except handler] with a handler that catches every exception. *)
Definition try_except {A : Type} (m : result A) (handler : exn -> result A) : result A :=
  match m with
  | Ok a => Ok a
  | Raise e => handler e
  end.

Definition succeeds {A : Type} (m : result A) : bool :=
  match m with Ok _ => true | Raise _ => false end.

(** Handlers that also change a state: the state reached is returned in
    both cases, as an exception does not undo earlier assignments. *)
Definition io (S A : Type) : Type := S -> result A * S.

Definition ret {S A : Type} (a : A) : io S A := fun s => (Ok a, s).

Definition lift {S A : Type} (m : result A) : io S A := fun s => (m, s).

Definition io_bind {S A B : Type} (m : io S A) (k : A -> io S B) : io S B :=
  fun s =>
    match m s with
    | (Ok a, s') => k a s'
    | (Raise e, s') => (Raise e, s')
    end.

Notation "x <~ m ;; k" := (io_bind m (fun x => k))
  (at level 61, m at next level, right associativity).

(** ** [str] methods *)

Definition code (c : ascii) : nat := nat_of_ascii c.

Definition in_range (lo hi : nat) (c : ascii) : bool :=
  (lo <=? code c)%nat && (code c <=? hi)%nat.

(** [str.isspace] on ASCII: TAB..CR, FS..US and the space. *)
Definition is_space (c : ascii) : bool := in_range 9 13 c || in_range 28 32 c.

(** The white space [float] skips around a number: TAB..CR and the space. *)
Definition is_float_space (c : ascii) : bool := in_range 9 13 c || in_range 32 32 c.

Definition is_upper (c : ascii) : bool := in_range 65 90 c.
Definition is_lower (c : ascii) : bool := in_range 97 122 c.
Definition is_alpha (c : ascii) : bool := is_upper c || is_lower c.

Definition lower_char (c : ascii) : ascii :=
  if is_upper c then ascii_of_nat (code c + 32) else c.

Definition upper_char (c : ascii) : ascii :=
  if is_lower c then ascii_of_nat (code c - 32) else c.

Fixpoint map_chars (f : ascii -> ascii) (s : string) : string :=
  match s with
  | EmptyString => EmptyString
  | String c s' => String (f c) (map_chars f s')
  end.

Definition lower : string -> string := map_chars lower_char.
Definition upper : string -> string := map_chars upper_char.

Fixpoint lstrip_by (space : ascii -> bool) (s : string) : string :=
  match s with
  | EmptyString => EmptyString
  | String c s' => if space c then lstrip_by space s' else s
  end.

Fixpoint rstrip_by (space : ascii -> bool) (s : string) : string :=
  match s with
  | EmptyString => EmptyString
  | String c s' =>
      match rstrip_by space s' with
      | EmptyString => if space c then EmptyString else String c EmptyString
      | r => String c r
      end
  end.

(** [s.strip()]. *)
Definition strip (s : string) : string := rstrip_by is_space (lstrip_by is_space s).

Definition startswith (s p : string) : bool := String.prefix p s.

(** [s.split(sep)] for a one-character separator. *)
Fixpoint split (sep : ascii) (s : string) : list string :=
  match s with
  | EmptyString => [EmptyString]
  | String c s' =>
      if Ascii.eqb c sep then EmptyString :: split sep s'
      else match split sep s' with
           | w :: ws => String c w :: ws
           | [] => [String c EmptyString]
           end
  end.

(** [s.split(sep, 1)[1]]: what follows the first separator; [IndexError]
    when there is none. *)
Fixpoint split1_snd (sep : ascii) (s : string) : result string :=
  match s with
  | EmptyString => Raise IndexError
  | String c s' => if Ascii.eqb c sep then Ok s' else split1_snd sep s'
  end.

(** [needle in hay] on strings. *)
Fixpoint contains (needle hay : string) : bool :=
  String.prefix needle hay
  || match hay with
     | EmptyString => false
     | String _ hay' => contains needle hay'
     end.

Definition join (sep : string) (l : list string) : string := String.concat sep l.

(** [s.replace(a, b)] for one-character [a] and [b]. *)
Definition replace_char (a b : ascii) : string -> string :=
  map_chars (fun c => if Ascii.eqb c a then b else c).

Fixpoint title_from (prev_cased : bool) (s : string) : string :=
  match s with
  | EmptyString => EmptyString
  | String c s' =>
      if is_alpha c
      then String (if prev_cased then lower_char c else upper_char c) (title_from true s')
      else String c (title_from false s')
  end.

Definition title : string -> string := title_from false.

Definition chars (s : string) : list string :=
  map (fun c => String c EmptyString) (list_ascii_of_string s).

(** ** Floats *)

Inductive pyfloat : Type :=
| FFin (q : Q)
| FInf (negative : bool)
| FNaN.

Definition round_half_even (q : Q) : Z :=
  let f := Qfloor q in
  match Qcompare (q - inject_Z f) (1 # 2) with
  | Lt => f
  | Gt => (f + 1)%Z
  | Eq => if Z.even f then f else (f + 1)%Z
  end.

(** The exponent [e] with [2^e <= q < 2^(e+1)], for [q > 0]. *)
Definition floor_log2 (q : Q) : Z :=
  let e0 := (Z.log2 (Qnum q) - Z.log2 (Zpos (Qden q)))%Z in
  if Qle_bool (Qpower 2 e0) q then e0 else (e0 - 1)%Z.

(** Rounding of a positive rational to the nearest binary64 value (53-bit
    significand, gradual underflow below [2^-1022], ties to even). *)
Definition round_binary64_pos (q : Q) : Q :=
  let ulp := Qpower 2 (Z.max (floor_log2 q - 52) (-1074)) in
  Qred (inject_Z (round_half_even (q / ulp)) * ulp).

Definition round_binary64 (q : Q) : Q :=
  match Qcompare q 0 with
  | Eq => 0
  | Gt => round_binary64_pos q
  | Lt => Qred (- round_binary64_pos (- q))
  end.

Definition overflows (q : Q) : bool := Qle_bool (Qpower 2 1024) (Qabs q).

(** The float a decimal literal or string denotes: overflow gives an
    infinity. *)
Definition float_of_Q (q : Q) : pyfloat :=
  let r := round_binary64 q in
  if overflows r then FInf (Qle_bool q 0) else FFin r.

(** [float(n)] for an [int]: overflow raises. *)
Definition float_of_int (n : Z) : result pyfloat :=
  let r := round_binary64 (inject_Z n) in
  if overflows r then Raise OverflowError else Ok (FFin r).

Definition fabs (x : pyfloat) : pyfloat :=
  match x with
  | FFin q => FFin (Qabs q)
  | FInf _ => FInf false
  | FNaN => FNaN
  end.

Definition fneg (x : pyfloat) : pyfloat :=
  match x with
  | FFin q => FFin (- q)
  | FInf s => FInf (negb s)
  | FNaN => FNaN
  end.

Definition Qlt_bool (a b : Q) : bool := negb (Qle_bool b a).

(** [x < y] on floats; every comparison with NaN is false. *)
Definition flt (x y : pyfloat) : bool :=
  match x, y with
  | FNaN, _ | _, FNaN => false
  | FFin a, FFin b => Qlt_bool a b
  | FFin _, FInf s => negb s
  | FInf s, FFin _ => s
  | FInf s, FInf t => s && negb t
  end.

Definition fgt (x y : pyfloat) : bool := flt y x.

Definition feq (x y : pyfloat) : bool :=
  match x, y with
  | FFin a, FFin b => Qeq_bool a b
  | FInf s, FInf t => Bool.eqb s t
  | _, _ => false
  end.

(** The builtins [min(a, b)] and [max(a, b)]: the first argument is kept
    unless the second is strictly better. *)
Definition fmin (a b : pyfloat) : pyfloat := if flt b a then b else a.
Definition fmax (a b : pyfloat) : pyfloat := if fgt b a then b else a.

(** *** [float(str)] *)

Definition digit_val (c : ascii) : option Z :=
  if in_range 48 57 c then Some (Z.of_nat (code c - 48)) else None.

(** After a first digit: [(["_"] digit)*].  Returns the value read, the
    number of digits and the unread rest. *)
Fixpoint digitpart_tail (acc cnt : Z) (s : string) : Z * Z * string :=
  match s with
  | EmptyString => (acc, cnt, s)
  | String c s' =>
      match digit_val c with
      | Some d => digitpart_tail (10 * acc + d)%Z (cnt + 1)%Z s'
      | None =>
          if Ascii.eqb c "_" then
            match s' with
            | String c2 s'' =>
                match digit_val c2 with
                | Some d => digitpart_tail (10 * acc + d)%Z (cnt + 1)%Z s''
                | None => (acc, cnt, s)
                end
            | EmptyString => (acc, cnt, s)
            end
          else (acc, cnt, s)
      end
  end.

Definition digitpart (s : string) : option (Z * Z * string) :=
  match s with
  | String c s' =>
      match digit_val c with
      | Some d => Some (digitpart_tail d 1 s')
      | None => None
      end
  | EmptyString => None
  end.

(** Zero or more digits. *)
Definition digits_opt (s : string) : Z * Z * string :=
  match digitpart s with
  | Some r => r
  | None => (0%Z, 0%Z, s)
  end.

Definition read_sign (s : string) : bool * string :=
  match s with
  | String "-" s' => (true, s')
  | String "+" s' => (false, s')
  | _ => (false, s)
  end.

(** The optional exponent and the end of the text. *)
Definition read_exponent (s : string) : option Z :=
  match s with
  | EmptyString => Some 0%Z
  | String c s' =>
      if Ascii.eqb c "e" || Ascii.eqb c "E" then
        let '(neg, s'') := read_sign s' in
        match digitpart s'' with
        | Some (e, _, EmptyString) => Some (if neg then (- e)%Z else e)
        | _ => None
        end
      else None
  end.

(** [digits [. [digits]] [exponent]] or [. digits [exponent]]. *)
Definition read_decimal (s : string) : option Q :=
  let '(ip, icnt, s1) := digits_opt s in
  let '(fp, fcnt, s2) :=
    match s1 with
    | String "." s1' => digits_opt s1'
    | _ => (0%Z, 0%Z, s1)
    end in
  if (icnt + fcnt =? 0)%Z then None
  else
    match read_exponent s2 with
    | Some e => Some (inject_Z (ip * 10 ^ fcnt + fp) * Qpower 10 (e - fcnt))
    | None => None
    end.

Definition float_of_str (s : string) : result pyfloat :=
  let '(neg, body) :=
    read_sign (rstrip_by is_float_space (lstrip_by is_float_space s)) in
  let word := lower body in
  if String.eqb word "inf" || String.eqb word "infinity" then Ok (FInf neg)
  else if String.eqb word "nan" then Ok FNaN
  else
    match read_decimal body with
    | Some q => Ok (float_of_Q (if neg then - q else q))
    | None => Raise ValueError
    end.

(** ** Dynamically typed values *)

(** A [dict] with [str] keys keeps its items in insertion order. *)
Fixpoint assoc_get {V : Type} (d : list (string * V)) (k : string) : option V :=
  match d with
  | [] => None
  | (k', v) :: d' => if String.eqb k' k then Some v else assoc_get d' k
  end.

#[warnings="-register-all"]
Inductive pyval : Type :=
| VNone
| VBool (b : bool)
| VInt (n : Z)
| VFloat (x : pyfloat)
| VStr (s : string)
| VList (l : list pyval)
| VDict (d : list (string * pyval)).

Definition dict : Type := list (string * pyval).

(** The value of a number, exactly ([bool] is a subtype of [int]). *)
Definition num_of (v : pyval) : option pyfloat :=
  match v with
  | VBool b => Some (FFin (if b then 1 else 0))
  | VInt n => Some (FFin (inject_Z n))
  | VFloat x => Some x
  | _ => None
  end.

(** [a == b]. *)
Fixpoint py_eq (a b : pyval) : bool :=
  match a, b with
  | VNone, VNone => true
  | VStr s, VStr t => String.eqb s t
  | VList l, VList m =>
      (fix all2 (l m : list pyval) : bool :=
         match l, m with
         | [], [] => true
         | x :: l', y :: m' => py_eq x y && all2 l' m'
         | _, _ => false
         end) l m
  | VDict d, VDict e =>
      Nat.eqb (length d) (length e)
      && (fix items (d : list (string * pyval)) : bool :=
            match d with
            | [] => true
            | (k, v) :: d' =>
                match assoc_get e k with
                | Some w => py_eq v w
                | None => false
                end && items d'
            end) d
  | _, _ =>
      match num_of a, num_of b with
      | Some x, Some y => feq x y
      | _, _ => false
      end
  end.

Definition py_ne (a b : pyval) : bool := negb (py_eq a b).

(** Truth value testing. *)
Definition truthy (v : pyval) : bool :=
  match v with
  | VNone => false
  | VBool b => b
  | VInt n => negb (n =? 0)%Z
  | VFloat x => negb (feq x (FFin 0))
  | VStr s => negb (String.eqb s "")
  | VList l => match l with [] => false | _ => true end
  | VDict d => match d with [] => false | _ => true end
  end.

(** [a and b]: the first operand when it is false, else the second. *)
Definition py_and (a b : pyval) : pyval := if truthy a then b else a.

(** [v > k] for an [int] constant [k]; numbers are compared exactly. *)
Definition gt_int (v : pyval) (k : Z) : result bool :=
  match num_of v with
  | Some x => Ok (fgt x (FFin (inject_Z k)))
  | None => Raise TypeError
  end.

(** [v < x] for a [float] constant [x]. *)
Definition lt_float (v : pyval) (x : pyfloat) : result bool :=
  match num_of v with
  | Some y => Ok (flt y x)
  | None => Raise TypeError
  end.

(** The builtin [float(v)]. *)
Definition py_float (v : pyval) : result pyfloat :=
  match v with
  | VFloat x => Ok x
  | VInt n => float_of_int n
  | VBool b => Ok (FFin (if b then 1 else 0))
  | VStr s => float_of_str s
  | VNone | VList _ | VDict _ => Raise TypeError
  end.

(** The builtin [len(v)]. *)
Definition py_len (v : pyval) : result nat :=
  match v with
  | VStr s => Ok (String.length s)
  | VList l => Ok (List.length l)
  | VDict d => Ok (List.length d)
  | _ => Raise TypeError
  end.

(** [needle in v] for a [str] constant [needle]. *)
Definition str_in (needle : string) (v : pyval) : result bool :=
  match v with
  | VStr s => Ok (contains needle s)
  | VList l => Ok (existsb (py_eq (VStr needle)) l)
  | VDict d => Ok (existsb (fun kv => String.eqb (fst kv) needle) d)
  | _ => Raise TypeError
  end.

(** Method calls: a receiver of another type has no such attribute. *)
Definition as_dict (v : pyval) : result dict :=
  match v with VDict d => Ok d | _ => Raise AttributeError end.

Definition as_str (v : pyval) : result string :=
  match v with VStr s => Ok s | _ => Raise AttributeError end.

(** [d.get(k, default)] and [d.get(k)]. *)
Definition get (d : dict) (k : string) (default : pyval) : pyval :=
  match assoc_get d k with
  | Some v => v
  | None => default
  end.

Definition get_none (d : dict) (k : string) : pyval := get d k VNone.

(** [v.get(k, default)] on an arbitrary receiver. *)
Definition vget (v : pyval) (k : string) (default : pyval) : result pyval :=
  d <- as_dict v ;; Ok (get d k default).

(** [r[k]] read off a result; [None] stands for a missing field. *)
Definition field (r : pyval) (k : string) : pyval :=
  match r with
  | VDict d => get_none d k
  | _ => VNone
  end.

(** A float literal of the source text. *)
Definition lit (q : Q) : pyval := VFloat (float_of_Q q).

(** ** What the embedding takes from the environment

    The text formatting of numbers and containers, the clock, [hash] and
    the HTTP layer are not part of the repository. *)

Inductive http_outcome : Type :=
| PostRaises (e : exn)
| Response (status_code : Z) (json : result pyval).

Class Runtime : Type := {
  (** [str(v)], also [f"{v}"] *)
  py_str : pyval -> string;
  (** [f"{x:.2f}"] on a float *)
  format_2f : pyfloat -> string;
  (** [f"{v:.1%}"] *)
  format_pct1 : pyval -> result string;
  (** [f"{v:,}"] *)
  format_comma : pyval -> result string;
  (** [str(e)] on an exception *)
  exn_str : exn -> string;
  (** [hash(s)] on a [str] *)
  py_hash : string -> Z;
  (** [time.time()] *)
  time_time : Q;
  (** [requests.post(endpoint, json=message, timeout=10)] *)
  requests_post : string -> pyval -> http_outcome
}.

Definition now `{Runtime} : pyval := VFloat (FFin time_time).

(** [l[-n:]] for [n > 0]. *)
Definition slice_last {A : Type} (n : nat) (l : list A) : list A :=
  skipn (length l - n) l.

(** [int(x)] on a finite float: truncation towards zero. *)
Definition Qtruncate (q : Q) : Z := if Qle_bool 0 q then Qfloor q else Qceiling q.

(** [sep.join(v)]: [v] is iterated, its items have to be [str]. *)
Fixpoint all_str (l : list pyval) : result (list string) :=
  match l with
  | [] => Ok []
  | VStr s :: l' => rest <- all_str l' ;; Ok (s :: rest)
  | _ :: _ => Raise TypeError
  end.

Definition join_value (sep : string) (v : pyval) : result string :=
  match v with
  | VList l => items <- all_str l ;; Ok (join sep items)
  | VStr s => Ok (join sep (chars s))
  | VDict d => Ok (join sep (map fst d))
  | _ => Raise TypeError
  end.

Definition nl : string := String "010" EmptyString.

(** Whether a value can be a [dict] key. *)
Definition hashable (v : pyval) : bool :=
  match v with
  | VList _ | VDict _ => false
  | _ => true
  end.

(** [v[key]] for a [str] key. *)
Definition getitem (v : pyval) (key : string) : result pyval :=
  match v with
  | VDict d =>
      match assoc_get d key with
      | Some x => Ok x
      | None => Raise (OtherException "KeyError")
      end
  | _ => Raise TypeError
  end.

(** The items a [for] loop takes from a value. *)
Definition iterate (v : pyval) : result (list pyval) :=
  match v with
  | VList l => Ok l
  | VDict d => Ok (map (fun kv => VStr (fst kv)) d)
  | VStr s => Ok (map VStr (chars s))
  | _ => Raise TypeError
  end.

(** [d[key] = x]: a key the [dict] has keeps its place, a new one comes
    last. *)
Fixpoint dict_set {V : Type} (d : list (string * V)) (key : string) (x : V)
  : list (string * V) :=
  match d with
  | [] => [(key, x)]
  | (k, y) :: rest =>
      if String.eqb k key then (k, x) :: rest else (k, y) :: dict_set rest key x
  end.

(** [v[key] = x] for a [str] key. *)
Definition setitem (v : pyval) (key : string) (x : pyval) : result pyval :=
  match v with
  | VDict d => Ok (VDict (dict_set d key x))
  | _ => Raise TypeError
  end.

End Py.

Import Py.

Local Close Scope Q_scope.
Local Open Scope nat_scope.

(* ================================================================== *)
(** * monitoring_agent.py: the trigger detector                        *)
(* ================================================================== *)

Module MonitoringAgent.

Section Detector.
Context `{Runtime}.

(** The agent's running state. *)
Record state : Type := { last_transaction_count : nat }.

Definition init : state := {| last_transaction_count := 0 |}.

(** The body of the [try] block of [_analyze_transaction_for_consent]. *)
Definition analyze_rules (transaction : pyval) : result pyval :=
  raw <- vget transaction "amount" (VInt 0) ;;
  x <- py_float raw ;;
  let amount := fabs x in
  account_id <- vget transaction "account_id" (VStr "unknown") ;;
  timestamp <- vget transaction "timestamp" now ;;
  if fgt amount (FFin (inject_Z 5000)) then
    id <- vget transaction "id" (VStr "unknown") ;;
    Ok (VDict
          [ ("type", VStr "high_value_transaction");
            ("transaction_id", id);
            ("amount", VFloat amount);
            ("user_id", account_id);
            ("timestamp", timestamp);
            ("reason", VStr ("High-value transaction (€" ++ format_2f amount
                             ++ ") detected - PSD3 consent required for processing")) ])
  else
    from_routing <- vget transaction "from_routing_num" (VStr "") ;;
    to_routing <- vget transaction "to_routing_num" (VStr "") ;;
    if truthy (py_and (py_and (VBool (py_ne from_routing to_routing)) from_routing)
                      to_routing)
    then
      id <- vget transaction "id" (VStr "unknown") ;;
      Ok (VDict
            [ ("type", VStr "international_transfer");
              ("transaction_id", id);
              ("amount", VFloat amount);
              ("user_id", account_id);
              ("timestamp", timestamp);
              ("reason", VStr ("International transfer detected (routing: "
                               ++ py_str from_routing ++ " → " ++ py_str to_routing
                               ++ ") - consent required")) ])
    else if fgt amount (FFin (inject_Z 1000)) then
      id <- vget transaction "id" (VStr "unknown") ;;
      Ok (VDict
            [ ("type", VStr "third_party_data_sharing");
              ("transaction_id", id);
              ("amount", VFloat amount);
              ("user_id", account_id);
              ("timestamp", timestamp);
              ("reason", VStr ("Large transaction (€" ++ format_2f amount
                               ++ ") may indicate third-party data sharing - consent verification required")) ])
    else Ok VNone.

(** [_analyze_transaction_for_consent]: [ValueError] and [TypeError] are
    caught and give [None]; any other exception propagates. *)
Definition analyze_transaction_for_consent (transaction : pyval) : result pyval :=
  match analyze_rules transaction with
  | Raise ValueError | Raise TypeError => Ok VNone
  | r => r
  end.

(** The first loop of [detect_consent_triggers]. *)
Fixpoint analyze_all (transactions : list pyval) (triggers : list pyval)
  : result (list pyval) :=
  match transactions with
  | [] => Ok triggers
  | transaction :: rest =>
      trigger <- analyze_transaction_for_consent transaction ;;
      analyze_all rest (if truthy trigger then triggers ++ [trigger] else triggers)
  end.

(** [account_activity]: a [dict] from account to its new records, in
    insertion order. *)
Definition activity : Type := list (pyval * list pyval).

Fixpoint activity_add (acts : activity) (account tx : pyval) : activity :=
  match acts with
  | [] => [(account, [tx])]
  | (k, txs) :: rest =>
      if py_eq k account then (k, txs ++ [tx]) :: rest
      else (k, txs) :: activity_add rest account tx
  end.

Fixpoint group_by_account (new_transactions : list pyval) (acts : activity)
  : result activity :=
  match new_transactions with
  | [] => Ok acts
  | tx :: rest =>
      account <- vget tx "account_id" (VStr "unknown") ;;
      if hashable account then group_by_account rest (activity_add acts account tx)
      else Raise TypeError
  end.

Definition review_trigger (account : pyval) (txs : list pyval) : pyval :=
  VDict
    [ ("type", VStr "account_activity_review");
      ("user_id", account);
      ("transaction_count", VInt (Z.of_nat (length txs)));
      ("timestamp", now);
      ("reason", VStr ("Multiple transactions detected for account " ++ py_str account
                       ++ " - consent review required")) ].

Fixpoint review_triggers (acts : activity) (triggers : list pyval) : list pyval :=
  match acts with
  | [] => triggers
  | (account, txs) :: rest =>
      review_triggers rest
        (if (3 <=? length txs)%nat then triggers ++ [review_trigger account txs]
         else triggers)
  end.

(** [detect_consent_triggers]; the state is returned also when the call
    raises, as the counter is assigned before the loops. *)
Definition detect_consent_triggers (st : state) (transactions : list pyval)
                                   (users : list pyval)
  : result (list pyval) * state :=
  match transactions with
  | [] => (Ok [], st)
  | _ =>
      let current_tx_count := length transactions in
      let '(new_transactions, st') :=
        if (last_transaction_count st <? current_tx_count)%nat then
          let new_transaction_count := current_tx_count - last_transaction_count st in
          (slice_last new_transaction_count transactions,
           {| last_transaction_count := current_tx_count |})
        else ([], st) in
      (triggers <- analyze_all transactions [] ;;
       match triggers, new_transactions with
       | [], _ :: _ =>
           account_activity <- group_by_account new_transactions [] ;;
           Ok (review_triggers account_activity triggers)
       | _, _ => Ok triggers
       end,
       st')
  end.

End Detector.

End MonitoringAgent.

(* ================================================================== *)
(** * The A2A message queue (the same class in both agent files)       *)
(* ================================================================== *)

Module A2AMessageQueue.

Section Queue.
Context `{Runtime}.

Definition agent_endpoints : list (string * string) :=
  [ ("ValidationAgent",
     "http://validation-agent-service.agents-ns.svc.cluster.local:8080/a2a");
    ("AuditAgent",
     "http://audit-agent-service.agents-ns.svc.cluster.local:8080/a2a") ].

(** The HTTP requests issued so far: endpoint and JSON body. *)
Definition outbox : Type := list (string * pyval).

(** [send_message]: the reply is only looked at for logging, the
    correlation id is returned unless a non-request exception escapes. *)
Definition send_message (agent_name target_agent message_type : string)
                        (payload correlation_id : pyval) : io outbox pyval :=
  fun sent =>
    let correlation_id :=
      match correlation_id with
      | VNone =>
          VStr (agent_name ++ "_" ++ py_str (VInt (Qtruncate time_time)) ++ "_"
                ++ py_str (VInt (py_hash (py_str payload))))
      | _ => correlation_id
      end in
    let a2a_message :=
      VDict
        [ ("protocol", VStr "A2A/1.0");
          ("message_id", correlation_id);
          ("from_agent", VStr agent_name);
          ("to_agent", VStr target_agent);
          ("message_type", VStr message_type);
          ("timestamp", now);
          ("payload", payload);
          ("headers", VDict [ ("content_type", VStr "application/json");
                              ("priority", VStr "normal") ]) ] in
    match assoc_get agent_endpoints target_agent with
    | None => (Ok correlation_id, sent)
    | Some endpoint =>
        if negb (truthy (VStr endpoint)) then (Ok correlation_id, sent)
        else
          let sent' := sent ++ [(endpoint, a2a_message)] in
          let outcome :=
            match requests_post endpoint a2a_message with
            | PostRaises e => Raise e
            | Response status_code json =>
                if (status_code =? 200)%Z then
                  result <- json ;;
                  status <- vget result "status" VNone ;;
                  Ok correlation_id
                else Ok correlation_id
            end in
          match outcome with
          | Raise RequestException => (Ok correlation_id, sent')
          | r => (r, sent')
          end
    end.

End Queue.

End A2AMessageQueue.

(* ================================================================== *)
(** * monitoring_agent.py: polling and the processing cycle            *)
(* ================================================================== *)

Module MonitoringCycle.

Import A2AMessageQueue.

Section Cycle.
Context `{Runtime}.

(** [requests.get(url, headers=headers, timeout=5)] when the flag is
    [true], [requests.get(url, timeout=5)] when it is [false]. *)
Variable requests_get : string -> bool -> http_outcome.

(** [random.choice] on a list of texts and [random.randint]. *)
Variable choice : list string -> string.
Variable randint : Z -> Z -> Z.

Definition name : string := "MonitoringAgent".

Definition transaction_history_url : string :=
  "http://transactionhistory.default.svc.cluster.local:8080/transactions".

Definition user_service_url : string :=
  "http://userservice.default.svc.cluster.local:8080".

Definition monitored_accounts : list string :=
  [ "1234567890"; "0987654321"; "1111111111" ].

(** *** [MCPContextProvider] *)

Definition check_consent_required (data : pyval) : bool :=
  match data with
  | VList (_ :: _) => true
  | _ => false
  end.

Definition wrap_api_call (service_name endpoint : string) (data : pyval) : pyval :=
  VDict [ ("service", VStr service_name);
          ("endpoint", VStr endpoint);
          ("data", data);
          ("timestamp", now);
          ("is_psd3_eligible", VBool true);
          ("consent_required", VBool (check_consent_required data)) ].

(** *** Polling *)

(** A request and its response: the status code and the outcome of
    [response.json()]. *)
Definition fetch (url : string) (with_headers : bool) : result (Z * result pyval) :=
  match requests_get url with_headers with
  | PostRaises e => Raise e
  | Response status_code json => Ok (status_code, json)
  end.

(** [for tx in account_transactions: tx['account_id'] = account_id]. *)
Fixpoint tag_all (account_id : string) (account_transactions : list pyval)
  : result (list pyval) :=
  match account_transactions with
  | [] => Ok []
  | tx :: rest =>
      tx <- setitem tx "account_id" (VStr account_id) ;;
      rest <- tag_all account_id rest ;;
      Ok (tx :: rest)
  end.

(** The body of the [try] block of [poll_transactions] for one account. *)
Definition poll_account (account_id : string) (all_transactions : list pyval)
  : result (list pyval) :=
  let url := (transaction_history_url ++ "/" ++ account_id)%string in
  response <- fetch url true ;;
  response <- (if (fst response =? 401)%Z then fetch url false else Ok response) ;;
  if (fst response =? 200)%Z then
    account_transactions <- snd response ;;
    match account_transactions with
    | VList records =>
        tagged <- tag_all account_id records ;;
        Ok (all_transactions ++ tagged)
    | _ => Ok all_transactions
    end
  else Ok all_transactions.

(** The loop of [poll_transactions]: a request exception is logged and
    the next account is polled, any other exception propagates. *)
Fixpoint poll_accounts (accounts : list string) (all_transactions : list pyval)
  : result (list pyval) :=
  match accounts with
  | [] => Ok all_transactions
  | account_id :: rest =>
      match poll_account account_id all_transactions with
      | Ok all_transactions => poll_accounts rest all_transactions
      | Raise RequestException => poll_accounts rest all_transactions
      | Raise e => Raise e
      end
  end.

(** [poll_transactions]: [None] when no record was polled. *)
Definition poll_transactions : result (option (list pyval)) :=
  all_transactions <- poll_accounts monitored_accounts [] ;;
  Ok (match all_transactions with
      | [] => None
      | _ => Some all_transactions
      end).

(** The loop of [poll_users]. *)
Fixpoint poll_user_ids (user_ids : list string) (users : list pyval)
  : result (list pyval) :=
  match user_ids with
  | [] => Ok users
  | user_id :: rest =>
      let url := (user_service_url ++ "/users/" ++ user_id)%string in
      response <- fetch url true ;;
      if (fst response =? 200)%Z then
        user <- snd response ;;
        poll_user_ids rest (users ++ [user])
      else poll_user_ids rest users
  end.

(** [poll_users]: [None] after a request exception. *)
Definition poll_users : result (option (list pyval)) :=
  match poll_user_ids [ "testuser"; "alice"; "bob" ] [] with
  | Ok users => Ok (Some users)
  | Raise RequestException => Ok None
  | Raise e => Raise e
  end.

(** *** Sending *)

Definition send_to_validation_agent (trigger : pyval) : io outbox unit :=
  correlation_id <~ send_message name "ValidationAgent" "consent_validation_request"
                                 trigger VNone ;;
  ret tt.

Definition trigger_types : list string :=
  [ "third_party_sharing"; "high_value_transaction"; "international_transfer";
    "account_review" ].

Definition purposes : list string :=
  [ "investment_advice"; "loan_application"; "insurance_quote"; "tax_planning" ].

Definition providers : list string :=
  [ "FinTechCorp"; "InvestmentApp"; "LoanProvider"; "InsuranceHub" ].

(** The trigger of [generate_demo_trigger_and_send]. *)
Definition demo_trigger : pyval :=
  VDict [ ("type", VStr (choice trigger_types));
          ("amount", VInt (randint 100 10000));
          ("purpose", VStr (choice purposes));
          ("third_party_provider", VStr (choice providers));
          ("user_id", VStr ("user_" ++ py_str (VInt (randint 1000 9999))));
          ("data_scope", VList [ VStr "transactions"; VStr "balance" ]);
          ("consent_required", VBool true);
          ("timestamp", now) ].

Definition generate_demo_trigger_and_send : io outbox unit :=
  let trigger := demo_trigger in
  type <~ lift (getitem trigger "type") ;;
  purpose <~ lift (getitem trigger "purpose") ;;
  send_to_validation_agent trigger.

(** The loop of [process_cycle] over the triggers: the message with the
    wrapped context is built and dropped, the trigger alone is sent. *)
Fixpoint send_triggers (triggers : list pyval) (wrapped_transactions wrapped_users : pyval)
  : io outbox unit :=
  match triggers with
  | [] => ret tt
  | trigger :: rest =>
      trigger_type <~ lift (getitem trigger "type") ;;
      let message :=
        VDict [ ("trigger_type", trigger_type);
                ("data", trigger);
                ("source_agent", VStr name);
                ("context", VDict [ ("transactions", wrapped_transactions);
                                    ("users", wrapped_users) ]) ] in
      done <~ send_to_validation_agent trigger ;;
      send_triggers rest wrapped_transactions wrapped_users
  end.

(** [process_cycle]: the detector state and the requests issued are
    returned also when the cycle raises. *)
Definition process_cycle (st : MonitoringAgent.state) (sent : outbox)
  : (result unit * MonitoringAgent.state) * outbox :=
  match poll_transactions with
  | Raise e => ((Raise e, st), sent)
  | Ok transactions =>
      match poll_users with
      | Raise e => ((Raise e, st), sent)
      | Ok users =>
          match transactions, users with
          | Some transactions, Some users =>
              let wrapped_transactions :=
                wrap_api_call "ledger-writer" "/transactions" (VList transactions) in
              let wrapped_users := wrap_api_call "user-service" "/users" (VList users) in
              match MonitoringAgent.detect_consent_triggers st transactions users with
              | (Raise e, st') => ((Raise e, st'), sent)
              | (Ok triggers, st') =>
                  let '(r, sent') :=
                    send_triggers triggers wrapped_transactions wrapped_users sent in
                  ((r, st'), sent')
              end
          | _, _ =>
              let '(r, sent') := generate_demo_trigger_and_send sent in
              ((r, st), sent')
          end
      end
  end.

(** One turn of [ADKAgent.run_loop], before the sleep: every exception of
    the cycle is caught and logged. *)
Definition run_loop_turn (st : MonitoringAgent.state) (sent : outbox)
  : MonitoringAgent.state * outbox :=
  let '((_, st'), sent') := process_cycle st sent in (st', sent').

(** *** The API for manual triggers *)

(** [random.choice] on the list of mock triggers. *)
Variable choice_trigger : list pyval -> pyval.

Definition generate_demo_trigger : pyval :=
  let mock_triggers :=
    [ VDict [ ("type", VStr "third_party_balance_access");
              ("user_id", VStr ("user_" ++ py_str (VInt (randint 1000 9999))));
              ("amount", VInt (randint 100 5000));
              ("timestamp", now);
              ("third_party_provider", VStr "FinTech Corp");
              ("purpose", VStr "Loan Application");
              ("data_scope", VList [ VStr "balance"; VStr "transactions" ]);
              ("consent_required", VBool true) ];
      VDict [ ("type", VStr "third_party_transaction_sharing");
              ("user_id", VStr ("user_" ++ py_str (VInt (randint 1000 9999))));
              ("amount", VInt (randint 50 1000));
              ("timestamp", now);
              ("third_party_provider", VStr "Investment App");
              ("purpose", VStr "Investment Analysis");
              ("data_scope", VList [ VStr "transactions"; VStr "balance" ]);
              ("consent_required", VBool true) ];
      VDict [ ("type", VStr "open_banking_consent");
              ("user_id", VStr ("user_" ++ py_str (VInt (randint 1000 9999))));
              ("amount", VInt 0);
              ("timestamp", now);
              ("third_party_provider", VStr "Budget Tracker");
              ("purpose", VStr "Financial Planning");
              ("data_scope", VList [ VStr "accounts"; VStr "transactions" ]);
              ("consent_required", VBool true) ] ] in
  choice_trigger mock_triggers.

(** The handler of [/trigger-consent]: the reply and its status code. *)
Definition trigger_consent (sent : outbox) : (pyval * Z) * outbox :=
  let demo_trigger := generate_demo_trigger in
  let attempt :=
    (type <~ lift (getitem demo_trigger "type") ;;
     send_message name "ValidationAgent" "consent_validation_request" demo_trigger VNone)
      sent in
  match attempt with
  | (Ok _, sent') =>
      ((VDict [ ("status", VStr "success");
                ("trigger", demo_trigger);
                ("message", VStr "Consent trigger sent to validation agent") ], 200%Z),
       sent')
  | (Raise e, sent') =>
      ((VDict [ ("status", VStr "error"); ("message", VStr (exn_str e)) ], 500%Z), sent')
  end.

End Cycle.

End MonitoringCycle.

(* ================================================================== *)
(** * validation_agent.py: the decision engine                         *)
(* ================================================================== *)

Module ValidationAgent.

Import A2AMessageQueue.

Section Engine.
Context `{Runtime}.

Definition name : string := "ValidationAgent".

(** [client.models.generate_content(model, contents).text]. *)
Definition ai_client : Type := string -> string -> result pyval.

(** The agent: [client] is [None] when no API key is configured. *)
Record agent : Type := { client : option ai_client }.

(** *** The rule-based strategy *)

Definition add_rule (applies : bool) (points : Z) (reason : string)
                    (acc : Z * list string) : Z * list string :=
  if applies then ((fst acc + points)%Z, snd acc ++ [reason]) else acc.

(** [risk_score] and [reasons] of [_mock_validation] when the decision
    is taken. *)
Definition risk_rules (trigger_data : pyval) : result (Z * list string) :=
  amount <- vget trigger_data "amount" (VInt 0) ;;
  trigger_type <- vget trigger_data "type" (VStr "unknown") ;;
  purpose <- vget trigger_data "purpose" (VStr "unknown") ;;
  provider <- vget trigger_data "third_party_provider" (VStr "unknown") ;;
  let acc := (0%Z, []) in
  high_value <- gt_int amount 5000 ;;
  let acc := add_rule high_value 3
               "High-value transaction requires enhanced scrutiny" acc in
  text <- as_str purpose ;;
  let acc := add_rule (contains "international" (lower text)
                       || contains "cross-border" (lower text)) 2
               "International transfer requires additional verification" acc in
  let acc := add_rule (truthy (py_and provider (VBool (py_ne provider (VStr "bank"))))) 1
               "Third-party data sharing must be explicitly consented to" acc in
  let acc := add_rule (py_eq trigger_type (VStr "account_review")) 1
               "Account activity review requires user confirmation" acc in
  Ok acc.

Definition validation_result (decision : string) (confidence : pyval)
                             (reasoning risk_level : string)
                             (valid ai_processed : bool) : pyval :=
  VDict [ ("decision", VStr decision);
          ("confidence", confidence);
          ("reasoning", VStr reasoning);
          ("risk_level", VStr risk_level);
          ("valid", VBool valid);
          ("ai_processed", VBool ai_processed) ].

Definition verdict (risk_score : Z) (reasons : list string) : pyval :=
  if (4 <=? risk_score)%Z then
    validation_result "REJECT" (lit 0.85)
      (join "; " reasons ++ ". Multiple PSD3 compliance concerns identified.")
      "HIGH" false false
  else if (2 <=? risk_score)%Z then
    validation_result "APPROVE" (lit 0.75)
      (join "; " reasons ++ ". Approved with conditions per PSD3 requirements.")
      "MEDIUM" true false
  else
    validation_result "APPROVE" (lit 0.95)
      "Low-risk transaction compliant with PSD3 requirements."
      "LOW" true false.

Definition mock_validation (trigger_data : pyval) : result pyval :=
  scored <- risk_rules trigger_data ;;
  Ok (verdict (fst scored) (snd scored)).

(** *** The AI-assisted strategy *)

Definition create_psd3_validation_prompt (trigger_data : pyval) : result string :=
  trigger_type <- vget trigger_data "type" (VStr "unknown") ;;
  amount <- vget trigger_data "amount" (VInt 0) ;;
  purpose <- vget trigger_data "purpose" (VStr "unknown") ;;
  provider <- vget trigger_data "third_party_provider" (VStr "unknown") ;;
  data_scope <- vget trigger_data "data_scope" (VList []) ;;
  scope_text <- (if truthy data_scope then join_value ", " data_scope
                 else Ok "Not specified") ;;
  user_id <- vget trigger_data "user_id" (VStr "unknown") ;;
  Ok (join nl
        [ "";
          "You are an expert PSD3 (Payment Services Directive 3) compliance validator for open banking consent requests.";
          "";
          "Analyze the following consent request for PSD3 compliance:";
          "";
          "Consent Request Details:";
          ("- Type: " ++ py_str trigger_type)%string;
          ("- Amount: €" ++ py_str amount)%string;
          ("- Purpose: " ++ py_str purpose)%string;
          ("- Third Party Provider: " ++ py_str provider)%string;
          ("- Data Scope: " ++ scope_text)%string;
          ("- User ID: " ++ py_str user_id)%string;
          "";
          "PSD3 Key Requirements to Check:";
          "1. **Explicit Consent**: Must be clear, specific, and informed";
          "2. **Purpose Limitation**: Data processing must be limited to specified purposes";
          "3. **Data Minimization**: Only necessary data should be shared";
          "4. **Right to Withdraw**: User must be able to withdraw consent easily";
          "5. **Transparency**: Clear information about data processing";
          "6. **High-Value Transactions**: Special scrutiny for amounts >€5000";
          "7. **International Transfers**: Additional checks for cross-border transactions";
          "";
          "Please analyze this request and provide:";
          "1. Decision: APPROVE or REJECT";
          "2. Confidence Level: 0.0 to 1.0 (how certain you are)";
          "3. Detailed Reasoning: Explain your decision based on PSD3 requirements";
          "4. Risk Level: LOW, MEDIUM, or HIGH";
          "";
          "Format your response as:";
          "DECISION: [APPROVE/REJECT]";
          "CONFIDENCE: [0.0-1.0]";
          "REASONING: [Detailed explanation]";
          "RISK_LEVEL: [LOW/MEDIUM/HIGH]";
          "" ]).

(** The four variables the parsing loop assigns. *)
Record parsed : Type := {
  decision : string;
  confidence : pyfloat;
  reasoning : string;
  risk_level : string
}.

(** [max(0.0, min(1.0, confidence))]. *)
Definition clamp (c : pyfloat) : pyfloat := fmax (FFin 0) (fmin (FFin 1) c).

Definition half : pyfloat := float_of_Q 0.5.

(** One iteration of the loop over the response lines. *)
Definition parse_line (p : parsed) (line : string) : result parsed :=
  let line := strip line in
  if startswith line "DECISION:" then
    v <- split1_snd ":" line ;;
    Ok {| decision := upper (strip v); confidence := confidence p;
          reasoning := reasoning p; risk_level := risk_level p |}
  else if startswith line "CONFIDENCE:" then
    c <- match (v <- split1_snd ":" line ;; float_of_str (strip v)) with
         | Ok c => Ok (clamp c)
         | Raise ValueError => Ok half
         | Raise e => Raise e
         end ;;
    Ok {| decision := decision p; confidence := c;
          reasoning := reasoning p; risk_level := risk_level p |}
  else if startswith line "REASONING:" then
    v <- split1_snd ":" line ;;
    Ok {| decision := decision p; confidence := confidence p;
          reasoning := strip v; risk_level := risk_level p |}
  else if startswith line "RISK_LEVEL:" then
    v <- split1_snd ":" line ;;
    Ok {| decision := decision p; confidence := confidence p;
          reasoning := reasoning p; risk_level := upper (strip v) |}
  else Ok p.

Fixpoint parse_lines (p : parsed) (lines : list string) : result parsed :=
  match lines with
  | [] => Ok p
  | line :: rest => p' <- parse_line p line ;; parse_lines p' rest
  end.

Definition parse_ai_response (ai_response : string) (trigger_data : pyval)
  : result pyval :=
  try_except
    (let lines := split "010" ai_response in
     p <- parse_lines {| decision := "REJECT"; confidence := half;
                         reasoning := ai_response; risk_level := "MEDIUM" |} lines ;;
     Ok (VDict [ ("decision", VStr (decision p));
                 ("confidence", VFloat (confidence p));
                 ("reasoning", VStr (reasoning p));
                 ("risk_level", VStr (risk_level p));
                 ("valid", VBool (String.eqb (decision p) "APPROVE"));
                 ("ai_processed", VBool true) ]))
    (fun _ => mock_validation trigger_data).

Definition perform_ai_validation (a : agent) (trigger_data : pyval) : result pyval :=
  match client a with
  | None => mock_validation trigger_data
  | Some generate_content =>
      try_except
        (prompt <- create_psd3_validation_prompt trigger_data ;;
         text <- generate_content "gemini-1.5-flash" prompt ;;
         text <- as_str text ;;
         let ai_response := strip text in
         parse_ai_response ai_response trigger_data)
        (fun _ => mock_validation trigger_data)
  end.

(** *** Forwarding to the audit agent and the A2A receive handler *)

Definition send_to_audit_agent (validation_result trigger_data correlation_id : pyval)
  : io outbox pyval :=
  fun sent =>
    let audit_payload :=
      VDict [ ("validation_result", validation_result);
              ("trigger_data", trigger_data);
              ("source_agent", VStr name);
              ("timestamp", now) ] in
    match send_message name "AuditAgent" "audit_log_request" audit_payload
                       correlation_id sent with
    | (Ok correlation_id, sent') => (Ok correlation_id, sent')
    | (Raise _, sent') => (Ok VNone, sent')
    end.

Definition rejected (reason : string) : pyval :=
  VDict [ ("status", VStr "rejected"); ("reason", VStr reason) ].

(** The [try] block of [process_a2a_message]. *)
Definition handle_message (a : agent) (message : pyval) : io outbox pyval :=
  protocol <~ lift (vget message "protocol" VNone) ;;
  if py_ne protocol (VStr "A2A/1.0") then ret (rejected "Unsupported protocol")
  else
    to_agent <~ lift (vget message "to_agent" VNone) ;;
    if py_ne to_agent (VStr name) then ret (rejected "Message not for this agent")
    else
      message_id <~ lift (vget message "message_id" VNone) ;;
      message_type <~ lift (vget message "message_type" VNone) ;;
      payload <~ lift (vget message "payload" (VDict [])) ;;
      if py_eq message_type (VStr "consent_validation_request") then
        validation_result <~ lift (perform_ai_validation a payload) ;;
        audit_correlation_id <~ send_to_audit_agent validation_result payload message_id ;;
        ret (VDict [ ("status", VStr "accepted");
                     ("message_id", message_id);
                     ("result", validation_result);
                     ("audit_message_id", audit_correlation_id) ])
      else ret (rejected ("Unknown message type: " ++ py_str message_type)).

Definition error_reply (e : exn) : pyval :=
  VDict [ ("status", VStr "error"); ("reason", VStr (exn_str e)) ].

Definition process_a2a_message (a : agent) (message : pyval) (sent : outbox)
  : pyval * outbox :=
  match handle_message a message sent with
  | (Ok reply, sent') => (reply, sent')
  | (Raise e, sent') => (error_reply e, sent')
  end.

(** *** The HTTP endpoints

    [body] is the outcome of [request.get_json()]; the reply is the JSON
    document and the status code. *)

Definition validate_consent (a : agent) (body : result pyval) (sent : outbox)
  : (pyval * Z) * outbox :=
  let attempt : result (pyval * Z) * outbox :=
    match body with
    | Raise e => (Raise e, sent)
    | Ok trigger_data =>
        if negb (truthy trigger_data)
        then (Ok (VDict [ ("error", VStr "No trigger data provided") ], 400%Z), sent)
        else
          match vget trigger_data "type" (VStr "unknown") with
          | Raise e => (Raise e, sent)
          | Ok _ =>
              match perform_ai_validation a trigger_data with
              | Raise e => (Raise e, sent)
              | Ok validation_result =>
                  match send_to_audit_agent validation_result trigger_data VNone sent with
                  | (Raise e, sent') => (Raise e, sent')
                  | (Ok _, sent') => (Ok (validation_result, 200%Z), sent')
                  end
              end
          end
    end in
  match attempt with
  | (Ok reply, sent') => (reply, sent')
  | (Raise e, sent') =>
      ((VDict [ ("error", VStr (exn_str e)); ("decision", VStr "error");
                ("confidence", lit 0.0) ], 500%Z), sent')
  end.

Definition handle_a2a_message (a : agent) (body : result pyval) (sent : outbox)
  : (pyval * Z) * outbox :=
  match body with
  | Raise e => ((error_reply e, 500%Z), sent)
  | Ok a2a_message =>
      if negb (truthy a2a_message)
      then ((rejected "No A2A message provided", 400%Z), sent)
      else
        let '(result, sent') := process_a2a_message a a2a_message sent in
        ((result, 200%Z), sent')
  end.

End Engine.

End ValidationAgent.

(* ================================================================== *)
(** * shared_queue.py: the file-based message queue                    *)
(* ================================================================== *)

Module SharedMessageQueue.

Section Queue.
Context `{Runtime}.

(** What the queue file holds: nothing (no file), text that is no JSON,
    or a JSON value. *)
Inductive file_content : Type :=
| Missing
| Corrupt
| Json (v : pyval).

(** The queue file and whether the lock file exists.  Both files can
    always be written. *)
Record files : Type := {
  queue_file : file_content;
  lock_file : bool
}.

(** A call returns, normally or by an exception, or it waits for the
    lock for ever: nothing else runs that could remove the lock file. *)
Inductive outcome (A : Type) : Type :=
| Returns (r : result A) (fs : files)
| Waits.

Arguments Returns {A} r fs.
Arguments Waits {A}.

(** [__init__] with [_ensure_queue_file]. *)
Definition ensure_queue_file (fs : files) : files :=
  match queue_file fs with
  | Missing => {| queue_file := Json (VList []); lock_file := lock_file fs |}
  | _ => fs
  end.

(** [_acquire_lock]: creating the lock file fails when it exists. *)
Definition acquire_lock (fs : files) : bool * files :=
  if lock_file fs then (false, fs)
  else (true, {| queue_file := queue_file fs; lock_file := true |}).

Definition release_lock (fs : files) : files :=
  {| queue_file := queue_file fs; lock_file := false |}.

(** [json.load] of the queue file. *)
Definition load_queue (fs : files) : result pyval :=
  match queue_file fs with
  | Missing => Raise (OtherException "FileNotFoundError")
  | Corrupt => Raise ValueError
  | Json v => Ok v
  end.

Definition write_queue (fs : files) (queue : list pyval) : files :=
  {| queue_file := Json (VList queue); lock_file := lock_file fs |}.

(** The body of the [try] of [send_message], with the lock held. *)
Definition send_locked (msg message : pyval) (fs : files) : result unit * files :=
  match load_queue fs with
  | Raise e => (Raise e, fs)
  | Ok (VList queue) =>
      let fs := write_queue fs (queue ++ [msg]) in
      match vget message "type" (VStr "unknown") with
      | Raise e => (Raise e, fs)
      | Ok _ => (Ok tt, fs)
      end
  | Ok _ => (Raise AttributeError, fs)
  end.

Definition send_message (agent_name : string) (message : pyval) (fs : files)
  : outcome unit :=
  let msg :=
    VDict [ ("to", VStr agent_name);
            ("payload", message);
            ("timestamp", now);
            ("id", VStr (py_str now ++ "_" ++ py_str (VInt (py_hash (py_str message))))) ] in
  match acquire_lock fs with
  | (false, _) => Waits
  | (true, fs) =>
      let '(r, fs) := send_locked msg message fs in
      Returns r (release_lock fs)
  end.

(** The loop of [get_messages] over the queue. *)
Fixpoint sort_messages (agent_name : string) (queue messages remaining : list pyval)
  : result (list pyval * list pyval) :=
  match queue with
  | [] => Ok (messages, remaining)
  | msg :: rest =>
      to <- getitem msg "to" ;;
      if py_eq to (VStr agent_name)
      then sort_messages agent_name rest (messages ++ [msg]) remaining
      else sort_messages agent_name rest messages (remaining ++ [msg])
  end.

Definition get_locked (agent_name : string) (fs : files)
  : result (list pyval) * files :=
  match (queue <- load_queue fs ;; items <- iterate queue ;;
         sort_messages agent_name items [] []) with
  | Raise e => (Raise e, fs)
  | Ok (messages, remaining_queue) => (Ok messages, write_queue fs remaining_queue)
  end.

Definition get_messages (agent_name : string) (fs : files) : outcome (list pyval) :=
  match acquire_lock fs with
  | (false, _) => Waits
  | (true, fs) =>
      let '(r, fs) := get_locked agent_name fs in
      Returns r (release_lock fs)
  end.

End Queue.

Arguments Returns {A} r fs.
Arguments Waits {A}.

End SharedMessageQueue.

(* ================================================================== *)
(** * audit_agent.py: the audit ledger                                 *)
(* ================================================================== *)

Module AuditAgent.

Section Ledger.
Context `{Runtime}.

Definition name : string := "AuditAgent".

(** The in-memory ledger, the content of [/tmp/audit_logs.json] ([None]
    while the file does not exist) and whether the file can be written. *)
Record state : Type := {
  audit_logs : list pyval;
  audit_log_file : option (list pyval);
  writable : bool
}.

Definition set_logs (st : state) (logs : list pyval) : state :=
  {| audit_logs := logs; audit_log_file := audit_log_file st; writable := writable st |}.

(** [_load_audit_logs] at start-up: [stored] is the outcome of reading
    the file, when there is one. *)
Definition load_audit_logs (stored : option (result (list pyval))) (can_write : bool)
  : state :=
  match stored with
  | None => {| audit_logs := []; audit_log_file := None; writable := can_write |}
  | Some (Ok logs) =>
      {| audit_logs := logs; audit_log_file := Some logs; writable := can_write |}
  | Some (Raise _) =>
      {| audit_logs := []; audit_log_file := None; writable := can_write |}
  end.

(** [_save_audit_logs]: a failing write is logged and ignored. *)
Definition save_audit_logs (st : state) : state :=
  if writable st
  then {| audit_logs := audit_logs st; audit_log_file := Some (audit_logs st);
          writable := writable st |}
  else st.

(** [get_logs]. *)
Definition get_logs (st : state) : pyval :=
  VDict [ ("logs", VList (audit_logs st));
          ("count", VInt (Z.of_nat (length (audit_logs st)))) ].

Definition format_ai_reasoning_as_notes (ai_reasoning validation_result trigger_data : pyval)
  : result (list string) :=
  consent_type <- vget trigger_data "type" (VStr "unknown") ;;
  amount <- vget trigger_data "amount" (VInt 0) ;;
  purpose <- vget trigger_data "purpose" (VStr "unspecified") ;;
  provider <- vget trigger_data "third_party_provider" (VStr "unknown") ;;
  user_id <- vget trigger_data "user_id" (VStr "unknown") ;;
  decision <- vget validation_result "decision" (VStr "UNKNOWN") ;;
  confidence <- vget validation_result "confidence" (lit 0.0) ;;
  let approved := py_eq decision (VStr "APPROVE") in
  let status_icon := if approved then "✅" else "❌" in
  type_text <- as_str consent_type ;;
  let notes :=
    [ (status_icon ++ " AI Assessment: " ++ title (replace_char "_" " " type_text)
       ++ " Request")%string ] in
  confidence_text <- format_pct1 confidence ;;
  amount_text <- format_comma amount ;;
  let notes := notes ++
    [ ("• Confidence: " ++ confidence_text ++ " | Amount: €" ++ amount_text
       ++ " | Purpose: " ++ py_str purpose)%string;
      ("• Provider: " ++ py_str provider ++ " | User: " ++ py_str user_id)%string ] in
  high_value <- gt_int amount 5000 ;;
  high_text <- (if high_value then format_comma amount else Ok "") ;;
  third_party <- str_in "third_party" consent_type ;;
  let third_party := third_party || py_ne provider (VStr "bank") in
  let notes := notes ++
    (if approved then
       [ "• PSD3 Compliance: ✅ Request meets regulatory requirements" ]
       ++ (if high_value
           then [ ("• High-Value Review: ✅ €" ++ high_text
                   ++ " transaction approved under enhanced scrutiny")%string ]
           else [])
       ++ (if third_party
           then [ ("• Third-Party Access: ✅ Explicit consent granted for "
                   ++ py_str provider)%string ]
           else [])
       ++ [ "• Data Processing: ✅ Purpose limitation and minimization applied" ]
     else
       [ "• PSD3 Compliance: ❌ Request does not meet all regulatory requirements" ]
       ++ (if high_value
           then [ ("• High-Value Review: ❌ €" ++ high_text
                   ++ " requires additional compliance measures")%string ]
           else [])
       ++ (if third_party
           then [ ("• Third-Party Access: ❌ Additional verification needed for "
                   ++ py_str provider)%string ]
           else [])
       ++ [ "• Remediation: Review consent scope and obtain explicit user confirmation" ]) in
  text <- as_str ai_reasoning ;;
  let notes := notes ++
    (if contains "purpose" (lower text)
     then [ "• Purpose Clarity: AI validated processing purpose specification" ]
     else []) in
  let notes := notes ++
    (if contains "withdraw" (lower text) || contains "revoke" (lower text)
     then [ "• Withdrawal Rights: AI confirmed revocation mechanisms available" ]
     else []) in
  if 100 <? String.length text then
    let sentences := split "." text in
    let key_insights :=
      filter (fun s => negb (String.eqb s "")) (map strip (firstn 2 sentences)) in
    match key_insights with
    | [] => Ok notes
    | _ => Ok (notes ++ [ ("• AI Analysis: " ++ join ". " key_insights ++ ".")%string ])
    end
  else Ok notes.

Definition generate_regulatory_notes (validation_result trigger_data : pyval)
  : result (list string) :=
  trigger_type <- vget trigger_data "type" (VStr "unknown") ;;
  is_valid <- vget validation_result "valid" (VBool false) ;;
  confidence <- vget validation_result "confidence" (lit 0.0) ;;
  if truthy is_valid then
    confidence_text <- format_pct1 confidence ;;
    let notes :=
      [ "PSD3 Article 64 compliance confirmed";
        "Explicit consent obtained for data processing";
        "Data minimization principles applied";
        "Right to withdraw consent maintained";
        "Transparent privacy notice provided";
        ("AI validation confidence: " ++ confidence_text)%string ] in
    Ok (notes ++
        (if py_eq trigger_type (VStr "high_value_transaction")
         then [ "High-value transaction consent validated" ]
         else if py_eq trigger_type (VStr "international_transfer")
         then [ "Cross-border transfer consent confirmed" ]
         else if py_eq trigger_type (VStr "third_party_data_sharing")
         then [ "Third-party data sharing consent verified" ]
         else if py_eq trigger_type (VStr "account_activity_review")
         then [ "Account activity consent review completed" ]
         else []))
  else
    reason <- vget validation_result "reason" (VStr "Validation failed") ;;
    confidence_text <- format_pct1 confidence ;;
    let notes :=
      [ ("REJECTED: " ++ py_str reason)%string;
        "PSD3 Article 64: Consent must be specific and informed";
        "Data protection impact assessment recommended";
        "User notified of rejection with reasoning";
        "Alternative narrower consent scope suggested";
        ("AI validation confidence: " ++ confidence_text)%string ] in
    critical <- lt_float confidence (float_of_Q 0.5) ;;
    if critical
    then Ok (notes ++ [ "CRITICAL: Low confidence validation - manual review required" ])
    else
      moderate <- lt_float confidence (float_of_Q 0.7) ;;
      if moderate
      then Ok (notes ++ [ "WARNING: Moderate confidence - additional verification recommended" ])
      else Ok notes.

(** [process_audit_log] up to the construction of [audit_entry]; the
    entry comes with the two payload parts the log line reads again. *)
Definition make_entry (audit_data : pyval) : result (pyval * pyval * pyval) :=
  validation_result <- vget audit_data "validation_result" (VDict []) ;;
  trigger_data <- vget audit_data "trigger_data" (VDict []) ;;
  ai_reasoning <- vget validation_result "reasoning" (VStr "") ;;
  substantial <- (if truthy ai_reasoning
                  then n <- py_len ai_reasoning ;; Ok (50 <? n)
                  else Ok false) ;;
  regulatory_notes <-
    (if substantial
     then format_ai_reasoning_as_notes ai_reasoning validation_result trigger_data
     else generate_regulatory_notes validation_result trigger_data) ;;
  timestamp <- vget audit_data "timestamp" now ;;
  source_agent <- vget audit_data "source_agent" (VStr "Unknown") ;;
  Ok (VDict [ ("timestamp", timestamp);
              ("validation_result", validation_result);
              ("trigger_data", trigger_data);
              ("source_agent", source_agent);
              ("regulatory_notes", VList (map VStr regulatory_notes)) ],
      trigger_data, validation_result).

(** The fields the log line after the append reads. *)
Definition log_line_fields (trigger_data validation_result : pyval) : result unit :=
  type <- vget trigger_data "type" (VStr "unknown") ;;
  user_id <- vget trigger_data "user_id" (VStr "unknown") ;;
  decision <- vget validation_result "decision" (VStr "unknown") ;;
  Ok tt.

Definition process_audit_log (audit_data : pyval) : io state unit :=
  made <~ lift (make_entry audit_data) ;;
  let '(audit_entry, trigger_data, validation_result) := made in
  fun st =>
    let st := set_logs st (audit_logs st ++ [audit_entry]) in
    match log_line_fields trigger_data validation_result with
    | Raise e => (Raise e, st)
    | Ok _ =>
        let st := save_audit_logs st in
        if 100 <? length (audit_logs st)
        then (Ok tt, save_audit_logs (set_logs st (slice_last 100 (audit_logs st))))
        else (Ok tt, st)
    end.

Definition rejected (reason : string) : pyval :=
  VDict [ ("status", VStr "rejected"); ("reason", VStr reason) ].

(** The [try] block of [process_a2a_message]. *)
Definition handle_message (message : pyval) : io state pyval :=
  protocol <~ lift (vget message "protocol" VNone) ;;
  if py_ne protocol (VStr "A2A/1.0") then ret (rejected "Unsupported protocol")
  else
    to_agent <~ lift (vget message "to_agent" VNone) ;;
    if py_ne to_agent (VStr name) then ret (rejected "Message not for this agent")
    else
      message_id <~ lift (vget message "message_id" VNone) ;;
      message_type <~ lift (vget message "message_type" VNone) ;;
      payload <~ lift (vget message "payload" (VDict [])) ;;
      if py_eq message_type (VStr "audit_log_request") then
        done <~ process_audit_log payload ;;
        ret (VDict [ ("status", VStr "accepted");
                     ("message_id", message_id);
                     ("message", VStr "Audit log recorded via A2A") ])
      else ret (rejected ("Unknown message type: " ++ py_str message_type)).

Definition error_reply (e : exn) : pyval :=
  VDict [ ("status", VStr "error"); ("reason", VStr (exn_str e)) ].

Definition process_a2a_message (message : pyval) (st : state) : pyval * state :=
  match handle_message message st with
  | (Ok reply, st') => (reply, st')
  | (Raise e, st') => (error_reply e, st')
  end.

(** *** The HTTP endpoints *)

Definition receive_audit (body : result pyval) (st : state) : (pyval * Z) * state :=
  match body with
  | Raise e => ((VDict [ ("error", VStr (exn_str e)) ], 500%Z), st)
  | Ok audit_data =>
      if negb (truthy audit_data)
      then ((VDict [ ("error", VStr "No audit data provided") ], 400%Z), st)
      else
        match process_audit_log audit_data st with
        | (Ok _, st') =>
            ((VDict [ ("status", VStr "received");
                      ("message", VStr "Audit log recorded") ], 200%Z), st')
        | (Raise e, st') => ((VDict [ ("error", VStr (exn_str e)) ], 500%Z), st')
        end
  end.

Definition handle_a2a_message (body : result pyval) (st : state) : (pyval * Z) * state :=
  match body with
  | Raise e => ((error_reply e, 500%Z), st)
  | Ok a2a_message =>
      if negb (truthy a2a_message)
      then ((rejected "No A2A message provided", 400%Z), st)
      else
        let '(result, st') := process_a2a_message a2a_message st in
        ((result, 200%Z), st')
  end.

(** *** The polling loop

    [run_loop] hands every message of the shared queue to
    [self.process_audit_message], a method the class does not define:
    looking it up raises [AttributeError]. *)
Definition process_audit_message (message : pyval) : io state unit :=
  fun st => (Raise AttributeError, st).

Fixpoint process_messages (messages : list pyval) : io state unit :=
  match messages with
  | [] => ret tt
  | message :: rest =>
      done <~ process_audit_message message ;;
      process_messages rest
  end.

(** One turn of the loop of [run_loop], before the sleep: [a2a_queue] is
    the queue the agent was built with, when there is one.  Every
    exception is caught and logged. *)
Definition run_loop_turn (a2a_queue : option SharedMessageQueue.files) (st : state)
  : option (state * option SharedMessageQueue.files) :=
  match a2a_queue with
  | None => Some (st, None)
  | Some fs =>
      match SharedMessageQueue.get_messages name fs with
      | SharedMessageQueue.Waits => None
      | SharedMessageQueue.Returns (Raise _) fs' => Some (st, Some fs')
      | SharedMessageQueue.Returns (Ok messages) fs' =>
          Some (snd (process_messages messages st), Some fs')
      end
  end.

End Ledger.

End AuditAgent.

(* ================================================================== *)
(** * consent_mock.py: the mock consent manager                        *)
(* ================================================================== *)

Module PSD3ConsentManager.

(** The entries of [consent_templates]. *)
Module Template.
Record t : Type := {
  purpose : string;
  description : string;
  data_scope : list string;
  retention_period_days : Z;
  revocable : bool;
  third_party_categories : list string
}.
End Template.

(** The entries of an audit trail. *)
Module Event.
Record t : Type := {
  timestamp : string;
  action : string;
  actor : string;
  details : string
}.
End Event.

(** A consent: the dictionary [generate_consent] builds, with its keys as
    fields.  The two nested dictionaries that are never read are kept as
    values. *)
Module Consent.
Record t : Type := {
  consent_id : string;
  user_id : string;
  third_party_name : string;
  purpose : string;
  description : string;
  data_scope : list string;
  permissions : list string;
  valid_from : string;
  valid_until : string;
  revocable : bool;
  status : string;
  psd3_compliance : pyval;
  audit_trail : list Event.t;
  metadata : pyval
}.

(** [consent['status'] = status] and
    [consent['audit_trail'].append(event)]. *)
Definition set_status (c : t) (status : string) : t :=
  {| consent_id := consent_id c; user_id := user_id c;
     third_party_name := third_party_name c; purpose := purpose c;
     description := description c; data_scope := data_scope c;
     permissions := permissions c; valid_from := valid_from c;
     valid_until := valid_until c; revocable := revocable c; status := status;
     psd3_compliance := psd3_compliance c; audit_trail := audit_trail c;
     metadata := metadata c |}.

Definition append_event (c : t) (event : Event.t) : t :=
  {| consent_id := consent_id c; user_id := user_id c;
     third_party_name := third_party_name c; purpose := purpose c;
     description := description c; data_scope := data_scope c;
     permissions := permissions c; valid_from := valid_from c;
     valid_until := valid_until c; revocable := revocable c; status := status c;
     psd3_compliance := psd3_compliance c; audit_trail := audit_trail c ++ [event];
     metadata := metadata c |}.
End Consent.

(** The result of [validate_consent]; [expires_at] is there for a valid
    consent only. *)
Module Validation.
Record t : Type := {
  valid : bool;
  reason : string;
  compliant : bool;
  expires_at : option string
}.
End Validation.

(** The result of [get_consent_summary]. *)
Module Summary.
Record t : Type := {
  user_id : string;
  total_consents : nat;
  active_consents : nat;
  revoked_consents : nat;
  consent_purposes : list string;
  third_parties : list string
}.
End Summary.

Section Manager.

(** A point of time ([datetime], naive UTC) is its number of microseconds
    since the epoch; [isoformat] and [fromisoformat] are those of
    [datetime], and all dates stay within its range. *)
Variable isoformat : Z -> string.
Variable fromisoformat : string -> result Z.

(** [list(set(items))]: the order of a set is the runtime's. *)
Variable list_of_set : list string -> list string.

Definition timedelta (days : Z) : Z := (days * 86400000000)%Z.

(** [self.consents], from consent id to consent in insertion order. *)
Definition store : Type := list (string * Consent.t).

Definition consent_templates : list (string * Template.t) :=
  [ ("budgeting",
     {| Template.purpose := "budgeting_app_access";
        Template.description :=
          "Access to transaction history for budgeting applications";
        Template.data_scope := [ "transactions"; "balances" ];
        Template.retention_period_days := 365;
        Template.revocable := true;
        Template.third_party_categories := [ "budgeting"; "financial_planning" ] |});
    ("payment_initiation",
     {| Template.purpose := "payment_initiation";
        Template.description := "Initiate payments on behalf of the user";
        Template.data_scope := [ "accounts"; "balances" ];
        Template.retention_period_days := 90;
        Template.revocable := true;
        Template.third_party_categories := [ "payment_processor" ] |});
    ("account_info",
     {| Template.purpose := "account_information";
        Template.description := "Access to account information and balances";
        Template.data_scope := [ "accounts"; "balances" ];
        Template.retention_period_days := 180;
        Template.revocable := true;
        Template.third_party_categories := [ "account_aggregator"; "financial_advisor" ] |}) ].

(** [x or default] for an optional text. *)
Definition or_default (x : option string) (default : string) : string :=
  match x with
  | Some s => if String.eqb s "" then default else s
  | None => default
  end.

Definition generate_permissions (template : Template.t) : list string :=
  flat_map (fun data_type => [ ("read:" ++ data_type)%string;
                               ("access:" ++ data_type)%string ])
           (Template.data_scope template)
  ++ map (fun category => ("share:" ++ category)%string)
         (Template.third_party_categories template).

(** [generate_consent]: [uuid_hex] is [uuid.uuid4().hex] and [utcnow k]
    the [k]-th reading of the clock during the call. *)
Definition generate_consent (uuid_hex : string) (utcnow : nat -> Z)
                            (user_id purpose : string) (third_party_name : option string)
                            (consents : store)
  : result Consent.t * store :=
  match assoc_get consent_templates purpose with
  | None => (Raise ValueError, consents)
  | Some template =>
      let consent :=
        {| Consent.consent_id := "consent_" ++ substring 0 16 uuid_hex;
           Consent.user_id := user_id;
           Consent.third_party_name :=
             or_default third_party_name ("mock_" ++ purpose ++ "_app");
           Consent.purpose := Template.purpose template;
           Consent.description := Template.description template;
           Consent.data_scope := Template.data_scope template;
           Consent.permissions := generate_permissions template;
           Consent.valid_from := isoformat (utcnow 0) ++ "Z";
           Consent.valid_until :=
             isoformat (utcnow 1 + timedelta (Template.retention_period_days template))
             ++ "Z";
           Consent.revocable := Template.revocable template;
           Consent.status := "active";
           Consent.psd3_compliance :=
             VDict [ ("article_65_compliant", VBool true);
                     ("article_66_compliant", VBool true);
                     ("article_67_compliant", VBool true);
                     ("consent_granularity", VStr "specific");
                     ("data_minimization", VBool true);
                     ("purpose_limitation", VBool true) ];
           Consent.audit_trail :=
             [ {| Event.timestamp := isoformat (utcnow 2) ++ "Z";
                  Event.action := "consent_granted";
                  Event.actor := "user";
                  Event.details :=
                    "User " ++ user_id ++ " granted consent for " ++ purpose |} ];
           Consent.metadata :=
             VDict [ ("created_at", VStr (isoformat (utcnow 3) ++ "Z"));
                     ("version", VStr "1.0");
                     ("consent_framework", VStr "PSD3") ] |} in
      (Ok consent, dict_set consents (Consent.consent_id consent) consent)
  end.

(** [s[:-1]]. *)
Fixpoint drop_last (s : string) : string :=
  match s with
  | EmptyString => EmptyString
  | String c EmptyString => EmptyString
  | String c s' => String c (drop_last s')
  end.

(** [_check_permission]: the action has to start with what a permission
    has before its first colon. *)
Definition check_permission (consent : Consent.t) (action : string) : bool :=
  existsb (fun perm => startswith action (hd "" (split ":" perm)))
          (Consent.permissions consent).

(** [validate_consent] at the time [utcnow]. *)
Definition validate_consent (utcnow : Z) (consent_id : string)
                            (requested_action : option string) (consents : store)
  : result Validation.t :=
  match assoc_get consents consent_id with
  | None =>
      Ok {| Validation.valid := false; Validation.reason := "Consent not found";
            Validation.compliant := false; Validation.expires_at := None |}
  | Some consent =>
      valid_until <- fromisoformat (drop_last (Consent.valid_until consent)) ;;
      if (valid_until <? utcnow)%Z then
        Ok {| Validation.valid := false; Validation.reason := "Consent expired";
              Validation.compliant := true; Validation.expires_at := None |}
      else if negb (String.eqb (Consent.status consent) "active") then
        Ok {| Validation.valid := false;
              Validation.reason := "Consent status: " ++ Consent.status consent;
              Validation.compliant := true; Validation.expires_at := None |}
      else
        match requested_action with
        | Some action =>
            if negb (String.eqb action "") && negb (check_permission consent action) then
              Ok {| Validation.valid := false;
                    Validation.reason := "Action not permitted: " ++ action;
                    Validation.compliant := true; Validation.expires_at := None |}
            else
              Ok {| Validation.valid := true; Validation.reason := "Consent valid";
                    Validation.compliant := true;
                    Validation.expires_at := Some (Consent.valid_until consent) |}
        | None =>
            Ok {| Validation.valid := true; Validation.reason := "Consent valid";
                  Validation.compliant := true;
                  Validation.expires_at := Some (Consent.valid_until consent) |}
        end
  end.

(** [revoke_consent] at the time [utcnow]: the consent is changed in the
    store. *)
Definition revoke_consent (utcnow : Z) (consent_id : string) (reason : option string)
                          (consents : store)
  : bool * store :=
  match assoc_get consents consent_id with
  | None => (false, consents)
  | Some consent =>
      if negb (Consent.revocable consent) then (false, consents)
      else
        let consent := Consent.set_status consent "revoked" in
        let consent :=
          Consent.append_event consent
            {| Event.timestamp := isoformat utcnow ++ "Z";
               Event.action := "consent_revoked";
               Event.actor := "user";
               Event.details := or_default reason "User revoked consent" |} in
        (true, dict_set consents consent_id consent)
  end.

(** An optional filter: [None] and the empty text do not filter. *)
Definition filter_by (key : Consent.t -> string) (wanted : option string)
                     (consents : list Consent.t) : list Consent.t :=
  match wanted with
  | Some text =>
      if String.eqb text "" then consents
      else filter (fun c => String.eqb (key c) text) consents
  | None => consents
  end.

Definition list_consents (user_id status : option string) (consents : store)
  : list Consent.t :=
  filter_by Consent.status status (filter_by Consent.user_id user_id (map snd consents)).

Definition get_consent_summary (user_id : string) (consents : store) : Summary.t :=
  let user_consents := list_consents (Some user_id) None consents in
  let active_consents :=
    filter (fun c => String.eqb (Consent.status c) "active") user_consents in
  let revoked_consents :=
    filter (fun c => String.eqb (Consent.status c) "revoked") user_consents in
  {| Summary.user_id := user_id;
     Summary.total_consents := length user_consents;
     Summary.active_consents := length active_consents;
     Summary.revoked_consents := length revoked_consents;
     Summary.consent_purposes := list_of_set (map Consent.purpose active_consents);
     Summary.third_parties := list_of_set (map Consent.third_party_name active_consents) |}.

End Manager.

End PSD3ConsentManager.

(* ================================================================== *)
(** * Vocabulary of the properties                                     *)
(* ================================================================== *)

(** A runtime for closed examples: text is printed as it is, every other
    value as [?]; the clock reads 0 and every request is accepted. *)
Definition plain_runtime : Runtime :=
  {| py_str := fun v => match v with VStr s => s | _ => "?" end;
     format_2f := fun _ => "?";
     format_pct1 := fun v => match num_of v with Some _ => Ok "?" | None => Raise ValueError end;
     format_comma := fun v => match num_of v with Some _ => Ok "?" | None => Raise ValueError end;
     exn_str := fun _ => "?";
     py_hash := fun _ => 0%Z;
     time_time := 0%Q;
     requests_post := fun _ _ => Response 200 (Ok (VDict [("status", VStr "accepted")])) |}.

(** The score as the sentence on the rule-based strategy words it: three
    contributions, the provider one only for a provider that is present. *)
Definition claimed_score (d : dict) : Z :=
  ((match gt_int (get d "amount" (VInt 0)) 5000 with Ok true => 3 | _ => 0 end)
   + (match assoc_get d "purpose" with
      | Some (VStr p) =>
          if contains "international" (lower p) || contains "cross-border" (lower p)
          then 2 else 0
      | _ => 0
      end)
   + (match assoc_get d "third_party_provider" with
      | Some provider => if py_ne provider (VStr "bank") then 1 else 0
      | None => 0
      end))%Z.

(** The response lines the parsing loop treats as the confidence, and
    the confidence one such line yields. *)
Definition is_confidence_line (line : string) : bool :=
  startswith (strip line) "CONFIDENCE:".

Definition is_decision_line (line : string) : bool :=
  startswith (strip line) "DECISION:".

Definition confidence_of_line (line : string) : pyfloat :=
  match (v <- split1_snd ":" (strip line) ;; float_of_str (strip v)) with
  | Ok c => ValidationAgent.clamp c
  | Raise _ => ValidationAgent.half
  end.

Definition last_confidence_line (ai_response : string) : option string :=
  find is_confidence_line (rev (split "010" ai_response)).

(** [valid] is a [bool], true exactly for the decision "APPROVE". *)
Definition valid_matches_decision (r : pyval) : Prop :=
  exists b : bool,
    field r "valid" = VBool b /\ (b = true <-> field r "decision" = VStr "APPROVE").

(** The second rule of the detector: both routing numbers are there
    (true values) and differ. *)
Definition routing_differs (d : dict) : bool :=
  let from_routing := get d "from_routing_num" (VStr "") in
  let to_routing := get d "to_routing_num" (VStr "") in
  py_ne from_routing to_routing && truthy from_routing && truthy to_routing.

(** The ledger after a batch of audit messages, and the entry one message
    contributes (none when building it raises). *)
Fixpoint process_all `{Runtime} (batch : list pyval) (st : AuditAgent.state)
  : AuditAgent.state :=
  match batch with
  | [] => st
  | audit_data :: rest => process_all rest (snd (AuditAgent.process_audit_log audit_data st))
  end.

Definition entry_of `{Runtime} (audit_data : pyval) : list pyval :=
  match AuditAgent.make_entry audit_data with
  | Ok (audit_entry, _, _) => [audit_entry]
  | Raise _ => []
  end.

(** The [n]-th audit message of a test batch. *)
Definition numbered_message (n : nat) : pyval :=
  VDict [ ("validation_result",
           VDict [ ("decision", VStr "APPROVE"); ("confidence", lit 0.95);
                   ("reasoning", VStr "Low-risk transaction compliant with PSD3 requirements.");
                   ("risk_level", VStr "LOW"); ("valid", VBool true);
                   ("ai_processed", VBool false) ]);
          ("trigger_data",
           VDict [ ("type", VStr "third_party_data_sharing"); ("amount", VInt 1200);
                   ("user_id", VStr "A") ]);
          ("source_agent", VStr "ValidationAgent");
          ("timestamp", VInt (Z.of_nat n)) ].

(** A value of the closed unit interval. *)
Definition in_unit_interval (v : pyval) : Prop :=
  exists q : Q, v = VFloat (FFin q) /\ (0 <= q)%Q /\ (q <= 1)%Q.

(** A non-negative float (NaN is not). *)
Definition nonnegative (x : pyfloat) : Prop :=
  match x with
  | FFin q => (0 <= q)%Q
  | FInf negative => negative = false
  | FNaN => False
  end.

(** All six fields of a validation result are there. *)
Definition complete_result (r : pyval) : Prop :=
  exists decision confidence reasoning risk_level valid ai_processed,
    r = ValidationAgent.validation_result decision confidence reasoning risk_level
          valid ai_processed.

(** A runtime whose network is down: every request raises. *)
Definition unreachable_runtime : Runtime :=
  {| py_str := fun v => match v with VStr s => s | _ => "?" end;
     format_2f := fun _ => "?";
     format_pct1 := fun v => match num_of v with Some _ => Ok "?" | None => Raise ValueError end;
     format_comma := fun v => match num_of v with Some _ => Ok "?" | None => Raise ValueError end;
     exn_str := fun _ => "?";
     py_hash := fun _ => 0%Z;
     time_time := 0%Q;
     requests_post := fun _ _ => PostRaises RequestException |}.

(** The id [send_message] works with: the one it is given, or a fresh one
    made of the sender, the time and the hash of the payload. *)
Definition correlation_id_of `{Runtime} (agent_name : string) (payload correlation_id : pyval)
  : pyval :=
  match correlation_id with
  | VNone =>
      VStr (agent_name ++ "_" ++ py_str (VInt (Qtruncate time_time)) ++ "_"
            ++ py_str (VInt (py_hash (py_str payload))))
  | _ => correlation_id
  end.

(** A delivery failure: the request raises a request exception, or is
    answered with a status other than 200, or with a JSON object (whatever
    its status says), or with a body that is no JSON. *)
Definition delivery_outcome (o : http_outcome) : Prop :=
  match o with
  | PostRaises e => e = RequestException
  | Response status_code json =>
      status_code = 200%Z ->
      (exists d, json = Ok (VDict d)) \/ json = Raise RequestException
  end.

(** The detector state after a series of polls. *)
Fixpoint run_polls `{Runtime} (polls : list (list pyval)) (st : MonitoringAgent.state)
  : MonitoringAgent.state :=
  match polls with
  | [] => st
  | transactions :: rest =>
      run_polls rest (snd (MonitoringAgent.detect_consent_triggers st transactions []))
  end.

(** The number of records filed under the accounts of an activity table. *)
Definition records_filed (acts : MonitoringAgent.activity) : nat :=
  list_sum (map (fun entry => length (snd entry)) acts).

(** The keys of an activity table are pairwise different accounts, its
    groups are not empty and every record of a group carries the key of
    the group or an account equal to it. *)
Definition well_grouped (acts : MonitoringAgent.activity) : Prop :=
  ForallOrdPairs (fun k1 k2 => py_eq k1 k2 = false) (map fst acts)
  /\ Forall (fun entry =>
               snd entry <> []
               /\ Forall (fun tx => exists account,
                                      vget tx "account_id" (VStr "unknown") = Ok account
                                      /\ (fst entry = account
                                          \/ py_eq (fst entry) account = true))
                         (snd entry)) acts.

(** The last line of a response that starts with a label, and the value
    such a line gives: the text after its first colon, stripped. *)
Definition last_line_with (label ai_response : string) : option string :=
  find (fun line => startswith (strip line) label) (rev (split "010" ai_response)).

Definition label_value (line : string) : string :=
  match split1_snd ":" (strip line) with
  | Ok v => strip v
  | Raise _ => EmptyString
  end.

(** The file of the audit agent mirrors the ledger in memory; before the
    first write there is no file and the ledger is empty. *)
Definition in_sync (st : AuditAgent.state) : Prop :=
  match AuditAgent.audit_log_file st with
  | Some stored => stored = AuditAgent.audit_logs st
  | None => AuditAgent.audit_logs st = []
  end.

(** Whether a queued message names a given agent as its addressee, and
    whether it names one at all. *)
Definition addressed_to (agent_name : string) (msg : pyval) : bool :=
  match getitem msg "to" with
  | Ok to => py_eq to (VStr agent_name)
  | Raise _ => false
  end.

Definition has_addressee (msg : pyval) : bool :=
  succeeds (getitem msg "to").

(** The request the monitoring agent issues for a trigger. *)
Definition validation_request `{Runtime} (trigger : pyval) : string * pyval :=
  ("http://validation-agent-service.agents-ns.svc.cluster.local:8080/a2a",
   VDict [ ("protocol", VStr "A2A/1.0");
           ("message_id", correlation_id_of MonitoringCycle.name trigger VNone);
           ("from_agent", VStr MonitoringCycle.name);
           ("to_agent", VStr "ValidationAgent");
           ("message_type", VStr "consent_validation_request");
           ("timestamp", now);
           ("payload", trigger);
           ("headers", VDict [ ("content_type", VStr "application/json");
                               ("priority", VStr "normal") ]) ]).

(** The address of the transaction history of an account. *)
Definition history_url (account_id : string) : string :=
  (MonitoringCycle.transaction_history_url ++ "/" ++ account_id)%string.

(** The records polled for an account: none, or the list the service
    answered with the status 200 on the address of that account (with or
    without the authentication headers), each record with its
    [account_id] set to the account. *)
Definition polled_for (requests_get : string -> bool -> http_outcome)
                      (account_id : string) (records : list pyval) : Prop :=
  Forall (fun tx => getitem tx "account_id" = Ok (VStr account_id)) records
  /\ (records = []
      \/ exists with_headers answer,
           requests_get (history_url account_id) with_headers
           = Response 200 (Ok (VList answer))
           /\ Forall2 (fun record tx =>
                         setitem record "account_id" (VStr account_id) = Ok tx)
                      answer records).

(** An A2A/1.0 envelope with the message id [m1]. *)
Definition envelope_for (to_agent message_type : string) (payload : pyval) : dict :=
  [ ("protocol", VStr "A2A/1.0"); ("message_id", VStr "m1");
    ("to_agent", VStr to_agent); ("message_type", VStr message_type);
    ("payload", payload) ].

(** A trigger the rules approve with LOW risk. *)
Definition small_loan : pyval :=
  VDict [ ("type", VStr "third_party_data_sharing"); ("amount", VInt 100);
          ("purpose", VStr "loan"); ("third_party_provider", VStr "bank") ].

(** A bank service that answers every request with an empty list, and one
    with a single record of 6000 on every account. *)
Definition quiet_bank : string -> bool -> http_outcome :=
  fun _ _ => Response 200 (Ok (VList [])).

Definition busy_bank : string -> bool -> http_outcome :=
  fun _ _ => Response 200 (Ok (VList [ VDict [ ("id", VStr "t1"); ("amount", VInt 6000) ] ])).

(** Draws that take the first option and the lower bound. *)
Definition first_option (options : list string) : string := hd "" options.

Definition lower_bound (low high : Z) : Z := low.
(** A draw that takes the first trigger. *)
Definition first_trigger (options : list pyval) : pyval := hd VNone options.
(** The stores the manager can reach from the empty one. *)
Inductive reachable (isoformat : Z -> string) : PSD3ConsentManager.store -> Prop :=
| reachable_empty : reachable isoformat []
| reachable_generate uuid_hex utcnow user_id purpose third_party_name consents :
    reachable isoformat consents ->
    reachable isoformat
      (snd (PSD3ConsentManager.generate_consent isoformat uuid_hex utcnow user_id purpose
              third_party_name consents))
| reachable_revoke utcnow consent_id reason consents :
    reachable isoformat consents ->
    reachable isoformat
      (snd (PSD3ConsentManager.revoke_consent isoformat utcnow consent_id reason consents)).

(** A clock for closed examples: a time after the epoch is written in
    binary digits, the lowest first, and read back from them. *)
Fixpoint binary (p : positive) : string :=
  match p with
  | xH => "1"
  | xO q => String "0" (binary q)
  | xI q => String "1" (binary q)
  end.

Fixpoint read_binary (s : string) : option positive :=
  match s with
  | EmptyString => None
  | String c EmptyString => if Ascii.eqb c "1" then Some xH else None
  | String c s' =>
      match read_binary s' with
      | Some q => Some (if Ascii.eqb c "1" then xI q else xO q)
      | None => None
      end
  end.

Definition written (t : Z) : string := binary (Z.to_pos t).

Definition read_back (s : string) : result Z :=
  match read_binary s with
  | Some p => Ok (Zpos p)
  | None => Raise ValueError
  end.

(* ================================================================== *)
(** * Properties                                                       *)
(* ================================================================== *)

(** ** Floats and strings *)

Lemma Qlt_bool_iff (a b : Q) : Qlt_bool a b = true <-> (a < b)%Q.
Proof.
  unfold Qlt_bool. rewrite negb_true_iff, <- not_true_iff_false, Qle_bool_iff.
  split; [apply Qnot_le_lt | apply Qlt_not_le].
Qed.

Lemma clamp_in_unit_interval (c : pyfloat) :
  exists q : Q, ValidationAgent.clamp c = FFin q /\ (0 <= q)%Q /\ (q <= 1)%Q.
Proof.
  unfold ValidationAgent.clamp, fmax, fmin, fgt.
  destruct c as [q | [|] | ]; cbn [flt andb negb].
  - destruct (Qlt_bool q 1) eqn:Hlt; cbn [flt].
    + destruct (Qlt_bool 0 q) eqn:Hpos.
      * exists q. apply Qlt_bool_iff in Hlt, Hpos. auto using Qlt_le_weak.
      * exists 0%Q. repeat split; [apply Qle_refl | discriminate].
    + exists 1%Q. repeat split; discriminate.
  - exists 0%Q. repeat split; discriminate.
  - exists 1%Q. repeat split; discriminate.
  - exists 1%Q. repeat split; discriminate.
Qed.

Lemma truthy_py_and (a : pyval) (b : bool) :
  truthy (py_and a (VBool b)) = truthy a && b.
Proof. unfold py_and. destruct (truthy a) eqn:E; [reflexivity | exact E]. Qed.

(** ** The rule-based strategy *)

Section RuleBased.

Import ValidationAgent.

Lemma risk_rules_unfold (d : dict) (a : pyfloat) (p : string) :
  num_of (get d "amount" (VInt 0)) = Some a ->
  get d "purpose" (VStr "unknown") = VStr p ->
  let provider := get d "third_party_provider" (VStr "unknown") in
  risk_rules (VDict d) =
  Ok (add_rule (py_eq (get d "type" (VStr "unknown")) (VStr "account_review")) 1
        "Account activity review requires user confirmation"
        (add_rule (truthy provider && py_ne provider (VStr "bank")) 1
           "Third-party data sharing must be explicitly consented to"
           (add_rule (contains "international" (lower p)
                      || contains "cross-border" (lower p)) 2
              "International transfer requires additional verification"
              (add_rule (fgt a (FFin (inject_Z 5000))) 3
                 "High-value transaction requires enhanced scrutiny" (0%Z, []))))).
Proof.
  intros Ha Hp provider. unfold risk_rules, vget, gt_int.
  cbn [as_dict bind]. rewrite Ha, Hp. cbn [as_str bind].
  rewrite truthy_py_and. reflexivity.
Qed.

Lemma verdict_fields (score : Z) (reasons : list string) :
  field (verdict score reasons) "ai_processed" = VBool false
  /\ ((4 <= score)%Z ->
      field (verdict score reasons) "decision" = VStr "REJECT"
      /\ field (verdict score reasons) "confidence" = lit 0.85
      /\ field (verdict score reasons) "risk_level" = VStr "HIGH")
  /\ ((2 <= score < 4)%Z ->
      field (verdict score reasons) "decision" = VStr "APPROVE"
      /\ field (verdict score reasons) "confidence" = lit 0.75
      /\ field (verdict score reasons) "risk_level" = VStr "MEDIUM")
  /\ ((score < 2)%Z ->
      field (verdict score reasons) "decision" = VStr "APPROVE"
      /\ field (verdict score reasons) "confidence" = lit 0.95
      /\ field (verdict score reasons) "risk_level" = VStr "LOW").
Proof.
  unfold verdict.
  destruct (4 <=? score)%Z eqn:H4; [| destruct (2 <=? score)%Z eqn:H2];
    repeat split; intros; try reflexivity;
    try apply Z.leb_le in H4; try apply Z.leb_gt in H4;
    try apply Z.leb_le in H2; try apply Z.leb_gt in H2; lia.
Qed.

(** C1 (as amended): for a trigger that is not an account review, whose
    amount (0 when absent) is a number and whose purpose ("unknown" when
    absent) is text, the rule-based strategy scores +3 for an amount above
    5000, +2 for a purpose containing "international" or "cross-border" in
    any case, +1 for a provider ("unknown" when absent) that is non-empty
    and not "bank"; a score of 4 or more is rejected with confidence 0.85
    and risk HIGH, 2 or 3 approved with 0.75 and MEDIUM, less approved
    with 0.95 and LOW, and [ai_processed] is always false. *)
Theorem rule_based_score_and_verdict (d : dict) (a : pyfloat) (p : string) :
  num_of (get d "amount" (VInt 0)) = Some a ->
  get d "purpose" (VStr "unknown") = VStr p ->
  py_eq (get d "type" (VStr "unknown")) (VStr "account_review") = false ->
  py_eq (get d "type" (VStr "unknown")) (VStr "account_activity_review") = false ->
  let provider := get d "third_party_provider" (VStr "unknown") in
  let score :=
    ((if fgt a (FFin (inject_Z 5000)) then 3 else 0)
     + (if contains "international" (lower p) || contains "cross-border" (lower p)
        then 2 else 0)
     + (if truthy provider && py_ne provider (VStr "bank") then 1 else 0))%Z in
  exists reasons result,
    risk_rules (VDict d) = Ok (score, reasons)
    /\ mock_validation (VDict d) = Ok result
    /\ field result "ai_processed" = VBool false
    /\ ((4 <= score)%Z ->
        field result "decision" = VStr "REJECT"
        /\ field result "confidence" = lit 0.85
        /\ field result "risk_level" = VStr "HIGH")
    /\ ((2 <= score < 4)%Z ->
        field result "decision" = VStr "APPROVE"
        /\ field result "confidence" = lit 0.75
        /\ field result "risk_level" = VStr "MEDIUM")
    /\ ((score < 2)%Z ->
        field result "decision" = VStr "APPROVE"
        /\ field result "confidence" = lit 0.95
        /\ field result "risk_level" = VStr "LOW").
Proof.
  intros Ha Hp Hreview _ provider score.
  pose proof (risk_rules_unfold d a p Ha Hp) as Hrules. cbn zeta in Hrules.
  rewrite Hreview in Hrules. fold provider in Hrules.
  assert (Hscore : exists reasons, risk_rules (VDict d) = Ok (score, reasons)).
  { rewrite Hrules. subst score. unfold add_rule.
    destruct (fgt a (FFin (inject_Z 5000)));
      destruct (contains "international" (lower p) || contains "cross-border" (lower p));
      destruct (truthy provider && py_ne provider (VStr "bank"));
      eexists; reflexivity. }
  destruct Hscore as [reasons Hscore].
  exists reasons, (verdict score reasons).
  split; [exact Hscore |].
  split; [unfold mock_validation; rewrite Hscore; reflexivity |].
  apply verdict_fields.
Qed.

Lemma rule_based_score_and_verdict_witness :
  exists reasons result,
    risk_rules (VDict [ ("type", VStr "high_value_transaction");
                        ("amount", VInt 7500);
                        ("third_party_provider", VStr "FinTechCorp");
                        ("purpose", VStr "loan") ]) = Ok (4%Z, reasons)
    /\ field result "decision" = VStr "REJECT"
    /\ field result "confidence" = lit 0.85
    /\ field result "risk_level" = VStr "HIGH".
Proof.
  destruct (rule_based_score_and_verdict
              [ ("type", VStr "high_value_transaction");
                ("amount", VInt 7500);
                ("third_party_provider", VStr "FinTechCorp");
                ("purpose", VStr "loan") ]
              (FFin (inject_Z 7500)) "loan"
              eq_refl eq_refl eq_refl eq_refl)
    as (reasons & result & Hrules & _ & _ & Hhigh & _).
  exists reasons, result. split; [exact Hrules |].
  apply Hhigh. vm_compute. discriminate.
Defined.

(** C1 (as stated) fails: with no provider in the trigger the default
    "unknown" scores +1, and the type "account_review" scores +1; in both
    cases three contributions add up to 3 (approve) and the code rejects. *)
Lemma rule_based_three_terms_counterexample :
  let absent := [ ("amount", VInt 6000) ] in
  let review := [ ("type", VStr "account_review"); ("amount", VInt 6000);
                  ("purpose", VStr "loan"); ("third_party_provider", VStr "bank") ] in
  claimed_score absent = 3%Z
  /\ risk_rules (VDict absent)
     = Ok (4%Z, [ "High-value transaction requires enhanced scrutiny";
                  "Third-party data sharing must be explicitly consented to" ])
  /\ field (verdict (claimed_score absent) []) "decision" = VStr "APPROVE"
  /\ (exists result, mock_validation (VDict absent) = Ok result
                     /\ field result "decision" = VStr "REJECT"
                     /\ field result "risk_level" = VStr "HIGH")
  /\ claimed_score review = 3%Z
  /\ (exists result, mock_validation (VDict review) = Ok result
                     /\ field result "decision" = VStr "REJECT"
                     /\ field result "risk_level" = VStr "HIGH").
Proof.
  cbv zeta. repeat split; try reflexivity;
    eexists; (split; [reflexivity | split; reflexivity]).
Qed.

(** The review triggers of the detector score as any other trigger. *)
Lemma review_type_adds_nothing (d : dict) (a : pyfloat) (p : string) :
  num_of (get d "amount" (VInt 0)) = Some a ->
  get d "purpose" (VStr "unknown") = VStr p ->
  get d "type" (VStr "unknown") = VStr "account_activity_review" ->
  let provider := get d "third_party_provider" (VStr "unknown") in
  exists reasons,
    risk_rules (VDict d)
    = Ok (((if fgt a (FFin (inject_Z 5000)) then 3 else 0)
           + (if contains "international" (lower p) || contains "cross-border" (lower p)
              then 2 else 0)
           + (if truthy provider && py_ne provider (VStr "bank") then 1 else 0))%Z,
          reasons).
Proof.
  intros Ha Hp Htype provider.
  pose proof (risk_rules_unfold d a p Ha Hp) as Hrules. cbn zeta in Hrules.
  rewrite Hrules, Htype. fold provider. unfold add_rule.
  destruct (fgt a (FFin (inject_Z 5000)));
    destruct (contains "international" (lower p) || contains "cross-border" (lower p));
    destruct (truthy provider && py_ne provider (VStr "bank"));
    eexists; reflexivity.
Qed.

(** C6: the rule for account reviews compares the type with
    "account_review": a trigger of type "account_activity_review", as the
    detector emits it, gets no contribution for its type.  With amount 6000
    and provider "bank" the score is 3 (approved, MEDIUM) where the +1 would
    give 4 (rejected); with a non-bank provider it is 4, not 5. *)
Lemma account_activity_review_scores_nothing :
  risk_rules (VDict [ ("type", VStr "account_activity_review");
                      ("amount", VInt 6000);
                      ("purpose", VStr "loan");
                      ("third_party_provider", VStr "bank") ])
  = Ok (3%Z, [ "High-value transaction requires enhanced scrutiny" ])
  /\ mock_validation (VDict [ ("type", VStr "account_activity_review");
                              ("amount", VInt 6000);
                              ("purpose", VStr "loan");
                              ("third_party_provider", VStr "bank") ])
     = Ok (validation_result "APPROVE" (lit 0.75)
             "High-value transaction requires enhanced scrutiny. Approved with conditions per PSD3 requirements."
             "MEDIUM" true false)
  /\ risk_rules (VDict [ ("type", VStr "account_activity_review");
                         ("amount", VInt 6000);
                         ("purpose", VStr "loan");
                         ("third_party_provider", VStr "FinTechCorp") ])
     = Ok (4%Z, [ "High-value transaction requires enhanced scrutiny";
                  "Third-party data sharing must be explicitly consented to" ])
  /\ risk_rules (VDict [ ("type", VStr "account_review");
                         ("amount", VInt 6000);
                         ("purpose", VStr "loan");
                         ("third_party_provider", VStr "FinTechCorp") ])
     = Ok (5%Z, [ "High-value transaction requires enhanced scrutiny";
                  "Third-party data sharing must be explicitly consented to";
                  "Account activity review requires user confirmation" ]).
Proof. repeat split; reflexivity. Qed.

End RuleBased.

(** ** Parsing the response of the AI-assisted strategy *)

Section Parsing.

Import ValidationAgent.

Context `{Runtime}.

Lemma float_of_str_raises (s : string) (e : exn) :
  float_of_str s = Raise e -> e = ValueError.
Proof.
  unfold float_of_str. destruct (read_sign _) as [neg body].
  destruct (_ || _); [discriminate |].
  destruct (String.eqb _ _); [discriminate |].
  destruct (read_decimal body); [discriminate |]. congruence.
Qed.

Lemma prefix_split1 (p s : string) :
  String.prefix p s = true ->
  succeeds (split1_snd ":" p) = true -> succeeds (split1_snd ":" s) = true.
Proof.
  revert s. induction p as [| a p IH]; intros s Hpre Hp; [discriminate |].
  destruct s as [| b s]; [discriminate |]. cbn [String.prefix] in Hpre.
  destruct (ascii_dec a b) as [-> |]; [| discriminate].
  cbn [split1_snd] in *. destruct (Ascii.eqb b ":"); [reflexivity | auto].
Qed.

Lemma labelled_line_splits (line label : string) :
  startswith line label = true ->
  succeeds (split1_snd ":" label) = true ->
  exists v, split1_snd ":" line = Ok v.
Proof.
  intros Hpre Hlabel. pose proof (prefix_split1 label line Hpre Hlabel) as Hs.
  destruct (split1_snd ":" line) as [v |]; [eauto | discriminate].
Qed.

Lemma decision_line_not_confidence (line : string) :
  startswith line "DECISION:" = true -> startswith line "CONFIDENCE:" = false.
Proof.
  destruct line as [| c line]; [discriminate |]. unfold startswith. cbn [String.prefix].
  destruct (ascii_dec "D" c) as [<- |]; [reflexivity | discriminate].
Qed.

(** One line never fails, and changes the confidence only when it is a
    confidence line and the decision only when it is a decision line. *)
Lemma parse_line_spec (p : parsed) (line : string) :
  exists p', parse_line p line = Ok p'
    /\ confidence p' = (if is_confidence_line line then confidence_of_line line
                        else confidence p)
    /\ (is_decision_line line = false -> decision p' = decision p).
Proof.
  unfold parse_line, is_confidence_line, is_decision_line, confidence_of_line.
  destruct (startswith (strip line) "DECISION:") eqn:Hd.
  - destruct (labelled_line_splits _ _ Hd eq_refl) as [v ->].
    rewrite (decision_line_not_confidence _ Hd). cbn [bind confidence].
    eexists. split; [reflexivity |]. split; [reflexivity | discriminate].
  - destruct (startswith (strip line) "CONFIDENCE:") eqn:Hc.
    + destruct (labelled_line_splits _ _ Hc eq_refl) as [v ->]. cbn [bind].
      destruct (float_of_str (strip v)) as [c | e] eqn:Hf.
      * cbn [bind]. eexists. split; [reflexivity |]. split; reflexivity.
      * rewrite (float_of_str_raises _ _ Hf). cbn [bind].
        eexists. split; [reflexivity |]. split; reflexivity.
    + destruct (startswith (strip line) "REASONING:") eqn:Hr.
      * destruct (labelled_line_splits _ _ Hr eq_refl) as [v ->]. cbn [bind].
        eexists. split; [reflexivity |]. split; reflexivity.
      * destruct (startswith (strip line) "RISK_LEVEL:") eqn:Hk.
        -- destruct (labelled_line_splits _ _ Hk eq_refl) as [v ->]. cbn [bind].
           eexists. split; [reflexivity |]. split; reflexivity.
        -- eexists. split; [reflexivity |]. split; reflexivity.
Qed.

Lemma find_last (A : Type) (f : A -> bool) (l : list A) (x : A) :
  find f (l ++ [x]) =
  match find f l with
  | Some y => Some y
  | None => if f x then Some x else None
  end.
Proof.
  induction l as [| y l IH]; cbn [find app]; [reflexivity |].
  destruct (f y); [reflexivity | exact IH].
Qed.

(** The loop never fails; the last confidence line decides the confidence
    and without a decision line the decision is the initial one. *)
Lemma parse_lines_spec (lines : list string) (p : parsed) :
  exists p', parse_lines p lines = Ok p'
    /\ confidence p' = match find is_confidence_line (rev lines) with
                       | Some line => confidence_of_line line
                       | None => confidence p
                       end
    /\ (forallb (fun line => negb (is_decision_line line)) lines = true ->
        decision p' = decision p).
Proof.
  revert p. induction lines as [| line rest IH]; intros p.
  - exists p. repeat split; reflexivity.
  - destruct (parse_line_spec p line) as (p1 & Hline & Hconf & Hdec).
    destruct (IH p1) as (p' & Hrest & Hconf' & Hdec').
    exists p'. cbn [parse_lines]. rewrite Hline. cbn [bind].
    split; [exact Hrest |]. split.
    + cbn [rev]. rewrite find_last, Hconf'.
      destruct (find is_confidence_line (rev rest)); [reflexivity |].
      rewrite Hconf. destruct (is_confidence_line line); reflexivity.
    + cbn [forallb]. intros Hall. apply andb_true_iff in Hall as [Hline' Hall].
      apply negb_true_iff in Hline'. rewrite (Hdec' Hall). exact (Hdec Hline').
Qed.

(** Parsing is total and never falls back to the rules. *)
Lemma parse_ai_response_spec (ai_response : string) (trigger_data : pyval) :
  exists p,
    parse_ai_response ai_response trigger_data
    = Ok (VDict [ ("decision", VStr (decision p));
                  ("confidence", VFloat (confidence p));
                  ("reasoning", VStr (reasoning p));
                  ("risk_level", VStr (risk_level p));
                  ("valid", VBool (String.eqb (decision p) "APPROVE"));
                  ("ai_processed", VBool true) ])
    /\ confidence p = match last_confidence_line ai_response with
                      | Some line => confidence_of_line line
                      | None => half
                      end
    /\ (forallb (fun line => negb (is_decision_line line)) (split "010" ai_response)
        = true -> decision p = "REJECT").
Proof.
  destruct (parse_lines_spec (split "010" ai_response)
              {| decision := "REJECT"; confidence := half;
                 reasoning := ai_response; risk_level := "MEDIUM" |})
    as (p & Hp & Hconf & Hdec).
  exists p. split; [| split; assumption].
  unfold parse_ai_response. rewrite Hp. reflexivity.
Qed.

(** What [perform_ai_validation] returns comes from the rules or from
    parsing some response. *)
Lemma perform_ai_validation_cases (a : agent) (trigger_data result : pyval) :
  perform_ai_validation a trigger_data = Ok result ->
  mock_validation trigger_data = Ok result
  \/ exists ai_response, parse_ai_response ai_response trigger_data = Ok result.
Proof.
  unfold perform_ai_validation. destruct (client a) as [generate_content |]; [| auto].
  destruct (create_psd3_validation_prompt trigger_data) as [prompt |]; cbn [bind try_except];
    [| auto].
  destruct (generate_content "gemini-1.5-flash" prompt) as [text |]; cbn [bind try_except];
    [| auto].
  destruct (as_str text) as [t |]; cbn [bind try_except]; [| auto].
  destruct (parse_ai_response (strip t) trigger_data) as [r |] eqn:Hparse; [| auto].
  intros [= <-]. right. eauto.
Qed.

Lemma mock_validation_verdict (trigger_data result : pyval) :
  mock_validation trigger_data = Ok result ->
  exists score reasons, result = verdict score reasons.
Proof.
  unfold mock_validation. destruct (risk_rules trigger_data) as [[score reasons] |];
    cbn [bind]; [| discriminate].
  intros [= <-]. eauto.
Qed.

Lemma verdict_valid (score : Z) (reasons : list string) :
  valid_matches_decision (verdict score reasons).
Proof.
  unfold verdict.
  destruct (4 <=? score)%Z; [| destruct (2 <=? score)%Z].
  - exists false. split; [reflexivity |]. split; discriminate.
  - exists true. split; [reflexivity |]. split; reflexivity.
  - exists true. split; [reflexivity |]. split; reflexivity.
Qed.

Lemma verdict_complete (score : Z) (reasons : list string) :
  complete_result (verdict score reasons)
  /\ field (verdict score reasons) "ai_processed" = VBool false
  /\ in_unit_interval (field (verdict score reasons) "confidence").
Proof.
  unfold verdict, complete_result.
  destruct (4 <=? score)%Z; [| destruct (2 <=? score)%Z];
    (split; [do 6 eexists; reflexivity |]); (split; [reflexivity |]);
    eexists; (split; [vm_compute; reflexivity |]); split; vm_compute; discriminate.
Qed.

Lemma parsed_valid (ai_response : string) (trigger_data result : pyval) :
  parse_ai_response ai_response trigger_data = Ok result ->
  valid_matches_decision result.
Proof.
  destruct (parse_ai_response_spec ai_response trigger_data) as (p & -> & _).
  intros [= <-]. exists (String.eqb (decision p) "APPROVE").
  split; [reflexivity |]. cbn. rewrite String.eqb_eq.
  split; [intros -> | intros [= ->]]; reflexivity.
Qed.

(** C2: in every result of the rule-based strategy, of parsing a response
    of the AI-assisted strategy (whatever its text) and of the decision
    engine as a whole, [valid] is true if and only if [decision] is
    "APPROVE". *)
Theorem valid_iff_decision_approve
    (a : agent) (trigger_data : pyval) (ai_response : string) (result : pyval) :
  mock_validation trigger_data = Ok result
  \/ parse_ai_response ai_response trigger_data = Ok result
  \/ perform_ai_validation a trigger_data = Ok result ->
  valid_matches_decision result.
Proof.
  assert (Hmock : forall r, mock_validation trigger_data = Ok r -> valid_matches_decision r).
  { intros r Hr. apply mock_validation_verdict in Hr as (score & reasons & ->).
    apply verdict_valid. }
  intros [Hr | [Hr | Hr]].
  - auto.
  - eapply parsed_valid; eassumption.
  - apply perform_ai_validation_cases in Hr as [Hr | [text Hr]].
    + auto.
    + eapply parsed_valid; eassumption.
Qed.

(** C3: the confidence of every result of the decision engine lies in
    [0, 1]; parsing any response succeeds with the confidence of its last
    confidence line, or 0.5 without one; the line "CONFIDENCE: 5.0" gives
    1.0 and the line "CONFIDENCE: abc" gives 0.5. *)
Theorem confidence_within_unit_interval
    (a : agent) (trigger_data : pyval) (ai_response : string) :
  match perform_ai_validation a trigger_data with
  | Ok result => in_unit_interval (field result "confidence")
  | Raise _ => True
  end
  /\ (exists result,
        parse_ai_response ai_response trigger_data = Ok result
        /\ in_unit_interval (field result "confidence")
        /\ field result "confidence"
           = VFloat match last_confidence_line ai_response with
                    | Some line => confidence_of_line line
                    | None => FFin (1 # 2)
                    end)
  /\ confidence_of_line "CONFIDENCE: 5.0" = FFin 1
  /\ confidence_of_line "CONFIDENCE: abc" = FFin (1 # 2).
Proof.
  assert (Hline : forall line, exists q : Q,
             confidence_of_line line = FFin q /\ (0 <= q)%Q /\ (q <= 1)%Q).
  { intros line. unfold confidence_of_line.
    destruct (v <- split1_snd ":" (strip line) ;; float_of_str (strip v)) as [c |].
    - apply clamp_in_unit_interval.
    - exists (1 # 2)%Q. repeat split; vm_compute; discriminate. }
  assert (Hparse : forall text, exists result,
             parse_ai_response text trigger_data = Ok result
             /\ in_unit_interval (field result "confidence")
             /\ field result "confidence"
                = VFloat match last_confidence_line text with
                         | Some line => confidence_of_line line
                         | None => FFin (1 # 2)
                         end).
  { intros text.
    destruct (parse_ai_response_spec text trigger_data) as (p & Hp & Hconf & _).
    eexists. split; [exact Hp |]. cbn [field get_none get assoc_get String.eqb Ascii.eqb Bool.eqb].
    rewrite Hconf. split; [| reflexivity].
    destruct (last_confidence_line text) as [line |].
    - destruct (Hline line) as (q & -> & Hq). exists q. auto.
    - exists (1 # 2)%Q. repeat split; vm_compute; discriminate. }
  split; [| split; [apply Hparse | split; reflexivity]].
  destruct (perform_ai_validation a trigger_data) as [result |] eqn:Hr; [| exact I].
  apply perform_ai_validation_cases in Hr as [Hr | [text Hr]].
  - apply mock_validation_verdict in Hr as (score & reasons & ->).
    apply verdict_complete.
  - destruct (Hparse text) as (r & Hr' & Hunit & _). congruence.
Qed.

(** C5 (as amended): when the call of the AI client raises, the decision
    engine returns what the rule-based strategy returns for the trigger,
    which for a trigger with a numeric amount and a text purpose is a
    complete result; a response without a decision line is no failure: it
    is parsed into a complete result with decision "REJECT", [valid] false
    and [ai_processed] true. *)
Theorem delegated_failure_modes
    (a : agent) (generate_content : ai_client) (trigger_data : pyval) :
  client a = Some generate_content ->
  ((forall prompt, succeeds (generate_content "gemini-1.5-flash" prompt) = false) ->
   perform_ai_validation a trigger_data = mock_validation trigger_data)
  /\ (forall d amount purpose,
        trigger_data = VDict d ->
        num_of (get d "amount" (VInt 0)) = Some amount ->
        get d "purpose" (VStr "unknown") = VStr purpose ->
        exists result,
          mock_validation trigger_data = Ok result
          /\ complete_result result
          /\ field result "ai_processed" = VBool false)
  /\ (forall prompt text,
        create_psd3_validation_prompt trigger_data = Ok prompt ->
        generate_content "gemini-1.5-flash" prompt = Ok (VStr text) ->
        forallb (fun line => negb (is_decision_line line)) (split "010" (strip text))
        = true ->
        exists result,
          perform_ai_validation a trigger_data = Ok result
          /\ complete_result result
          /\ field result "decision" = VStr "REJECT"
          /\ field result "valid" = VBool false
          /\ field result "ai_processed" = VBool true).
Proof.
  intros Hclient. split; [| split].
  - intros Hraises. unfold perform_ai_validation. rewrite Hclient.
    destruct (create_psd3_validation_prompt trigger_data) as [prompt |];
      cbn [bind try_except]; [| reflexivity].
    specialize (Hraises prompt).
    destruct (generate_content "gemini-1.5-flash" prompt); [discriminate | reflexivity].
  - intros d amount purpose -> Hamount Hpurpose.
    pose proof (risk_rules_unfold d amount purpose Hamount Hpurpose) as Hrules.
    cbn zeta in Hrules. unfold mock_validation. rewrite Hrules. cbn [bind].
    eexists. split; [reflexivity |].
    split; [apply verdict_complete | apply verdict_complete].
  - intros prompt text Hprompt Htext Hnone.
    unfold perform_ai_validation. rewrite Hclient, Hprompt. cbn [bind].
    rewrite Htext. cbn [bind as_str].
    destruct (parse_ai_response_spec (strip text) trigger_data) as (p & -> & _ & Hdec).
    rewrite (Hdec Hnone). cbn [try_except].
    eexists. split; [reflexivity |].
    split; [do 6 eexists; reflexivity |]. repeat split; reflexivity.
Qed.

End Parsing.

Lemma valid_iff_decision_approve_witness :
  valid_matches_decision
    (ValidationAgent.validation_result "APPROVE" (lit 0.9) "ok" "LOW"
       true true).
Proof.
  apply (valid_iff_decision_approve (H := plain_runtime)
           {| ValidationAgent.client := None |} VNone
           (String.concat nl [ "DECISION: approve"; "CONFIDENCE: 0.9"; "REASONING: ok";
                               "RISK_LEVEL: low" ])).
  right. left. vm_compute. reflexivity.
Defined.

(** An agent whose client always raises, and one whose client answers
    every prompt with a text that has no decision line. *)
Lemma delegated_failure_modes_witness :
  let trigger := VDict [ ("amount", VInt 100); ("purpose", VStr "loan");
                         ("third_party_provider", VStr "bank") ] in
  ValidationAgent.perform_ai_validation (H := plain_runtime)
    {| ValidationAgent.client := Some (fun _ _ => Raise (OtherException "timeout")) |}
    trigger
  = ValidationAgent.mock_validation trigger
  /\ (exists result,
        ValidationAgent.mock_validation trigger = Ok result
        /\ complete_result result
        /\ field result "ai_processed" = VBool false)
  /\ (exists result,
        ValidationAgent.perform_ai_validation (H := plain_runtime)
          {| ValidationAgent.client := Some (fun _ _ => Ok (VStr "no verdict")) |}
          trigger = Ok result
        /\ complete_result result
        /\ field result "decision" = VStr "REJECT"
        /\ field result "valid" = VBool false
        /\ field result "ai_processed" = VBool true).
Proof.
  intros trigger.
  destruct (delegated_failure_modes (H := plain_runtime)
              {| ValidationAgent.client := Some (fun _ _ => Raise (OtherException "timeout")) |}
              (fun _ _ => Raise (OtherException "timeout")) trigger eq_refl)
    as (Hraise & Hcomplete & _).
  destruct (delegated_failure_modes (H := plain_runtime)
              {| ValidationAgent.client := Some (fun _ _ => Ok (VStr "no verdict")) |}
              (fun _ _ => Ok (VStr "no verdict")) trigger eq_refl)
    as (_ & _ & Htext).
  split; [apply Hraise; reflexivity |].
  split; [apply (Hcomplete [ ("amount", VInt 100); ("purpose", VStr "loan");
                             ("third_party_provider", VStr "bank") ]
                           (FFin (inject_Z 100)) "loan"); reflexivity |].
  destruct (ValidationAgent.create_psd3_validation_prompt (H := plain_runtime) trigger)
    as [prompt |] eqn:Hprompt; [| vm_compute in Hprompt; discriminate].
  apply (Htext prompt "no verdict"); reflexivity.
Defined.

(** Two complete responses: an out-of-range confidence is clamped, an
    unreadable one replaced by 0.5. *)
Lemma parse_ai_response_examples :
  ValidationAgent.parse_ai_response
    (String.concat nl [ "DECISION: APPROVE"; "CONFIDENCE: 5.0";
                        "REASONING: Consent is explicit."; "RISK_LEVEL: LOW" ]) VNone
  = Ok (ValidationAgent.validation_result "APPROVE" (VFloat (FFin 1))
          "Consent is explicit." "LOW" true true)
  /\ ValidationAgent.parse_ai_response
       (String.concat nl [ "DECISION: REJECT"; "CONFIDENCE: abc";
                           "REASONING: Purpose is unclear."; "RISK_LEVEL: HIGH" ]) VNone
     = Ok (ValidationAgent.validation_result "REJECT" (VFloat (FFin (1 # 2)))
             "Purpose is unclear." "HIGH" false true).
Proof. split; vm_compute; reflexivity. Qed.

(** C5 (as stated) fails for a response without a decision line: the
    result is the parsed one (rejected, [ai_processed] true), not the one
    of the rule-based strategy (approved, [ai_processed] false). *)
Lemma no_decision_line_counterexample :
  let trigger := VDict [ ("amount", VInt 100); ("purpose", VStr "loan");
                         ("third_party_provider", VStr "bank") ] in
  let a := {| ValidationAgent.client := Some (fun _ _ => Ok (VStr "I cannot decide.")) |} in
  ValidationAgent.perform_ai_validation (H := plain_runtime) a trigger
  = Ok (ValidationAgent.validation_result "REJECT" (VFloat (FFin (1 # 2)))
          "I cannot decide." "MEDIUM" false true)
  /\ ValidationAgent.mock_validation trigger
     = Ok (ValidationAgent.validation_result "APPROVE" (lit 0.95)
             "Low-risk transaction compliant with PSD3 requirements." "LOW" true false)
  /\ ValidationAgent.perform_ai_validation (H := plain_runtime) a trigger
     <> ValidationAgent.mock_validation trigger.
Proof.
  cbv zeta. split; [vm_compute; reflexivity |]. split; [vm_compute; reflexivity |].
  vm_compute. discriminate.
Qed.

(** ** The trigger detector *)

Section Detector.

Import MonitoringAgent.

Context `{Runtime}.

Lemma truthy_routing (from_routing to_routing : pyval) :
  truthy (py_and (py_and (VBool (py_ne from_routing to_routing)) from_routing) to_routing)
  = py_ne from_routing to_routing && truthy from_routing && truthy to_routing.
Proof.
  unfold py_and. cbn [truthy].
  destruct (py_ne from_routing to_routing); cbn [truthy andb]; [| reflexivity].
  destruct (truthy from_routing) eqn:E; cbn [andb]; [reflexivity | exact E].
Qed.

(** The trigger of a record whose amount converts to the float [x]. *)
Lemma analyze_converted (d : dict) (x : pyfloat) :
  py_float (get d "amount" (VInt 0)) = Ok x ->
  exists reason,
    analyze_transaction_for_consent (VDict d)
    = Ok (let kind :=
            if fgt (fabs x) (FFin (inject_Z 5000)) then Some "high_value_transaction"
            else if routing_differs d then Some "international_transfer"
            else if fgt (fabs x) (FFin (inject_Z 1000)) then Some "third_party_data_sharing"
            else None in
          match kind with
          | Some type =>
              VDict [ ("type", VStr type);
                      ("transaction_id", get d "id" (VStr "unknown"));
                      ("amount", VFloat (fabs x));
                      ("user_id", get d "account_id" (VStr "unknown"));
                      ("timestamp", get d "timestamp" now);
                      ("reason", VStr reason) ]
          | None => VNone
          end).
Proof.
  intros Hx. unfold analyze_transaction_for_consent, analyze_rules, vget.
  cbn [as_dict bind]. rewrite Hx. cbn [bind]. rewrite truthy_routing.
  fold (routing_differs d).
  destruct (fgt (fabs x) (FFin (inject_Z 5000))); [eexists; reflexivity |].
  destruct (routing_differs d); [eexists; reflexivity |].
  destruct (fgt (fabs x) (FFin (inject_Z 1000))); [eexists; reflexivity |].
  exists "". reflexivity.
Qed.

Lemma analyze_all_length (transactions triggers : list pyval) :
  match analyze_all transactions triggers with
  | Ok found => length found <= length triggers + length transactions
  | Raise _ => True
  end.
Proof.
  revert triggers. induction transactions as [| t rest IH]; intros triggers.
  - cbn. lia.
  - cbn [analyze_all]. destruct (analyze_transaction_for_consent t) as [trigger |];
      cbn [bind]; [| exact I].
    specialize (IH (if truthy trigger then triggers ++ [trigger] else triggers)).
    destruct (analyze_all rest _); [| exact I].
    cbn [length]. destruct (truthy trigger); [rewrite length_app in IH; cbn in IH |]; lia.
Qed.

(** C7 (as amended): a record whose amount, 0 when missing, converts to a
    float [x] is matched against the rules in order on [|x|]: above 5000
    a high-value trigger, else with two differing routing numbers an
    international-transfer trigger, else above 1000 a data-sharing
    trigger, else nothing; a record whose amount does not convert
    ([ValueError] or [TypeError]) yields nothing and raises nothing; and
    the records of a batch yield at most one trigger each. *)
Theorem first_match_wins (d : dict) (transactions : list pyval) :
  match py_float (get d "amount" (VInt 0)) with
  | Ok x =>
      exists trigger,
        analyze_transaction_for_consent (VDict d) = Ok trigger
        /\ (if fgt (fabs x) (FFin (inject_Z 5000))
            then field trigger "type" = VStr "high_value_transaction"
            else if routing_differs d
            then field trigger "type" = VStr "international_transfer"
            else if fgt (fabs x) (FFin (inject_Z 1000))
            then field trigger "type" = VStr "third_party_data_sharing"
            else trigger = VNone)
  | Raise ValueError | Raise TypeError =>
      analyze_transaction_for_consent (VDict d) = Ok VNone
  | Raise e => analyze_transaction_for_consent (VDict d) = Raise e
  end
  /\ match analyze_all transactions [] with
     | Ok triggers => length triggers <= length transactions
     | Raise _ => True
     end.
Proof.
  split; [| apply (analyze_all_length transactions [])].
  destruct (py_float (get d "amount" (VInt 0))) as [x | e] eqn:Hx.
  - destruct (analyze_converted d x Hx) as [reason ->]. eexists. split; [reflexivity |].
    cbv zeta.
    destruct (fgt (fabs x) (FFin (inject_Z 5000))); [reflexivity |].
    destruct (routing_differs d); [reflexivity |].
    destruct (fgt (fabs x) (FFin (inject_Z 1000))); reflexivity.
  - unfold analyze_transaction_for_consent, analyze_rules, vget.
    cbn [as_dict bind]. rewrite Hx. destruct e; reflexivity.
Qed.

(** C10 (as amended): for a record whose amount converts to a float [x],
    the rules are matched on [|x|], whatever the sign of [x]: above 5000
    a high-value trigger, else with two differing routing numbers an
    international-transfer trigger, else above 1000 a data-sharing
    trigger, else nothing; an emitted trigger stores [|x|] as its
    amount.  That amount is non-negative unless [x] is NaN, and for NaN
    the only trigger there can be is the international transfer, with
    the amount NaN. *)
Theorem trigger_amount_is_absolute (d : dict) (x : pyfloat) :
  py_float (get d "amount" (VInt 0)) = Ok x ->
  exists trigger,
    analyze_transaction_for_consent (VDict d) = Ok trigger
    /\ (if fgt (fabs x) (FFin (inject_Z 5000))
        then field trigger "type" = VStr "high_value_transaction"
        else if routing_differs d
        then field trigger "type" = VStr "international_transfer"
        else if fgt (fabs x) (FFin (inject_Z 1000))
        then field trigger "type" = VStr "third_party_data_sharing"
        else trigger = VNone)
    /\ (trigger <> VNone -> field trigger "amount" = VFloat (fabs x))
    /\ (forall q, x = FFin q ->
        fabs x = FFin (Qabs q)
        /\ (fgt (fabs x) (FFin (inject_Z 5000)) = true <-> (5000 < q \/ q < -5000)%Q)
        /\ (fgt (fabs x) (FFin (inject_Z 1000)) = true <-> (1000 < q \/ q < -1000)%Q))
    /\ (x <> FNaN -> nonnegative (fabs x))
    /\ (x = FNaN ->
        if routing_differs d
        then field trigger "type" = VStr "international_transfer"
             /\ field trigger "amount" = VFloat FNaN
        else trigger = VNone).
Proof.
  intros Hx. destruct (analyze_converted d x Hx) as [reason ->].
  eexists. split; [reflexivity |]. cbv zeta.
  assert (Habs : forall (q : Q) (k : Z), (0 <= k)%Z ->
            fgt (FFin (Qabs q)) (FFin (inject_Z k)) = true
            <-> (inject_Z k < q \/ q < - inject_Z k)%Q).
  { intros q k Hk. unfold fgt, flt, Qlt_bool. rewrite negb_true_iff.
    rewrite <- not_true_iff_false, Qle_bool_iff.
    assert (H0 : (0 <= inject_Z k)%Q) by (unfold Qle; cbn; lia).
    split.
    - intros Hgt. apply Qnot_le_lt in Hgt.
      destruct (Qlt_le_dec q 0) as [Hneg | Hpos].
      + right. rewrite (Qabs_neg q) in Hgt by (apply Qlt_le_weak, Hneg).
        apply Qopp_lt_compat in Hgt. now rewrite Qopp_involutive in Hgt.
      + left. now rewrite (Qabs_pos q Hpos) in Hgt.
    - intros [Hgt | Hlt]; apply Qlt_not_le.
      + eapply Qlt_le_trans; [exact Hgt | apply Qle_Qabs].
      + apply Qopp_lt_compat in Hlt. rewrite Qopp_involutive in Hlt.
        eapply Qlt_le_trans; [exact Hlt |]. rewrite <- Qabs_opp. apply Qle_Qabs. }
  split; [| split; [| split; [| split]]].
  - destruct (fgt (fabs x) (FFin (inject_Z 5000))); [reflexivity |].
    destruct (routing_differs d); [reflexivity |].
    destruct (fgt (fabs x) (FFin (inject_Z 1000))); reflexivity.
  - destruct (fgt (fabs x) (FFin (inject_Z 5000))); [reflexivity |].
    destruct (routing_differs d); [reflexivity |].
    destruct (fgt (fabs x) (FFin (inject_Z 1000))); [reflexivity |].
    intros Hnone. now elim Hnone.
  - intros q ->. cbn [fabs]. split; [reflexivity |].
    split; apply Habs; lia.
  - intros Hnan. destruct x as [q | s |]; cbn; [apply Qabs_nonneg | reflexivity | now elim Hnan].
  - intros ->. cbn [fabs fgt flt]. destruct (routing_differs d); [split |]; reflexivity.
Qed.

(** The periodic review when no record of the batch matches a rule: one
    trigger for each account with three or more new records, in the order
    the accounts first occur. *)
Lemma review_triggers_filter (acts : activity) (triggers : list pyval) :
  review_triggers acts triggers
  = triggers
    ++ map (fun entry => review_trigger (fst entry) (snd entry))
         (filter (fun entry => 3 <=? length (snd entry)) acts).
Proof.
  revert triggers. induction acts as [| [account txs] rest IH]; intros triggers.
  - cbn. now rewrite app_nil_r.
  - cbn [review_triggers filter snd]. rewrite IH.
    destruct (3 <=? length txs); [| reflexivity].
    cbn [map fst snd]. now rewrite <- app_assoc.
Qed.

Lemma review_when_nothing_matches
    (st : state) (transactions users : list pyval) (acts : activity) :
  analyze_all transactions [] = Ok [] ->
  last_transaction_count st < length transactions ->
  group_by_account
    (slice_last (length transactions - last_transaction_count st) transactions) []
  = Ok acts ->
  detect_consent_triggers st transactions users
  = (Ok (map (fun entry => review_trigger (fst entry) (snd entry))
           (filter (fun entry => 3 <=? length (snd entry)) acts)),
     {| last_transaction_count := length transactions |}).
Proof.
  intros Hnone Hnew Hgroup. unfold detect_consent_triggers.
  destruct transactions as [| t rest] eqn:Ht; [cbn in Hnew; lia |].
  rewrite <- Ht in *. apply Nat.ltb_lt in Hnew. rewrite Hnew, Hnone. cbn [bind].
  destruct (slice_last (length transactions - last_transaction_count st) transactions)
    as [| tx new] eqn:Hslice.
  - exfalso. apply Nat.ltb_lt in Hnew. unfold slice_last in Hslice.
    apply (f_equal (@length pyval)) in Hslice. rewrite length_skipn in Hslice.
    cbn in Hslice. lia.
  - rewrite Hgroup. cbn [bind]. now rewrite review_triggers_filter.
Qed.

End Detector.

Lemma trigger_amount_is_absolute_witness :
  (exists trigger,
     MonitoringAgent.analyze_transaction_for_consent (H := plain_runtime)
       (VDict [ ("id", VStr "t1"); ("amount", VInt (-6000)); ("account_id", VStr "A") ])
     = Ok trigger
     /\ field trigger "type" = VStr "high_value_transaction"
     /\ field trigger "amount" = VFloat (FFin (inject_Z 6000)))
  /\ (exists trigger,
        MonitoringAgent.analyze_transaction_for_consent (H := plain_runtime)
          (VDict [ ("id", VStr "t2"); ("amount", VInt (-3000)); ("account_id", VStr "A") ])
        = Ok trigger
        /\ field trigger "type" = VStr "third_party_data_sharing"
        /\ field trigger "amount" = VFloat (FFin (inject_Z 3000))).
Proof.
  split.
  - destruct (trigger_amount_is_absolute (H := plain_runtime)
                [ ("id", VStr "t1"); ("amount", VInt (-6000)); ("account_id", VStr "A") ]
                (FFin (inject_Z (-6000))) eq_refl)
      as (trigger & Hrun & Htype & Hamount & _).
    exists trigger. split; [exact Hrun |]. split; [exact Htype |].
    apply Hamount. vm_compute in Hrun. injection Hrun as <-. discriminate.
  - destruct (trigger_amount_is_absolute (H := plain_runtime)
                [ ("id", VStr "t2"); ("amount", VInt (-3000)); ("account_id", VStr "A") ]
                (FFin (inject_Z (-3000))) eq_refl)
      as (trigger & Hrun & Htype & Hamount & _).
    exists trigger. split; [exact Hrun |]. split; [exact Htype |].
    apply Hamount. vm_compute in Hrun. injection Hrun as <-. discriminate.
Defined.

(** C10 (as stated) fails: the text "nan" converts to a float, and so
    does a NaN the JSON carries; with two differing routing numbers the
    record emits a trigger whose amount is NaN, which is not
    non-negative. *)
Lemma nan_amount_counterexample :
  (exists trigger,
     MonitoringAgent.analyze_transaction_for_consent (H := plain_runtime)
       (VDict [ ("id", VStr "t1"); ("amount", VStr "nan");
                ("from_routing_num", VStr "111"); ("to_routing_num", VStr "222") ])
     = Ok trigger
     /\ py_float (VStr "nan") = Ok FNaN
     /\ field trigger "type" = VStr "international_transfer"
     /\ field trigger "amount" = VFloat FNaN)
  /\ (exists trigger,
        MonitoringAgent.analyze_transaction_for_consent (H := plain_runtime)
          (VDict [ ("id", VStr "t2"); ("amount", VFloat FNaN);
                   ("from_routing_num", VStr "111"); ("to_routing_num", VStr "222") ])
        = Ok trigger
        /\ field trigger "amount" = VFloat FNaN)
  /\ ~ nonnegative FNaN.
Proof.
  split; [| split].
  - eexists. split; [vm_compute; reflexivity |]. repeat split; reflexivity.
  - eexists. split; [vm_compute; reflexivity |]. reflexivity.
  - intros [].
Qed.

(** C7 (as stated) fails: a record without an amount is taken as amount
    0 and still matches the routing rule, and a negative amount is compared
    by its absolute value. *)
Lemma missing_amount_counterexample :
  (exists trigger,
     MonitoringAgent.analyze_transaction_for_consent (H := plain_runtime)
       (VDict [ ("id", VStr "t1"); ("account_id", VStr "A");
                ("from_routing_num", VStr "111"); ("to_routing_num", VStr "222") ])
     = Ok trigger
     /\ field trigger "type" = VStr "international_transfer"
     /\ field trigger "amount" = VFloat (FFin 0))
  /\ (exists trigger,
        MonitoringAgent.analyze_transaction_for_consent (H := plain_runtime)
          (VDict [ ("id", VStr "t2"); ("account_id", VStr "A"); ("amount", VInt (-6000)) ])
        = Ok trigger
        /\ gt_int (VInt (-6000)) 5000 = Ok false
        /\ field trigger "type" = VStr "high_value_transaction").
Proof.
  split; eexists; (split; [vm_compute; reflexivity |]); split; reflexivity.
Qed.

(** The scenario of the specification: five records seen, eight polled,
    the three new ones small and on one account, no record matching a
    rule: exactly one review trigger, for that account. *)
Lemma review_scenario :
  let small id account :=
    VDict [ ("id", VStr id); ("amount", VInt 10); ("account_id", VStr account) ] in
  exists trigger,
    MonitoringAgent.detect_consent_triggers (H := plain_runtime)
      {| MonitoringAgent.last_transaction_count := 5 |}
      [ small "t1" "A"; small "t2" "A"; small "t3" "C"; small "t4" "C"; small "t5" "C";
        small "t6" "B"; small "t7" "B"; small "t8" "B" ] []
    = (Ok [trigger], {| MonitoringAgent.last_transaction_count := 8 |})
    /\ field trigger "type" = VStr "account_activity_review"
    /\ field trigger "user_id" = VStr "B"
    /\ field trigger "transaction_count" = VInt 3.
Proof.
  cbv zeta. eexists. split; [vm_compute; reflexivity |]. repeat split; reflexivity.
Qed.

(** C8: the review is skipped as soon as any record of the batch matches
    a rule, also one seen in an earlier cycle.  One seen record of 6000
    on account A and three new small records on account B: the new records
    match no rule and B has three of them, yet the only trigger is the
    high-value one of the seen record; the same three records polled alone
    do trigger the review of B. *)
Lemma review_suppressed_by_seen_record :
  let seen :=
    VDict [ ("id", VStr "t0"); ("amount", VInt 6000); ("account_id", VStr "A") ] in
  let small id :=
    VDict [ ("id", VStr id); ("amount", VInt 10); ("account_id", VStr "B") ] in
  MonitoringAgent.analyze_all (H := plain_runtime) [ small "t1"; small "t2"; small "t3" ] []
  = Ok []
  /\ (exists trigger,
        MonitoringAgent.detect_consent_triggers (H := plain_runtime)
          {| MonitoringAgent.last_transaction_count := 1 |}
          [ seen; small "t1"; small "t2"; small "t3" ] []
        = (Ok [trigger], {| MonitoringAgent.last_transaction_count := 4 |})
        /\ field trigger "type" = VStr "high_value_transaction"
        /\ field trigger "user_id" = VStr "A")
  /\ (exists trigger,
        MonitoringAgent.detect_consent_triggers (H := plain_runtime)
          {| MonitoringAgent.last_transaction_count := 0 |}
          [ small "t1"; small "t2"; small "t3" ] []
        = (Ok [trigger], {| MonitoringAgent.last_transaction_count := 3 |})
        /\ field trigger "type" = VStr "account_activity_review"
        /\ field trigger "user_id" = VStr "B").
Proof.
  cbv zeta. split; [vm_compute; reflexivity |].
  split; eexists; (split; [vm_compute; reflexivity |]); split; reflexivity.
Qed.

(** ** The audit ledger *)

Section Ledger.

Import AuditAgent.

Context `{Runtime}.

Lemma slice_last_short (A : Type) (n : nat) (l : list A) :
  length l <= n -> slice_last n l = l.
Proof.
  intros Hlen. unfold slice_last. replace (length l - n) with 0 by lia. reflexivity.
Qed.

Lemma slice_last_length (A : Type) (n : nat) (l : list A) :
  length (slice_last n l) <= n.
Proof. unfold slice_last. rewrite length_skipn. lia. Qed.

(** Truncating, appending and truncating again keeps what one
    truncation of the whole keeps. *)
Lemma slice_last_app (A : Type) (n : nat) (l more : list A) :
  slice_last n (slice_last n l ++ more) = slice_last n (l ++ more).
Proof.
  destruct (Nat.le_gt_cases (length l) n) as [Hshort | Hlong].
  - now rewrite (slice_last_short _ n l Hshort).
  - assert (Hkept : length (skipn (length l - n) l) = n) by (rewrite length_skipn; lia).
    unfold slice_last. rewrite !length_app, Hkept.
    replace (n + length more - n) with (length more) by lia.
    replace (length l + length more - n) with (length more + (length l - n)) by lia.
    rewrite <- skipn_skipn, (skipn_app (length l - n)).
    replace (length l - n - length l) with 0 by lia. reflexivity.
Qed.

Lemma format_notes_needs_dict (ai_reasoning validation_result trigger_data : pyval)
    (notes : list string) :
  format_ai_reasoning_as_notes ai_reasoning validation_result trigger_data = Ok notes ->
  exists d, trigger_data = VDict d.
Proof.
  destruct trigger_data; try (intros _; eexists; reflexivity);
    unfold format_ai_reasoning_as_notes; cbn [vget as_dict bind]; discriminate.
Qed.

Lemma generate_notes_needs_dict (validation_result trigger_data : pyval)
    (notes : list string) :
  generate_regulatory_notes validation_result trigger_data = Ok notes ->
  exists d, trigger_data = VDict d.
Proof.
  destruct trigger_data; try (intros _; eexists; reflexivity);
    unfold generate_regulatory_notes; cbn [vget as_dict bind]; discriminate.
Qed.

(** Once the entry is built, reading the fields of the log line cannot
    raise: both payload parts are dictionaries. *)
Lemma make_entry_log_line (audit_data audit_entry trigger_data validation_result : pyval) :
  make_entry audit_data = Ok (audit_entry, trigger_data, validation_result) ->
  log_line_fields trigger_data validation_result = Ok tt.
Proof.
  unfold make_entry.
  destruct (vget audit_data "validation_result" (VDict [])) as [vr |]; cbn [bind];
    [| discriminate].
  destruct (vget audit_data "trigger_data" (VDict [])) as [td |]; cbn [bind];
    [| discriminate].
  destruct (vget vr "reasoning" (VStr "")) as [ai_reasoning |] eqn:Hvr; cbn [bind];
    [| discriminate].
  assert (Hdict : exists d, vr = VDict d).
  { destruct vr; try discriminate. eexists; reflexivity. }
  destruct Hdict as [dv ->].
  destruct (if truthy ai_reasoning then _ else _) as [substantial |]; cbn [bind];
    [| discriminate].
  destruct (if substantial then _ else _) as [notes |] eqn:Hnotes; cbn [bind];
    [| discriminate].
  assert (Hdict : exists d, td = VDict d).
  { destruct substantial;
      [eapply format_notes_needs_dict | eapply generate_notes_needs_dict]; eassumption. }
  destruct Hdict as [dt ->].
  destruct (vget audit_data "timestamp" now); cbn [bind]; [| discriminate].
  destruct (vget audit_data "source_agent" (VStr "Unknown")); cbn [bind]; [| discriminate].
  intros [= _ <- <-]. reflexivity.
Qed.

(** One append: a message that cannot be turned into an entry leaves the
    agent as it is; otherwise the entry goes last and the ledger is cut to
    its last 100 entries. *)
Lemma process_audit_log_logs (audit_data : pyval) (st : state) :
  length (audit_logs st) <= 100 ->
  audit_logs (snd (process_audit_log audit_data st))
  = slice_last 100 (audit_logs st ++ entry_of audit_data).
Proof.
  intros Hlen. unfold process_audit_log, io_bind, lift, entry_of.
  destruct (make_entry audit_data) as [[[audit_entry trigger_data] validation_result] |]
    eqn:Hentry.
  - rewrite (make_entry_log_line _ _ _ _ Hentry).
    assert (Hsave : forall s, audit_logs (save_audit_logs s) = audit_logs s).
    { intros s. unfold save_audit_logs. destruct (writable s); reflexivity. }
    rewrite Hsave. cbn [set_logs audit_logs].
    destruct (100 <? length (audit_logs st ++ [audit_entry])) eqn:Hfull; cbn [snd].
    + now rewrite Hsave.
    + rewrite Hsave. cbn [set_logs audit_logs].
      apply Nat.ltb_ge in Hfull. now rewrite slice_last_short.
  - cbn [snd]. rewrite app_nil_r. now rewrite slice_last_short.
Qed.

Lemma process_all_logs (batch : list pyval) (st : state) :
  length (audit_logs st) <= 100 ->
  audit_logs (process_all batch st)
  = slice_last 100 (audit_logs st ++ flat_map entry_of batch).
Proof.
  revert st. induction batch as [| audit_data rest IH]; intros st Hlen.
  - cbn. rewrite app_nil_r. now rewrite slice_last_short.
  - cbn [process_all flat_map]. rewrite IH.
    + rewrite (process_audit_log_logs _ _ Hlen), slice_last_app.
      now rewrite <- app_assoc.
    + rewrite (process_audit_log_logs _ _ Hlen). apply slice_last_length.
Qed.

(** Whatever the ledger held at start-up, one recorded entry brings it
    down to 100 entries, and the file holds the ledger when it can be
    written. *)
Lemma ledger_bounded_after_append (audit_data : pyval) (st : state) :
  fst (process_audit_log audit_data st) = Ok tt ->
  let st' := snd (process_audit_log audit_data st) in
  length (audit_logs st') <= 100
  /\ (writable st = true -> audit_log_file st' = Some (audit_logs st')).
Proof.
  unfold process_audit_log, io_bind, lift.
  destruct (make_entry audit_data) as [[[audit_entry trigger_data] validation_result] |]
    eqn:Hentry; [| discriminate].
  rewrite (make_entry_log_line _ _ _ _ Hentry). intros _. cbv zeta.
  unfold save_audit_logs, set_logs. cbn [writable audit_logs audit_log_file].
  destruct (writable st); cbn [audit_logs audit_log_file writable];
    destruct (100 <? length (audit_logs st ++ [audit_entry])) eqn:Hfull;
    cbn [snd audit_logs audit_log_file writable];
    (split; [| try reflexivity; discriminate]);
    try apply slice_last_length; now apply Nat.ltb_ge in Hfull.
Qed.

(** C4: starting from a ledger of at most 100 entries (the empty one at
    first start), after any sequence of appends the ledger holds at most
    100 entries, namely the last 100 of all entries in insertion order;
    when 101 entries have been inserted, exactly the oldest is gone and the
    other 100 are there in their order, the most recent last. *)
Theorem ledger_keeps_last_100 (st : state) (batch : list pyval) :
  length (audit_logs st) <= 100 ->
  length (audit_logs (process_all batch st)) <= 100
  /\ audit_logs (process_all batch st)
     = slice_last 100 (audit_logs st ++ flat_map entry_of batch)
  /\ (forall oldest kept,
        audit_logs st ++ flat_map entry_of batch = oldest :: kept ->
        length kept = 100 ->
        audit_logs (process_all batch st) = kept
        /\ get_logs (process_all batch st)
           = VDict [ ("logs", VList kept); ("count", VInt 100) ]).
Proof.
  intros Hlen. pose proof (process_all_logs batch st Hlen) as Hlogs.
  split; [rewrite Hlogs; apply slice_last_length |].
  split; [exact Hlogs |].
  intros oldest kept Hall Hkept.
  assert (Hnow : audit_logs (process_all batch st) = kept).
  { rewrite Hlogs, Hall. unfold slice_last. cbn [length]. rewrite Hkept. reflexivity. }
  split; [exact Hnow |]. unfold get_logs. rewrite Hnow, Hkept. reflexivity.
Qed.

End Ledger.

Lemma ledger_keeps_last_100_witness :
  let st := AuditAgent.load_audit_logs None true in
  let batch := map numbered_message (seq 1 101) in
  length (AuditAgent.audit_logs (process_all (H := plain_runtime) batch st)) <= 100
  /\ map (fun audit_entry => field audit_entry "timestamp")
         (AuditAgent.audit_logs (process_all (H := plain_runtime) batch st))
     = map (fun n => VInt (Z.of_nat n)) (seq 2 100).
Proof.
  intros st batch.
  destruct (ledger_keeps_last_100 (H := plain_runtime) st batch (Nat.le_0_l 100))
    as (Hbound & Hlogs & _).
  split; [exact Hbound |]. rewrite Hlogs. vm_compute. reflexivity.
Defined.

(** ** The A2A receive handlers *)

Section Receive.

Context `{Runtime}.

(** C9 (as amended): an envelope whose [to_agent] differs from the name
    of the receiving agent is rejected without any effect: the audit
    agent keeps its ledger and its file, the validation agent issues no
    request.  The reason is "Message not for this agent" when the
    [protocol] of the envelope is "A2A/1.0"; another protocol is rejected
    first, as "Unsupported protocol". *)
Theorem misaddressed_message_rejected
    (envelope : dict) (st : AuditAgent.state)
    (a : ValidationAgent.agent) (sent : A2AMessageQueue.outbox) :
  let reason :=
    if py_eq (get_none envelope "protocol") (VStr "A2A/1.0")
    then "Message not for this agent" else "Unsupported protocol" in
  (py_ne (get_none envelope "to_agent") (VStr AuditAgent.name) = true ->
   AuditAgent.process_a2a_message (VDict envelope) st
   = (VDict [ ("status", VStr "rejected"); ("reason", VStr reason) ], st))
  /\ (py_ne (get_none envelope "to_agent") (VStr ValidationAgent.name) = true ->
      ValidationAgent.process_a2a_message a (VDict envelope) sent
      = (VDict [ ("status", VStr "rejected"); ("reason", VStr reason) ], sent)).
Proof.
  cbv zeta. split; intros Hto.
  - unfold AuditAgent.process_a2a_message, AuditAgent.handle_message, io_bind, lift, vget.
    cbn [as_dict bind]. fold (get_none envelope "protocol") (get_none envelope "to_agent").
    unfold py_ne at 1.
    destruct (py_eq (get_none envelope "protocol") (VStr "A2A/1.0")); cbn [negb];
      [rewrite Hto |]; reflexivity.
  - unfold ValidationAgent.process_a2a_message, ValidationAgent.handle_message,
      io_bind, lift, vget.
    cbn [as_dict bind]. fold (get_none envelope "protocol") (get_none envelope "to_agent").
    unfold py_ne at 1.
    destruct (py_eq (get_none envelope "protocol") (VStr "A2A/1.0")); cbn [negb];
      [rewrite Hto |]; reflexivity.
Qed.

End Receive.

Lemma misaddressed_message_rejected_witness :
  let envelope :=
    [ ("protocol", VStr "A2A/1.0"); ("message_id", VStr "m1");
      ("from_agent", VStr "ValidationAgent"); ("to_agent", VStr "MonitoringAgent");
      ("message_type", VStr "audit_log_request");
      ("payload", numbered_message 1) ] in
  let st := AuditAgent.load_audit_logs None true in
  AuditAgent.process_a2a_message (H := plain_runtime) (VDict envelope) st
  = (AuditAgent.rejected "Message not for this agent", st)
  /\ ValidationAgent.process_a2a_message (H := plain_runtime)
       {| ValidationAgent.client := None |} (VDict envelope) []
     = (ValidationAgent.rejected "Message not for this agent", []).
Proof.
  intros envelope st.
  destruct (misaddressed_message_rejected (H := plain_runtime) envelope st
              {| ValidationAgent.client := None |} [])
    as (Haudit & Hvalidation).
  split; [apply Haudit | apply Hvalidation]; reflexivity.
Defined.

(** C9 (as stated) fails: the protocol is checked before the addressee,
    under the key [protocol].  A misaddressed envelope of another protocol,
    and one that names its protocol under [protocol_version], are rejected
    as "Unsupported protocol". *)
Lemma misaddressed_reason_counterexample :
  let st := AuditAgent.load_audit_logs None true in
  AuditAgent.process_a2a_message (H := plain_runtime)
    (VDict [ ("protocol", VStr "A2A/2.0"); ("message_id", VStr "m1");
             ("to_agent", VStr "ValidationAgent");
             ("message_type", VStr "audit_log_request");
             ("payload", numbered_message 1) ]) st
  = (AuditAgent.rejected "Unsupported protocol", st)
  /\ AuditAgent.process_a2a_message (H := plain_runtime)
       (VDict [ ("protocol_version", VStr "A2A/1.0"); ("message_id", VStr "m1");
                ("to_agent", VStr "ValidationAgent");
                ("message_type", VStr "audit_log_request");
                ("payload", numbered_message 1) ]) st
     = (AuditAgent.rejected "Unsupported protocol", st)
  /\ AuditAgent.rejected "Unsupported protocol"
     <> AuditAgent.rejected "Message not for this agent".
Proof.
  cbv zeta. split; [reflexivity |]. split; [reflexivity | discriminate].
Qed.

(* ================================================================== *)
(** * Further properties of the agents                                 *)
(* ================================================================== *)

(** ** Sending *)

Section Sending.

Import A2AMessageQueue.

Context `{Runtime}.

Lemma endpoint_truthy (target_agent endpoint : string) :
  assoc_get agent_endpoints target_agent = Some endpoint ->
  truthy (VStr endpoint) = true.
Proof.
  unfold agent_endpoints. cbn [assoc_get].
  destruct (String.eqb "ValidationAgent" target_agent); [intros [= <-]; reflexivity |].
  destruct (String.eqb "AuditAgent" target_agent); [intros [= <-]; reflexivity |].
  discriminate.
Qed.

(** What [send_message] leaves in the outbox and what it returns, by the
    outcome of the request. *)
Lemma send_message_known
    (agent_name target_agent message_type endpoint : string)
    (payload correlation_id : pyval) (sent : outbox) :
  assoc_get agent_endpoints target_agent = Some endpoint ->
  let id := correlation_id_of agent_name payload correlation_id in
  let envelope :=
    VDict [ ("protocol", VStr "A2A/1.0");
            ("message_id", id);
            ("from_agent", VStr agent_name);
            ("to_agent", VStr target_agent);
            ("message_type", VStr message_type);
            ("timestamp", now);
            ("payload", payload);
            ("headers", VDict [ ("content_type", VStr "application/json");
                                ("priority", VStr "normal") ]) ] in
  send_message agent_name target_agent message_type payload correlation_id sent
  = (match requests_post endpoint envelope with
     | PostRaises RequestException => Ok id
     | PostRaises e => Raise e
     | Response status_code json =>
         if (status_code =? 200)%Z then
           match json with
           | Ok (VDict _) => Ok id
           | Ok _ => Raise AttributeError
           | Raise RequestException => Ok id
           | Raise e => Raise e
           end
         else Ok id
     end,
     sent ++ [(endpoint, envelope)]).
Proof.
  intros Hendpoint id envelope. unfold send_message.
  fold (correlation_id_of agent_name payload correlation_id). fold id. fold envelope.
  rewrite Hendpoint, (endpoint_truthy _ _ Hendpoint). cbn [negb].
  destruct (requests_post endpoint envelope) as [e | status_code json].
  - destruct e; reflexivity.
  - destruct (status_code =? 200)%Z; [| reflexivity].
    destruct json as [result | e]; cbn [bind].
    + destruct result; reflexivity.
    + destruct e; reflexivity.
Qed.

(** X1: [send_message] is best effort.  When the request fails as a
    delivery (request exception, status other than 200, a reply that is
    a JSON object whatever its status, a body that is no JSON), the call
    still returns the correlation id, which is the one it was given unless
    that was [None]; the outbox only grows, by at most one request. *)
Theorem send_message_best_effort
    (agent_name target_agent message_type : string)
    (payload correlation_id : pyval) (sent : outbox) :
  (forall endpoint message, delivery_outcome (requests_post endpoint message)) ->
  fst (send_message agent_name target_agent message_type payload correlation_id sent)
  = Ok (correlation_id_of agent_name payload correlation_id)
  /\ (correlation_id <> VNone ->
      fst (send_message agent_name target_agent message_type payload correlation_id sent)
      = Ok correlation_id)
  /\ exists issued,
       snd (send_message agent_name target_agent message_type payload correlation_id sent)
       = sent ++ issued
       /\ length issued <= 1.
Proof.
  intros Hnet.
  assert (Hid : correlation_id <> VNone ->
                correlation_id_of agent_name payload correlation_id = correlation_id).
  { intros Hgiven. destruct correlation_id; try reflexivity. now elim Hgiven. }
  destruct (assoc_get agent_endpoints target_agent) as [endpoint |] eqn:Hendpoint.
  - rewrite (send_message_known _ _ _ _ _ _ _ Hendpoint). cbn [fst snd].
    match goal with |- context [requests_post endpoint ?m] =>
      pose proof (Hnet endpoint m) as Hout;
      destruct (requests_post endpoint m) as [e | status_code json] end.
    + cbn in Hout. subst e.
      split; [reflexivity |]. split; [intros Hg; now rewrite (Hid Hg) |].
      eexists. split; [reflexivity | cbn; lia].
    + cbn in Hout.
      assert (Hok : (if (status_code =? 200)%Z
                     then match json with
                          | Ok (VDict _) => Ok (correlation_id_of agent_name payload correlation_id)
                          | Ok _ => Raise AttributeError
                          | Raise RequestException =>
                              Ok (correlation_id_of agent_name payload correlation_id)
                          | Raise e => Raise e
                          end
                     else Ok (correlation_id_of agent_name payload correlation_id))
                    = Ok (correlation_id_of agent_name payload correlation_id)).
      { destruct (status_code =? 200)%Z eqn:Hcode; [| reflexivity].
        apply Z.eqb_eq in Hcode. destruct (Hout Hcode) as [[d ->] | ->]; reflexivity. }
      rewrite Hok. split; [reflexivity |]. split; [intros Hg; now rewrite (Hid Hg) |].
      eexists. split; [reflexivity | cbn; lia].
  - unfold send_message. rewrite Hendpoint.
    fold (correlation_id_of agent_name payload correlation_id). cbn [fst snd].
    split; [reflexivity |]. split; [intros Hg; now rewrite (Hid Hg) |].
    exists []. split; [now rewrite app_nil_r | cbn; lia].
Qed.

(** To a configured agent exactly one request is issued, to the
    endpoint of that agent, and its body is an A2A/1.0 envelope carrying
    the sender, the addressee, the message type, the payload and the
    correlation id; for any other addressee nothing is issued and the
    id is returned. *)
Lemma send_message_envelope
    (agent_name target_agent message_type : string)
    (payload correlation_id : pyval) (sent : outbox) :
  match assoc_get agent_endpoints target_agent with
  | Some endpoint =>
      exists envelope,
        snd (send_message agent_name target_agent message_type payload correlation_id sent)
        = sent ++ [(endpoint, envelope)]
        /\ field envelope "protocol" = VStr "A2A/1.0"
        /\ field envelope "message_id" = correlation_id_of agent_name payload correlation_id
        /\ field envelope "from_agent" = VStr agent_name
        /\ field envelope "to_agent" = VStr target_agent
        /\ field envelope "message_type" = VStr message_type
        /\ field envelope "payload" = payload
  | None =>
      send_message agent_name target_agent message_type payload correlation_id sent
      = (Ok (correlation_id_of agent_name payload correlation_id), sent)
  end.
Proof.
  destruct (assoc_get agent_endpoints target_agent) as [endpoint |] eqn:Hendpoint.
  - rewrite (send_message_known _ _ _ _ _ _ _ Hendpoint). cbn [snd].
    eexists. split; [reflexivity |]. repeat split; reflexivity.
  - unfold send_message. rewrite Hendpoint. reflexivity.
Qed.

End Sending.

Lemma send_message_best_effort_witness :
  A2AMessageQueue.send_message (H := unreachable_runtime) "ValidationAgent" "AuditAgent"
    "audit_log_request" (VDict []) (VStr "m1") []
  = (Ok (VStr "m1"),
     [ ("http://audit-agent-service.agents-ns.svc.cluster.local:8080/a2a",
        VDict [ ("protocol", VStr "A2A/1.0"); ("message_id", VStr "m1");
                ("from_agent", VStr "ValidationAgent"); ("to_agent", VStr "AuditAgent");
                ("message_type", VStr "audit_log_request");
                ("timestamp", VFloat (FFin 0));
                ("payload", VDict []);
                ("headers", VDict [ ("content_type", VStr "application/json");
                                    ("priority", VStr "normal") ]) ]) ]).
Proof.
  destruct (send_message_best_effort (H := unreachable_runtime)
              "ValidationAgent" "AuditAgent" "audit_log_request" (VDict []) (VStr "m1") []
              (fun _ _ => eq_refl))
    as (_ & Hid & _).
  specialize (Hid ltac:(discriminate)).
  destruct (A2AMessageQueue.send_message _ _ _ _ _ _) as [r sent'] eqn:Hrun.
  cbn [fst] in Hid. subst r. vm_compute in Hrun. injection Hrun as <-. reflexivity.
Defined.

(** ** Receiving *)

Section Receiving.

Context `{Runtime}.

(** The two outcomes of [process_audit_log]. *)
Lemma process_audit_log_cases (audit_data : pyval) (st : AuditAgent.state) :
  match AuditAgent.make_entry audit_data with
  | Ok (audit_entry, _, _) =>
      fst (AuditAgent.process_audit_log audit_data st) = Ok tt
      /\ AuditAgent.audit_logs (snd (AuditAgent.process_audit_log audit_data st))
         = slice_last 100 (AuditAgent.audit_logs st ++ [audit_entry])
      /\ AuditAgent.writable (snd (AuditAgent.process_audit_log audit_data st))
         = AuditAgent.writable st
  | Raise e => AuditAgent.process_audit_log audit_data st = (Raise e, st)
  end.
Proof.
  unfold AuditAgent.process_audit_log, io_bind, lift.
  destruct (AuditAgent.make_entry audit_data)
    as [[[audit_entry trigger_data] validation_result] | e] eqn:Hentry; [| reflexivity].
  rewrite (make_entry_log_line _ _ _ _ Hentry).
  unfold AuditAgent.save_audit_logs, AuditAgent.set_logs.
  cbn [AuditAgent.writable AuditAgent.audit_logs AuditAgent.audit_log_file].
  destruct (AuditAgent.writable st) eqn:Hw;
    cbn [AuditAgent.writable AuditAgent.audit_logs AuditAgent.audit_log_file];
    destruct (100 <? length (AuditAgent.audit_logs st ++ [audit_entry])) eqn:Hfull;
    cbn [fst snd AuditAgent.writable AuditAgent.audit_logs AuditAgent.audit_log_file];
    rewrite ?Hw; cbn [AuditAgent.audit_logs AuditAgent.writable];
    repeat split; try reflexivity;
    apply Nat.ltb_ge in Hfull; now rewrite slice_last_short.
Qed.

(** The entry keeps the two payload parts and the sender as they came. *)
Lemma make_entry_fields (audit_data audit_entry trigger_data validation_result : pyval) :
  AuditAgent.make_entry audit_data = Ok (audit_entry, trigger_data, validation_result) ->
  vget audit_data "validation_result" (VDict []) = Ok validation_result
  /\ vget audit_data "trigger_data" (VDict []) = Ok trigger_data
  /\ field audit_entry "validation_result" = validation_result
  /\ field audit_entry "trigger_data" = trigger_data
  /\ Ok (field audit_entry "source_agent") = vget audit_data "source_agent" (VStr "Unknown")
  /\ Ok (field audit_entry "timestamp") = vget audit_data "timestamp" now.
Proof.
  unfold AuditAgent.make_entry.
  destruct (vget audit_data "validation_result" (VDict [])) as [vr |]; cbn [bind];
    [| discriminate].
  destruct (vget audit_data "trigger_data" (VDict [])) as [td |]; cbn [bind];
    [| discriminate].
  destruct (vget vr "reasoning" (VStr "")) as [ai_reasoning |]; cbn [bind];
    [| discriminate].
  destruct (if truthy ai_reasoning then _ else _) as [substantial |]; cbn [bind];
    [| discriminate].
  destruct (if substantial then _ else _) as [notes |]; cbn [bind]; [| discriminate].
  destruct (vget audit_data "timestamp" now) as [timestamp |]; cbn [bind]; [| discriminate].
  destruct (vget audit_data "source_agent" (VStr "Unknown")) as [source |]; cbn [bind];
    [| discriminate].
  intros [= <- <- <-]. repeat split; reflexivity.
Qed.

(** The audit handler on an envelope that passes the three checks. *)
Lemma audit_handles_request (envelope : dict) (st : AuditAgent.state) :
  py_eq (get_none envelope "protocol") (VStr "A2A/1.0") = true ->
  py_eq (get_none envelope "to_agent") (VStr AuditAgent.name) = true ->
  py_eq (get_none envelope "message_type") (VStr "audit_log_request") = true ->
  AuditAgent.process_a2a_message (VDict envelope) st
  = match AuditAgent.process_audit_log (get envelope "payload" (VDict [])) st with
    | (Ok _, st') =>
        (VDict [ ("status", VStr "accepted");
                 ("message_id", get_none envelope "message_id");
                 ("message", VStr "Audit log recorded via A2A") ], st')
    | (Raise e, st') => (AuditAgent.error_reply e, st')
    end.
Proof.
  intros Hprotocol Hto Htype.
  unfold AuditAgent.process_a2a_message, AuditAgent.handle_message, io_bind, lift, vget, ret.
  cbn [as_dict bind].
  fold (get_none envelope "protocol") (get_none envelope "to_agent")
       (get_none envelope "message_type") (get_none envelope "message_id").
  unfold py_ne. rewrite Hprotocol, Hto, Htype. cbn [negb].
  destruct (AuditAgent.process_audit_log (get envelope "payload" (VDict [])) st)
    as [[done | e] st']; reflexivity.
Qed.

(** X2: an audit request, that is an A2A/1.0 envelope addressed to the
    audit agent with the type "audit_log_request", is answered "accepted"
    exactly when its entry is recorded: the entry then goes last, the
    ledger is cut to its last 100 entries and the reply repeats the
    message id; when the entry cannot be built the answer is an error and
    the agent is unchanged. *)
Theorem audit_request_recorded_or_error (envelope : dict) (st : AuditAgent.state) :
  py_eq (get_none envelope "protocol") (VStr "A2A/1.0") = true ->
  py_eq (get_none envelope "to_agent") (VStr AuditAgent.name) = true ->
  py_eq (get_none envelope "message_type") (VStr "audit_log_request") = true ->
  match AuditAgent.make_entry (get envelope "payload" (VDict [])) with
  | Ok (audit_entry, _, _) =>
      fst (AuditAgent.process_a2a_message (VDict envelope) st)
      = VDict [ ("status", VStr "accepted");
                ("message_id", get_none envelope "message_id");
                ("message", VStr "Audit log recorded via A2A") ]
      /\ AuditAgent.audit_logs (snd (AuditAgent.process_a2a_message (VDict envelope) st))
         = slice_last 100 (AuditAgent.audit_logs st ++ [audit_entry])
  | Raise e =>
      AuditAgent.process_a2a_message (VDict envelope) st = (AuditAgent.error_reply e, st)
  end.
Proof.
  intros Hprotocol Hto Htype.
  rewrite (audit_handles_request envelope st Hprotocol Hto Htype).
  pose proof (process_audit_log_cases (get envelope "payload" (VDict [])) st) as Hlog.
  destruct (AuditAgent.make_entry (get envelope "payload" (VDict [])))
    as [[[audit_entry trigger_data] validation_result] | e].
  - destruct Hlog as (Hok & Hlogs & _).
    destruct (AuditAgent.process_audit_log (get envelope "payload" (VDict [])) st)
      as [[done | e] st']; cbn [fst snd] in *; [| discriminate].
    split; [reflexivity | exact Hlogs].
  - rewrite Hlog. reflexivity.
Qed.

(** X3: whatever is not a request for the receiving agent has no effect.
    A message that is no JSON object is answered with an error; an object
    with another protocol, another addressee or another message type is
    rejected; in all these cases the audit agent keeps its ledger and its
    file and the validation agent issues no request. *)
Theorem only_requests_have_effects
    (message : pyval) (st : AuditAgent.state)
    (a : ValidationAgent.agent) (sent : A2AMessageQueue.outbox) :
  let request_for (agent_name message_type : string) : bool :=
    match message with
    | VDict envelope =>
        py_eq (get_none envelope "protocol") (VStr "A2A/1.0")
        && py_eq (get_none envelope "to_agent") (VStr agent_name)
        && py_eq (get_none envelope "message_type") (VStr message_type)
    | _ => false
    end in
  let refused (reply : pyval) : Prop :=
    field reply "status" = VStr "rejected" \/ field reply "status" = VStr "error" in
  (request_for AuditAgent.name "audit_log_request" = false ->
   snd (AuditAgent.process_a2a_message message st) = st
   /\ refused (fst (AuditAgent.process_a2a_message message st)))
  /\ (request_for ValidationAgent.name "consent_validation_request" = false ->
      snd (ValidationAgent.process_a2a_message a message sent) = sent
      /\ refused (fst (ValidationAgent.process_a2a_message a message sent))).
Proof.
  cbv zeta. split; intros Hnot.
  - destruct message as [| b | n | x | s | l | envelope];
      try (split; [reflexivity | right; reflexivity]).
    unfold AuditAgent.process_a2a_message, AuditAgent.handle_message, io_bind, lift, vget, ret.
    cbn [as_dict bind].
    fold (get_none envelope "protocol") (get_none envelope "to_agent")
         (get_none envelope "message_type").
    unfold py_ne.
    destruct (py_eq (get_none envelope "protocol") (VStr "A2A/1.0")); cbn [negb andb] in *;
      [| split; [reflexivity | left; reflexivity]].
    destruct (py_eq (get_none envelope "to_agent") (VStr AuditAgent.name));
      cbn [negb andb] in *; [| split; [reflexivity | left; reflexivity]].
    rewrite Hnot. split; [reflexivity | left; reflexivity].
  - destruct message as [| b | n | x | s | l | envelope];
      try (split; [reflexivity | right; reflexivity]).
    unfold ValidationAgent.process_a2a_message, ValidationAgent.handle_message,
      io_bind, lift, vget, ret.
    cbn [as_dict bind].
    fold (get_none envelope "protocol") (get_none envelope "to_agent")
         (get_none envelope "message_type").
    unfold py_ne.
    destruct (py_eq (get_none envelope "protocol") (VStr "A2A/1.0")); cbn [negb andb] in *;
      [| split; [reflexivity | left; reflexivity]].
    destruct (py_eq (get_none envelope "to_agent") (VStr ValidationAgent.name));
      cbn [negb andb] in *; [| split; [reflexivity | left; reflexivity]].
    rewrite Hnot. split; [reflexivity | left; reflexivity].
Qed.

End Receiving.

(** ** From the validation agent to the audit agent *)

Section Forwarding.

Import A2AMessageQueue.

Context `{Runtime}.

(** [send_to_audit_agent] never raises and issues one request, to the
    audit agent. *)
Lemma send_to_audit_agent_request
    (validation_result trigger_data correlation_id : pyval) (sent : outbox) :
  let audit_payload :=
    VDict [ ("validation_result", validation_result);
            ("trigger_data", trigger_data);
            ("source_agent", VStr ValidationAgent.name);
            ("timestamp", now) ] in
  let id := correlation_id_of ValidationAgent.name audit_payload correlation_id in
  let forwarded :=
    VDict [ ("protocol", VStr "A2A/1.0");
            ("message_id", id);
            ("from_agent", VStr ValidationAgent.name);
            ("to_agent", VStr "AuditAgent");
            ("message_type", VStr "audit_log_request");
            ("timestamp", now);
            ("payload", audit_payload);
            ("headers", VDict [ ("content_type", VStr "application/json");
                                ("priority", VStr "normal") ]) ] in
  exists audit_id,
    ValidationAgent.send_to_audit_agent validation_result trigger_data correlation_id sent
    = (Ok audit_id,
       sent ++ [("http://audit-agent-service.agents-ns.svc.cluster.local:8080/a2a",
                 forwarded)])
    /\ (audit_id = id \/ audit_id = VNone).
Proof.
  intros audit_payload id forwarded. unfold ValidationAgent.send_to_audit_agent.
  fold audit_payload.
  rewrite (send_message_known ValidationAgent.name "AuditAgent" "audit_log_request"
             "http://audit-agent-service.agents-ns.svc.cluster.local:8080/a2a"
             audit_payload correlation_id sent eq_refl).
  cbv zeta. fold id. fold forwarded.
  match goal with |- context [match ?o with PostRaises _ => _ | Response _ _ => _ end] =>
    destruct o as [[] | status_code json] end;
    try (eexists; split; [reflexivity | auto]).
  destruct (status_code =? 200)%Z; [| eexists; split; [reflexivity | auto]].
  destruct json as [[] | []]; eexists; (split; [reflexivity | auto]).
Qed.

(** X4: a validation request, that is an A2A/1.0 envelope addressed to
    the validation agent with the type "consent_validation_request", is
    answered "accepted" whenever the decision engine returns a result,
    also when the audit agent cannot be reached: the reply carries the
    result, and one envelope of type "audit_log_request" with the result
    and the trigger goes to the audit agent under the message id of the
    request.  When the engine raises, the answer is an error and nothing
    is forwarded. *)
Theorem validation_request_answered
    (a : ValidationAgent.agent) (envelope : dict) (sent : outbox) :
  py_eq (get_none envelope "protocol") (VStr "A2A/1.0") = true ->
  py_eq (get_none envelope "to_agent") (VStr ValidationAgent.name) = true ->
  py_eq (get_none envelope "message_type") (VStr "consent_validation_request") = true ->
  let trigger := get envelope "payload" (VDict []) in
  match ValidationAgent.perform_ai_validation a trigger with
  | Ok result =>
      exists audit_id forwarded,
        ValidationAgent.process_a2a_message a (VDict envelope) sent
        = (VDict [ ("status", VStr "accepted");
                   ("message_id", get_none envelope "message_id");
                   ("result", result);
                   ("audit_message_id", audit_id) ],
           sent ++ [("http://audit-agent-service.agents-ns.svc.cluster.local:8080/a2a",
                     forwarded)])
        /\ field forwarded "to_agent" = VStr "AuditAgent"
        /\ field forwarded "message_type" = VStr "audit_log_request"
        /\ field (field forwarded "payload") "validation_result" = result
        /\ field (field forwarded "payload") "trigger_data" = trigger
        /\ (get_none envelope "message_id" <> VNone ->
            field forwarded "message_id" = get_none envelope "message_id")
        /\ (audit_id = field forwarded "message_id" \/ audit_id = VNone)
  | Raise e =>
      ValidationAgent.process_a2a_message a (VDict envelope) sent
      = (ValidationAgent.error_reply e, sent)
  end.
Proof.
  intros Hprotocol Hto Htype trigger.
  unfold ValidationAgent.process_a2a_message, ValidationAgent.handle_message,
    io_bind, lift, vget, ret.
  cbn [as_dict bind].
  fold (get_none envelope "protocol") (get_none envelope "to_agent")
       (get_none envelope "message_type") (get_none envelope "message_id").
  fold trigger. unfold py_ne. rewrite Hprotocol, Hto, Htype. cbn [negb].
  destruct (ValidationAgent.perform_ai_validation a trigger) as [result | e];
    [| reflexivity].
  destruct (send_to_audit_agent_request result trigger (get_none envelope "message_id") sent)
    as (audit_id & -> & Hid).
  eexists. eexists. split; [reflexivity |].
  repeat split; try reflexivity; [| exact Hid].
  intros Hgiven. cbn. destruct (get_none envelope "message_id"); try reflexivity.
  now elim Hgiven.
Qed.

(** X5: what the validation agent forwards is a request the audit agent
    takes: one envelope goes to the endpoint of the audit agent, with the
    validation result, the trigger, the sender "ValidationAgent" and the
    time as its payload, and the audit agent never rejects it.  When the
    entry of that payload can be built, the answer is "accepted" and the
    entry is recorded last, with the validation result, the trigger and
    the sender as they were sent; when it cannot, the answer is the
    error of building it and the agent is unchanged. *)
Theorem audit_records_what_validation_sends
    (validation_result trigger_data correlation_id : pyval) (sent : outbox)
    (st : AuditAgent.state) :
  let audit_payload :=
    VDict [ ("validation_result", validation_result);
            ("trigger_data", trigger_data);
            ("source_agent", VStr ValidationAgent.name);
            ("timestamp", now) ] in
  exists endpoint forwarded,
    snd (ValidationAgent.send_to_audit_agent validation_result trigger_data
           correlation_id sent)
    = sent ++ [(endpoint, forwarded)]
    /\ assoc_get agent_endpoints AuditAgent.name = Some endpoint
    /\ field forwarded "payload" = audit_payload
    /\ match AuditAgent.make_entry audit_payload with
       | Ok (audit_entry, _, _) =>
           fst (AuditAgent.process_a2a_message forwarded st)
           = VDict [ ("status", VStr "accepted");
                     ("message_id", field forwarded "message_id");
                     ("message", VStr "Audit log recorded via A2A") ]
           /\ AuditAgent.audit_logs (snd (AuditAgent.process_a2a_message forwarded st))
              = slice_last 100 (AuditAgent.audit_logs st ++ [audit_entry])
           /\ field audit_entry "validation_result" = validation_result
           /\ field audit_entry "trigger_data" = trigger_data
           /\ field audit_entry "source_agent" = VStr "ValidationAgent"
           /\ field audit_entry "timestamp" = now
       | Raise e =>
           AuditAgent.process_a2a_message forwarded st = (AuditAgent.error_reply e, st)
       end.
Proof.
  intros audit_payload.
  destruct (send_to_audit_agent_request validation_result trigger_data correlation_id sent)
    as (audit_id & Hsend & _).
  rewrite Hsend. cbn [snd]. eexists. eexists.
  split; [reflexivity |]. split; [reflexivity |]. split; [reflexivity |].
  rewrite audit_handles_request by reflexivity.
  change (get _ "payload" (VDict [])) with audit_payload.
  pose proof (process_audit_log_cases audit_payload st) as Hlog.
  destruct (AuditAgent.make_entry audit_payload) as [[[audit_entry td] vr] | e] eqn:Hentry.
  - destruct Hlog as (Hok & Hlogs & _).
    destruct (AuditAgent.process_audit_log audit_payload st) as [[done | e] st'];
      cbn [fst snd] in *; [| discriminate].
    split; [reflexivity |]. split; [exact Hlogs |].
    apply make_entry_fields in Hentry as (Hvr & Htd & Hfvr & Hftd & Hsource & Htime).
    cbn in Hvr, Htd, Hsource, Htime. injection Hvr as <-. injection Htd as <-.
    injection Hsource as Hsource. injection Htime as Htime. auto.
  - rewrite Hlog. reflexivity.
Qed.

End Forwarding.

(** ** More on the trigger detector *)

Section Polling.

Import MonitoringAgent.

Context `{Runtime}.

Lemma detect_counter (st : state) (transactions users : list pyval) :
  last_transaction_count (snd (detect_consent_triggers st transactions users))
  = Nat.max (last_transaction_count st) (length transactions).
Proof.
  unfold detect_consent_triggers. destruct transactions as [| t rest] eqn:Ht.
  - cbn. now rewrite Nat.max_0_r.
  - rewrite <- Ht.
    destruct (last_transaction_count st <? length transactions) eqn:Hnew; cbn [snd].
    + apply Nat.ltb_lt in Hnew. cbn. lia.
    + apply Nat.ltb_ge in Hnew. lia.
Qed.

(** X6: the count of seen records never decreases: after a poll it is
    the larger of the old count and the number of polled records, also
    when the poll raises, and after any series of polls it is at least
    the count before and the size of every poll. *)
Theorem seen_count_is_monotone (polls : list (list pyval)) (st : state) :
  last_transaction_count st <= last_transaction_count (run_polls polls st)
  /\ Forall (fun transactions =>
               length transactions <= last_transaction_count (run_polls polls st)) polls
  /\ last_transaction_count (run_polls polls st)
     = fold_left Nat.max (map (@length pyval) polls) (last_transaction_count st).
Proof.
  revert st. induction polls as [| transactions rest IH]; intros st.
  - cbn. auto.
  - cbn [run_polls map fold_left]. destruct (IH (snd (detect_consent_triggers st transactions [])))
      as (Hle & Hall & Hfold).
    rewrite detect_counter in Hle, Hfold.
    split; [lia |]. split; [constructor; [lia | exact Hall] | exact Hfold].
Qed.

(** X7: records that were seen before trigger again.  When a poll brings
    no more records than were counted, the result is the list of the
    per-record triggers of all polled records, no review is made and the
    state is unchanged; so polling the same records twice reports their
    triggers twice. *)
Theorem seen_records_trigger_again (st : state) (transactions users : list pyval) :
  (length transactions <= last_transaction_count st ->
   detect_consent_triggers st transactions users = (analyze_all transactions [], st))
  /\ (let st' := snd (detect_consent_triggers st transactions users) in
      detect_consent_triggers st' transactions users = (analyze_all transactions [], st')).
Proof.
  assert (Hseen : forall s, length transactions <= last_transaction_count s ->
            detect_consent_triggers s transactions users = (analyze_all transactions [], s)).
  { intros s Hlen. unfold detect_consent_triggers.
    destruct transactions as [| t rest] eqn:Ht; [reflexivity |]. rewrite <- Ht in *.
    apply Nat.ltb_ge in Hlen. rewrite Hlen.
    destruct (analyze_all transactions []) as [[| trigger triggers] | e]; reflexivity. }
  split; [apply Hseen |]. cbv zeta. apply Hseen. rewrite detect_counter. lia.
Qed.

Lemma activity_add_filed (acts : activity) (account tx : pyval) :
  records_filed (activity_add acts account tx) = S (records_filed acts).
Proof.
  unfold records_filed, list_sum. induction acts as [| [k txs] rest IH]; [reflexivity |].
  cbn [activity_add]. destruct (py_eq k account); cbn [map snd fold_right].
  - rewrite length_app. cbn. lia.
  - rewrite IH. lia.
Qed.

Lemma activity_add_keys (acts : activity) (account tx : pyval) :
  map fst (activity_add acts account tx) = map fst acts
  \/ (map fst (activity_add acts account tx) = map fst acts ++ [account]
      /\ Forall (fun k => py_eq k account = false) (map fst acts)).
Proof.
  induction acts as [| [k txs] rest IH]; [right; split; [reflexivity | constructor] |].
  cbn [activity_add]. destruct (py_eq k account) eqn:Hk; [left; reflexivity |].
  cbn [map fst]. destruct IH as [-> | [-> Hall]]; [left; reflexivity |].
  right. split; [reflexivity | constructor; assumption].
Qed.

Lemma ordered_pairs_snoc (A : Type) (R : A -> A -> Prop) (l : list A) (x : A) :
  ForallOrdPairs R l -> Forall (fun y => R y x) l -> ForallOrdPairs R (l ++ [x]).
Proof.
  induction 1 as [| y l Hy Hl IH]; intros Hall; cbn.
  - repeat constructor.
  - inversion Hall; subst. constructor; [| auto].
    apply Forall_app. split; [assumption | repeat constructor; assumption].
Qed.

Lemma activity_add_grouped (acts : activity) (account tx : pyval) :
  vget tx "account_id" (VStr "unknown") = Ok account ->
  well_grouped acts -> well_grouped (activity_add acts account tx).
Proof.
  intros Htx [Hkeys Hgroups]. split.
  - destruct (activity_add_keys acts account tx) as [-> | [-> Hall]]; [assumption |].
    now apply ordered_pairs_snoc.
  - clear Hkeys. induction acts as [| [k txs] rest IH]; cbn [activity_add].
    + repeat constructor; [discriminate | eexists; split; [exact Htx | now left]].
    + inversion Hgroups as [| ? ? [Hne Hin] Hrest]; subst. cbn [fst snd] in *.
      destruct (py_eq k account) eqn:Hk.
      * constructor; [| assumption]. cbn [fst snd]. split.
        -- destruct txs; discriminate.
        -- apply Forall_app. split; [assumption |]. repeat constructor. eauto.
      * constructor; [split; assumption | auto].
Qed.

Lemma group_by_account_grouped (new_transactions : list pyval) (acts0 acts : activity) :
  well_grouped acts0 ->
  group_by_account new_transactions acts0 = Ok acts ->
  well_grouped acts /\ records_filed acts = records_filed acts0 + length new_transactions.
Proof.
  revert acts0. induction new_transactions as [| tx rest IH]; intros acts0 Hwell.
  - intros [= <-]. split; [assumption | cbn; lia].
  - cbn [group_by_account].
    destruct (vget tx "account_id" (VStr "unknown")) as [account |] eqn:Htx; cbn [bind];
      [| discriminate].
    destruct (hashable account); [| discriminate]. intros Hrest.
    destruct (IH _ (activity_add_grouped acts0 account tx Htx Hwell) Hrest) as [Hw Hcount].
    split; [assumption |]. rewrite Hcount, activity_add_filed. cbn [length]. lia.
Qed.

Lemma reviews_bounded (acts : activity) :
  3 * length (filter (fun entry => 3 <=? length (snd entry)) acts) <= records_filed acts.
Proof.
  unfold records_filed, list_sum. induction acts as [| [k txs] rest IH]; [cbn; lia |].
  cbn [filter map snd fold_right].
  destruct (3 <=? length txs) eqn:Hmany; cbn [length].
  - apply Nat.leb_le in Hmany. lia.
  - lia.
Qed.

Lemma reviews_distinct (acts : activity) :
  ForallOrdPairs (fun k1 k2 => py_eq k1 k2 = false) (map fst acts) ->
  ForallOrdPairs
    (fun t1 t2 => py_eq (field t1 "user_id") (field t2 "user_id") = false)
    (map (fun entry => review_trigger (fst entry) (snd entry))
       (filter (fun entry => 3 <=? length (snd entry)) acts)).
Proof.
  induction acts as [| [k txs] rest IH]; intros Hkeys; [constructor |].
  cbn [map fst] in Hkeys. inversion Hkeys as [| ? ? Hk Hrest]; subst.
  cbn [filter snd]. destruct (3 <=? length txs); [| auto].
  cbn [map fst snd]. constructor; [| auto].
  apply Forall_forall. intros t Ht.
  apply in_map_iff in Ht as ([k' txs'] & <- & Hin). apply filter_In in Hin as [Hin _].
  rewrite Forall_forall in Hk. apply (Hk k'). apply in_map_iff. exists (k', txs'). auto.
Qed.

(** X8: the periodic review files every new record under exactly one
    account: the accounts of the table are pairwise different, and the
    groups hold as many records as there are new ones.  Hence the review
    triggers name pairwise different accounts, each with a count of at
    least 3, and there are at most a third as many of them as new
    records. *)
Theorem review_triggers_by_account (new_transactions : list pyval) (acts : activity) :
  group_by_account new_transactions [] = Ok acts ->
  well_grouped acts
  /\ records_filed acts = length new_transactions
  /\ ForallOrdPairs
       (fun t1 t2 => py_eq (field t1 "user_id") (field t2 "user_id") = false)
       (review_triggers acts [])
  /\ Forall (fun t => field t "type" = VStr "account_activity_review"
                      /\ exists n, field t "transaction_count" = VInt n /\ (3 <= n)%Z)
       (review_triggers acts [])
  /\ 3 * length (review_triggers acts []) <= length new_transactions.
Proof.
  intros Hgroup.
  assert (Hempty : well_grouped []) by (split; constructor).
  destruct (group_by_account_grouped _ _ _ Hempty Hgroup) as [Hwell Hcount].
  cbn in Hcount. rewrite review_triggers_filter. cbn [app].
  split; [assumption |]. split; [assumption |].
  split; [apply reviews_distinct, Hwell |]. split.
  - apply Forall_forall. intros t Ht.
    apply in_map_iff in Ht as ([k txs] & <- & Hin). apply filter_In in Hin as [_ Hmany].
    cbn [snd] in Hmany. apply Nat.leb_le in Hmany.
    split; [reflexivity |]. eexists. split; [reflexivity |]. cbn [snd]. lia.
  - rewrite length_map, <- Hcount. apply reviews_bounded.
Qed.

End Polling.

Lemma review_triggers_by_account_witness :
  let record account :=
    VDict [ ("amount", VInt 10); ("account_id", VStr account) ] in
  exists acts,
    MonitoringAgent.group_by_account
      [ record "A"; record "B"; record "A"; record "A"; record "B" ] [] = Ok acts
    /\ records_filed acts = 5
    /\ length (MonitoringAgent.review_triggers (H := plain_runtime) acts []) = 1.
Proof.
  intros record. eexists. split; [vm_compute; reflexivity |].
  match goal with |- records_filed ?acts = _ /\ _ =>
    destruct (review_triggers_by_account (H := plain_runtime)
                [ record "A"; record "B"; record "A"; record "A"; record "B" ] acts eq_refl)
      as (_ & Hcount & _) end.
  split; [exact Hcount | reflexivity].
Defined.

(** ** More on the decision engine *)

Section Engine.

Import ValidationAgent.

Context `{Runtime}.

(** The rules only score a dictionary with a numeric amount and a text
    purpose. *)
Lemma risk_rules_typed (trigger_data : pyval) (scored : Z * list string) :
  risk_rules trigger_data = Ok scored ->
  exists d a p,
    trigger_data = VDict d
    /\ num_of (get d "amount" (VInt 0)) = Some a
    /\ get d "purpose" (VStr "unknown") = VStr p.
Proof.
  unfold risk_rules, vget, gt_int.
  destruct trigger_data as [| | | | | | d]; try discriminate. cbn [as_dict bind].
  destruct (num_of (get d "amount" (VInt 0))) as [a |] eqn:Ha; cbn [bind]; [| discriminate].
  destruct (get d "purpose" (VStr "unknown")) as [| | | | p | |] eqn:Hp; try discriminate.
  intros _. exists d, a, p. auto.
Qed.

(** X9: under the rule-based strategy every high-value trigger of the
    detector is rejected (score 4: the amount and the provider, which the
    detector never sets), and every other trigger of the detector,
    the periodic review included, is approved with LOW risk (score 1). *)
Theorem detector_triggers_under_rules
    (d : dict) (x : pyfloat) (account : pyval) (txs : list pyval) :
  py_float (get d "amount" (VInt 0)) = Ok x ->
  (exists trigger,
     MonitoringAgent.analyze_transaction_for_consent (VDict d) = Ok trigger
     /\ (trigger = VNone
         \/ exists result,
              mock_validation trigger = Ok result
              /\ if fgt (fabs x) (FFin (inject_Z 5000))
                 then field trigger "type" = VStr "high_value_transaction"
                      /\ field result "decision" = VStr "REJECT"
                      /\ field result "risk_level" = VStr "HIGH"
                 else field trigger "type" <> VStr "high_value_transaction"
                      /\ field result "decision" = VStr "APPROVE"
                      /\ field result "risk_level" = VStr "LOW"))
  /\ (exists result,
        mock_validation (MonitoringAgent.review_trigger account txs) = Ok result
        /\ field result "decision" = VStr "APPROVE"
        /\ field result "risk_level" = VStr "LOW").
Proof.
  intros Hx. split.
  - destruct (analyze_converted d x Hx) as [reason ->]. eexists. split; [reflexivity |].
    cbv zeta.
    destruct (fgt (fabs x) (FFin (inject_Z 5000))) eqn:Hhigh;
      [| destruct (routing_differs d);
         [| destruct (fgt (fabs x) (FFin (inject_Z 1000))); [| now left]]];
      right; unfold mock_validation;
      match goal with |- context [risk_rules (VDict ?t)] =>
        rewrite (risk_rules_unfold t (fabs x) "unknown" eq_refl eq_refl) end;
      cbv zeta; rewrite Hhigh; eexists; (split; [reflexivity |]);
      (split; [try reflexivity; discriminate | split; reflexivity]).
  - unfold mock_validation, MonitoringAgent.review_trigger.
    match goal with |- context [risk_rules (VDict ?t)] =>
      rewrite (risk_rules_unfold t (FFin (inject_Z 0)) "unknown" eq_refl eq_refl) end.
    eexists. split; [reflexivity |]. split; reflexivity.
Qed.

(** X10: which triggers the rules reject.  For a trigger with a numeric
    amount and a text purpose the decision is "REJECT" exactly when the
    amount is above 5000 and another rule applies, or when the three
    other rules (international purpose, third-party provider, type
    "account_review") apply together; the score lies between 0 and 7 and
    there is one reason for each rule that applies. *)
Theorem rejected_by_the_rules (d : dict) (a : pyfloat) (p : string) :
  num_of (get d "amount" (VInt 0)) = Some a ->
  get d "purpose" (VStr "unknown") = VStr p ->
  let high := fgt a (FFin (inject_Z 5000)) in
  let international :=
    contains "international" (lower p) || contains "cross-border" (lower p) in
  let provider := get d "third_party_provider" (VStr "unknown") in
  let third_party := truthy provider && py_ne provider (VStr "bank") in
  let review := py_eq (get d "type" (VStr "unknown")) (VStr "account_review") in
  exists score reasons result,
    risk_rules (VDict d) = Ok (score, reasons)
    /\ mock_validation (VDict d) = Ok result
    /\ (0 <= score <= 7)%Z
    /\ length reasons
       = (if high then 1 else 0) + (if international then 1 else 0)
         + (if third_party then 1 else 0) + (if review then 1 else 0)
    /\ (field result "decision" = VStr "REJECT"
        <-> high && (international || third_party || review)
            || international && third_party && review = true).
Proof.
  intros Ha Hp high international provider third_party review.
  pose proof (risk_rules_unfold d a p Ha Hp) as Hrules. cbn zeta in Hrules.
  fold high international provider third_party review in Hrules.
  unfold mock_validation. rewrite Hrules. cbn [bind]. unfold add_rule.
  destruct high, international, third_party, review;
    do 3 eexists; (split; [reflexivity |]); (split; [reflexivity |]);
    (split; [cbn; lia |]); (split; [reflexivity |]);
    cbn; split; (reflexivity || discriminate).
Qed.

(** X11: the rules do not convert their input.  A trigger that is no
    dictionary raises [AttributeError]; a dictionary whose amount is no
    number (text such as "6000" included, or null) raises [TypeError];
    with a numeric amount, a purpose that is no text raises
    [AttributeError]; every other trigger is decided. *)
Theorem rule_based_errors (trigger_data : pyval) :
  match trigger_data with
  | VDict d =>
      match num_of (get d "amount" (VInt 0)), get d "purpose" (VStr "unknown") with
      | None, _ => mock_validation trigger_data = Raise TypeError
      | Some _, VStr _ => exists result, mock_validation trigger_data = Ok result
                                          /\ complete_result result
      | Some _, _ => mock_validation trigger_data = Raise AttributeError
      end
  | _ => mock_validation trigger_data = Raise AttributeError
  end
  /\ mock_validation (VDict [ ("amount", VStr "6000") ]) = Raise TypeError
  /\ mock_validation (VDict [ ("amount", VNone) ]) = Raise TypeError
  /\ mock_validation (VDict [ ("purpose", VNone) ]) = Raise AttributeError.
Proof.
  split; [| repeat split; reflexivity].
  destruct trigger_data as [| | | | | | d]; try reflexivity.
  destruct (num_of (get d "amount" (VInt 0))) as [a |] eqn:Ha.
  - destruct (get d "purpose" (VStr "unknown")) as [| | | | p | |] eqn:Hp;
      try (unfold mock_validation, risk_rules, vget, gt_int; cbn [as_dict bind];
           rewrite Ha, Hp; reflexivity).
    pose proof (risk_rules_unfold d a p Ha Hp) as Hrules. cbn zeta in Hrules.
    unfold mock_validation. rewrite Hrules. cbn [bind].
    eexists. split; [reflexivity | apply verdict_complete].
  - destruct (get d "purpose" (VStr "unknown"));
      unfold mock_validation, risk_rules, vget, gt_int; cbn [as_dict bind];
      rewrite Ha; reflexivity.
Qed.

(** X12: the decision engine is total on well-typed triggers.  Whatever
    the AI client does (raise, return no text, return any text), a trigger
    with a numeric amount and a text purpose gets a complete result; that
    result says [ai_processed] only when it was parsed from a text the
    client returned, and never without a client. *)
Theorem engine_total_on_typed_triggers
    (a : agent) (d : dict) (amount : pyfloat) (purpose : string) :
  num_of (get d "amount" (VInt 0)) = Some amount ->
  get d "purpose" (VStr "unknown") = VStr purpose ->
  exists result,
    perform_ai_validation a (VDict d) = Ok result
    /\ complete_result result
    /\ (field result "ai_processed" = VBool true ->
        exists generate_content prompt text,
          client a = Some generate_content
          /\ create_psd3_validation_prompt (VDict d) = Ok prompt
          /\ generate_content "gemini-1.5-flash" prompt = Ok (VStr text)
          /\ parse_ai_response (strip text) (VDict d) = Ok result)
    /\ (client a = None -> field result "ai_processed" = VBool false).
Proof.
  intros Ha Hp.
  assert (Hmock : exists result,
             mock_validation (VDict d) = Ok result
             /\ complete_result result
             /\ field result "ai_processed" = VBool false).
  { pose proof (risk_rules_unfold d amount purpose Ha Hp) as Hrules. cbn zeta in Hrules.
    unfold mock_validation. rewrite Hrules. cbn [bind].
    eexists. split; [reflexivity |]. split; apply verdict_complete. }
  destruct Hmock as (fallback & Hfallback & Hcomplete & Hrule).
  assert (Hfall : exists result,
             mock_validation (VDict d) = Ok result
             /\ complete_result result
             /\ (field result "ai_processed" = VBool true ->
                 exists generate_content prompt text,
                   client a = Some generate_content
                   /\ create_psd3_validation_prompt (VDict d) = Ok prompt
                   /\ generate_content "gemini-1.5-flash" prompt = Ok (VStr text)
                   /\ parse_ai_response (strip text) (VDict d) = Ok result)
             /\ (client a = None -> field result "ai_processed" = VBool false)).
  { exists fallback. split; [assumption |]. split; [assumption |].
    split; [rewrite Hrule; discriminate | auto]. }
  unfold perform_ai_validation.
  destruct (client a) as [generate_content |] eqn:Hclient; [| exact Hfall].
  destruct (create_psd3_validation_prompt (VDict d)) as [prompt |] eqn:Hprompt;
    cbn [bind try_except]; [| exact Hfall].
  destruct (generate_content "gemini-1.5-flash" prompt) as [text |] eqn:Htext;
    cbn [bind try_except]; [| exact Hfall].
  destruct text as [| | | | text | |]; cbn [as_str bind try_except]; try exact Hfall.
  destruct (parse_ai_response_spec (strip text) (VDict d)) as (parsed & Hparsed & _).
  rewrite Hparsed. cbn [try_except]. eexists. split; [reflexivity |].
  split; [do 6 eexists; reflexivity |].
  split; [| discriminate].
  intros _. exists generate_content, prompt, text. auto.
Qed.

End Engine.

(** ** More on parsing *)

Section Labels.

Import ValidationAgent.

(** Two labels that differ in their first character, or share it and
    differ later, never start the same line. *)
Lemma labels_differ (a b : ascii) (p q s : string) :
  Ascii.eqb a b = false ->
  startswith s (String a p) = true -> startswith s (String b q) = false.
Proof.
  intros Hab. unfold startswith. destruct s as [| c s]; [discriminate |].
  cbn [String.prefix].
  destruct (ascii_dec a c) as [<- |]; [| discriminate].
  destruct (ascii_dec b a) as [-> |]; [| reflexivity].
  rewrite Ascii.eqb_refl in Hab. discriminate.
Qed.

Lemma labels_differ_later (a : ascii) (p q s : string) :
  (forall s', startswith s' p = true -> startswith s' q = false) ->
  startswith s (String a p) = true -> startswith s (String a q) = false.
Proof.
  intros Hrest. unfold startswith in *. destruct s as [| c s]; [discriminate |].
  cbn [String.prefix].
  destruct (ascii_dec a c) as [<- |]; [| discriminate]. apply Hrest.
Qed.

Lemma decision_not_reasoning (s : string) :
  startswith s "DECISION:" = true -> startswith s "REASONING:" = false.
Proof. apply labels_differ. reflexivity. Qed.

Lemma decision_not_risk (s : string) :
  startswith s "DECISION:" = true -> startswith s "RISK_LEVEL:" = false.
Proof. apply labels_differ. reflexivity. Qed.

Lemma confidence_not_reasoning (s : string) :
  startswith s "CONFIDENCE:" = true -> startswith s "REASONING:" = false.
Proof. apply labels_differ. reflexivity. Qed.

Lemma confidence_not_risk (s : string) :
  startswith s "CONFIDENCE:" = true -> startswith s "RISK_LEVEL:" = false.
Proof. apply labels_differ. reflexivity. Qed.

Lemma reasoning_not_risk (s : string) :
  startswith s "REASONING:" = true -> startswith s "RISK_LEVEL:" = false.
Proof. apply labels_differ_later. intros s'. apply labels_differ. reflexivity. Qed.

Lemma parse_line_labels (p : parsed) (line : string) :
  exists p', parse_line p line = Ok p'
    /\ decision p' = (if startswith (strip line) "DECISION:"
                      then upper (label_value line) else decision p)
    /\ reasoning p' = (if startswith (strip line) "REASONING:"
                       then label_value line else reasoning p)
    /\ risk_level p' = (if startswith (strip line) "RISK_LEVEL:"
                        then upper (label_value line) else risk_level p).
Proof.
  unfold parse_line, label_value.
  destruct (startswith (strip line) "DECISION:") eqn:Hd.
  - rewrite (decision_not_reasoning _ Hd), (decision_not_risk _ Hd).
    destruct (labelled_line_splits _ _ Hd eq_refl) as [v ->]. cbn [bind].
    eexists. split; [reflexivity |]. repeat split; reflexivity.
  - destruct (startswith (strip line) "CONFIDENCE:") eqn:Hc.
    + rewrite (confidence_not_reasoning _ Hc), (confidence_not_risk _ Hc).
      destruct (labelled_line_splits _ _ Hc eq_refl) as [v ->]. cbn [bind].
      destruct (float_of_str (strip v)) as [c | e] eqn:Hf.
      * cbn [bind]. eexists. split; [reflexivity |]. repeat split; reflexivity.
      * rewrite (float_of_str_raises _ _ Hf). cbn [bind].
        eexists. split; [reflexivity |]. repeat split; reflexivity.
    + destruct (startswith (strip line) "REASONING:") eqn:Hr.
      * rewrite (reasoning_not_risk _ Hr).
        destruct (labelled_line_splits _ _ Hr eq_refl) as [v ->]. cbn [bind].
        eexists. split; [reflexivity |]. repeat split; reflexivity.
      * destruct (startswith (strip line) "RISK_LEVEL:") eqn:Hk.
        -- destruct (labelled_line_splits _ _ Hk eq_refl) as [v ->]. cbn [bind].
           eexists. split; [reflexivity |]. repeat split; reflexivity.
        -- eexists. split; [reflexivity |]. repeat split; reflexivity.
Qed.

Lemma parse_lines_labels (lines : list string) (p : parsed) :
  exists p', parse_lines p lines = Ok p'
    /\ decision p'
       = match find (fun line => startswith (strip line) "DECISION:") (rev lines) with
         | Some line => upper (label_value line)
         | None => decision p
         end
    /\ reasoning p'
       = match find (fun line => startswith (strip line) "REASONING:") (rev lines) with
         | Some line => label_value line
         | None => reasoning p
         end
    /\ risk_level p'
       = match find (fun line => startswith (strip line) "RISK_LEVEL:") (rev lines) with
         | Some line => upper (label_value line)
         | None => risk_level p
         end.
Proof.
  revert p. induction lines as [| line rest IH]; intros p.
  - exists p. repeat split; reflexivity.
  - destruct (parse_line_labels p line) as (p1 & Hline & Hd & Hr & Hk).
    destruct (IH p1) as (p' & Hrest & Hd' & Hr' & Hk').
    exists p'. cbn [parse_lines]. rewrite Hline. cbn [bind].
    split; [exact Hrest |]. cbn [rev]. rewrite !find_last, Hd', Hr', Hk', Hd, Hr, Hk.
    repeat split;
      match goal with |- context [find ?f (rev rest)] =>
        destruct (find f (rev rest)); [reflexivity |] end;
      match goal with |- context [startswith ?l ?lbl] =>
        destruct (startswith l lbl); reflexivity end.
Qed.

(** X13: in a response the last line of each label decides.  The
    decision is the value of the last line starting with "DECISION:", in
    upper case, or "REJECT" without such a line, whatever that value is
    (it is not checked against APPROVE and REJECT); the reasoning is the
    rest of the last "REASONING:" line alone, or the whole response;
    the risk level is the upper-cased value of the last "RISK_LEVEL:"
    line, or "MEDIUM"; [valid] compares the decision with "APPROVE". *)
Theorem last_label_decides (ai_response : string) (trigger_data : pyval) :
  let decision :=
    match last_line_with "DECISION:" ai_response with
    | Some line => upper (label_value line)
    | None => "REJECT"
    end in
  exists result,
    parse_ai_response ai_response trigger_data = Ok result
    /\ field result "decision" = VStr decision
    /\ field result "valid" = VBool (String.eqb decision "APPROVE")
    /\ field result "reasoning"
       = VStr match last_line_with "REASONING:" ai_response with
              | Some line => label_value line
              | None => ai_response
              end
    /\ field result "risk_level"
       = VStr match last_line_with "RISK_LEVEL:" ai_response with
              | Some line => upper (label_value line)
              | None => "MEDIUM"
              end
    /\ field result "ai_processed" = VBool true.
Proof.
  cbv zeta. unfold last_line_with, parse_ai_response.
  destruct (parse_lines_labels (split "010" ai_response)
              {| decision := "REJECT"; confidence := half;
                 reasoning := ai_response; risk_level := "MEDIUM" |})
    as (p & -> & Hd & Hr & Hk).
  cbn [try_except bind decision reasoning risk_level] in *.
  eexists. split; [reflexivity |].
  cbn [field get_none get assoc_get String.eqb Ascii.eqb Bool.eqb].
  rewrite <- Hd, <- Hr, <- Hk. repeat split; reflexivity.
Qed.

End Labels.

(** ** More on the audit ledger *)

Section Notes.

Import AuditAgent.

Context `{Runtime}.

(** The reasoning of a rule-based result is longer than 50 characters. *)
Lemma mock_reasoning_substantial (trigger_data result : pyval) :
  ValidationAgent.mock_validation trigger_data = Ok result ->
  exists text,
    vget result "reasoning" (VStr "") = Ok (VStr text)
    /\ (50 <? String.length text) = true.
Proof.
  unfold ValidationAgent.mock_validation.
  destruct (ValidationAgent.risk_rules trigger_data) as [scored |] eqn:Hrules;
    cbn [bind]; [| discriminate].
  destruct (risk_rules_typed _ _ Hrules) as (d & a & p & -> & Ha & Hp).
  pose proof (risk_rules_unfold d a p Ha Hp) as Hunfold. cbv zeta in Hunfold.
  set (review := py_eq (get d "type" (VStr "unknown")) (VStr "account_review")) in Hunfold.
  set (third_party := truthy (get d "third_party_provider" (VStr "unknown"))
                      && py_ne (get d "third_party_provider" (VStr "unknown"))
                           (VStr "bank")) in Hunfold.
  set (international := contains "international" (lower p)
                        || contains "cross-border" (lower p)) in Hunfold.
  set (high := fgt a (FFin (inject_Z 5000))) in Hunfold.
  clearbody review third_party international high.
  rewrite Hunfold in Hrules. injection Hrules as <-. intros [= <-].
  destruct review, third_party, international, high;
    eexists; split; vm_compute; reflexivity.
Qed.

Lemma startswith_append (p s : string) : startswith (p ++ s) p = true.
Proof.
  unfold startswith. induction p as [| c p IH]; [destruct s; reflexivity |].
  cbn. destruct (ascii_dec c c) as [_ | Hne]; [exact IH | now elim Hne].
Qed.

(** The notes made from a reasoning open with the assessment line. *)
Lemma format_notes_header (ai_reasoning validation_result trigger_data : pyval)
    (notes : list string) :
  format_ai_reasoning_as_notes ai_reasoning validation_result trigger_data = Ok notes ->
  exists header rest,
    notes = header :: rest
    /\ startswith header "✅ AI Assessment: " || startswith header "❌ AI Assessment: "
       = true.
Proof.
  unfold format_ai_reasoning_as_notes.
  repeat match goal with
         | |- context [bind ?m _] =>
             destruct m; cbn [bind]; [| discriminate]
         end.
  assert (Hheader : forall approved text,
             startswith ((if approved : bool then "✅" else "❌") ++ " AI Assessment: "
                         ++ text) "✅ AI Assessment: "
             || startswith ((if approved : bool then "✅" else "❌") ++ " AI Assessment: "
                            ++ text) "❌ AI Assessment: " = true).
  { intros [|] text; apply orb_true_iff; [left | right];
      [apply (startswith_append "✅ AI Assessment: ")
      | apply (startswith_append "❌ AI Assessment: ")]. }
  destruct (100 <? String.length _).
  - destruct (filter _ _); intros [= <-];
      eexists; eexists; (split; [reflexivity | apply Hheader]).
  - intros [= <-]; eexists; eexists; (split; [reflexivity | apply Hheader]).
Qed.

(** X14: a rule-based result is recorded with the notes made for an AI
    reasoning.  The reasoning of every result of the rules has more
    than 50 characters, so an entry built for such a result opens with
    the line "AI Assessment" and the template of PSD3 references is not
    used for it. *)
Theorem rule_based_results_noted_as_ai
    (trigger_data result audit_data audit_entry recorded_trigger recorded_result : pyval) :
  ValidationAgent.mock_validation trigger_data = Ok result ->
  vget audit_data "validation_result" (VDict []) = Ok result ->
  make_entry audit_data = Ok (audit_entry, recorded_trigger, recorded_result) ->
  exists header rest,
    field audit_entry "regulatory_notes" = VList (VStr header :: rest)
    /\ startswith header "✅ AI Assessment: " || startswith header "❌ AI Assessment: "
       = true.
Proof.
  intros Hmock Hresult.
  destruct (mock_reasoning_substantial _ _ Hmock) as (text & Htext & Hlong).
  unfold make_entry. rewrite Hresult. cbn [bind].
  destruct (vget audit_data "trigger_data" (VDict [])) as [td |]; cbn [bind];
    [| discriminate].
  rewrite Htext. cbn [bind].
  assert (Htruthy : truthy (VStr text) = true) by (destruct text; [discriminate | reflexivity]).
  rewrite Htruthy. cbn [py_len bind]. rewrite Hlong.
  destruct (format_ai_reasoning_as_notes (VStr text) result td) as [notes |] eqn:Hnotes;
    cbn [bind]; [| discriminate].
  destruct (vget audit_data "timestamp" now); cbn [bind]; [| discriminate].
  destruct (vget audit_data "source_agent" (VStr "Unknown")); cbn [bind]; [| discriminate].
  intros [= <- _ _].
  destruct (format_notes_header _ _ _ _ Hnotes) as (header & rest & -> & Hheader).
  exists header, (map VStr rest). split; [reflexivity | exact Hheader].
Qed.

(** X15: the template notes warn about a low confidence only for a
    result that is not valid.  A valid result gets the six lines of the
    confirmation, and one more for the four trigger types of the
    detector, but never a warning, however low its confidence; a result
    that is not valid gets six lines, then the CRITICAL line when its
    confidence is below 0.5, the WARNING line when it is from 0.5 to below
    0.7, and never both. *)
Theorem warnings_only_when_rejected
    (validation_result trigger_data : pyval) (notes : list string) :
  generate_regulatory_notes validation_result trigger_data = Ok notes ->
  let critical := "CRITICAL: Low confidence validation - manual review required" in
  let warning := "WARNING: Moderate confidence - additional verification recommended" in
  exists is_valid confidence,
    vget validation_result "valid" (VBool false) = Ok is_valid
    /\ vget validation_result "confidence" (lit 0.0) = Ok confidence
    /\ 6 <= length notes <= 7
    /\ (In critical notes
        <-> truthy is_valid = false
            /\ lt_float confidence (float_of_Q 0.5) = Ok true)
    /\ (In warning notes
        <-> truthy is_valid = false
            /\ lt_float confidence (float_of_Q 0.5) = Ok false
            /\ lt_float confidence (float_of_Q 0.7) = Ok true)
    /\ (truthy is_valid = true ->
        nth_error notes 0 = Some "PSD3 Article 64 compliance confirmed").
Proof.
  unfold generate_regulatory_notes.
  destruct (vget trigger_data "type" (VStr "unknown")) as [trigger_type |]; cbn [bind];
    [| discriminate].
  destruct (vget validation_result "valid" (VBool false)) as [is_valid |]; cbn [bind];
    [| discriminate].
  destruct (vget validation_result "confidence" (lit 0.0)) as [confidence |]; cbn [bind];
    [| discriminate].
  intros Hnotes. cbv zeta. exists is_valid, confidence.
  split; [reflexivity |]. split; [reflexivity |].
  destruct (truthy is_valid).
  - destruct (format_pct1 confidence) as [text |]; cbn [bind] in Hnotes; [| discriminate].
    injection Hnotes as <-.
    destruct (py_eq trigger_type (VStr "high_value_transaction"));
      [| destruct (py_eq trigger_type (VStr "international_transfer"));
         [| destruct (py_eq trigger_type (VStr "third_party_data_sharing"));
            [| destruct (py_eq trigger_type (VStr "account_activity_review"))]]];
      (split; [cbn; lia |]);
      (split; [split; [cbn; intuition discriminate | intros [? _]; discriminate] |]);
      (split; [split; [cbn; intuition discriminate | intros [? _]; discriminate] |]);
      reflexivity.
  - destruct (vget validation_result "reason" (VStr "Validation failed")) as [reason |];
      cbn [bind] in Hnotes; [| discriminate].
    destruct (format_pct1 confidence) as [text |]; cbn [bind] in Hnotes; [| discriminate].
    destruct (lt_float confidence (float_of_Q 0.5)) as [[|] | e] eqn:Hlow;
      cbn [bind] in Hnotes; [| | discriminate].
    + injection Hnotes as <-. split; [cbn; lia |].
      split; [split; [auto | intros _; cbn; auto 10] |].
      split; [split; [cbn; intuition discriminate | intros (_ & ? & _); discriminate] |].
      discriminate.
    + destruct (lt_float confidence (float_of_Q 0.7)) as [[|] | e] eqn:Hmid;
        cbn [bind] in Hnotes; [| | discriminate]; injection Hnotes as <-.
      * split; [cbn; lia |].
        split; [split; [cbn; intuition discriminate | intros [_ ?]; discriminate] |].
        split; [split; [auto | intros _; cbn; auto 10] |]. discriminate.
      * split; [cbn; lia |].
        split; [split; [cbn; intuition discriminate | intros [_ ?]; discriminate] |].
        split; [split; [cbn; intuition discriminate | intros (_ & _ & ?); discriminate] |].
        discriminate.
Qed.

Lemma process_audit_log_file (audit_data : pyval) (st : state) :
  let st' := snd (process_audit_log audit_data st) in
  writable st' = writable st
  /\ (writable st = false -> audit_log_file st' = audit_log_file st)
  /\ (writable st = true -> in_sync st -> in_sync st').
Proof.
  cbv zeta. unfold process_audit_log, io_bind, lift, in_sync.
  destruct (make_entry audit_data) as [[[audit_entry trigger_data] validation_result] |]
    eqn:Hentry; [| cbn [snd]; auto].
  rewrite (make_entry_log_line _ _ _ _ Hentry).
  unfold save_audit_logs, set_logs. cbn [writable audit_logs audit_log_file].
  destruct (writable st); cbn [audit_logs audit_log_file writable];
    destruct (100 <? length (audit_logs st ++ [audit_entry]));
    cbn [snd audit_logs audit_log_file writable];
    repeat split; try reflexivity; discriminate.
Qed.

(** X16: the ledger file follows the ledger.  While the file can be
    written it holds exactly the ledger in memory after every batch of
    messages, so that an agent started from the file resumes with the
    same ledger; while it cannot be written the ledger in memory still
    grows and the file stays as it was. *)
Theorem ledger_file_follows_memory (batch : list pyval) (st : state) :
  (writable st = true -> in_sync st ->
   in_sync (process_all batch st)
   /\ load_audit_logs (option_map Ok (audit_log_file (process_all batch st))) true
      = process_all batch st)
  /\ (writable st = false ->
      audit_log_file (process_all batch st) = audit_log_file st).
Proof.
  split.
  - intros Hw Hsync.
    assert (Hinv : in_sync (process_all batch st)
                   /\ writable (process_all batch st) = true).
    { revert st Hw Hsync. induction batch as [| audit_data rest IH]; intros st Hw Hsync;
        [auto |].
      cbn [process_all].
      destruct (process_audit_log_file audit_data st) as (Hw' & _ & Hsync').
      apply IH; [congruence | auto]. }
    destruct Hinv as [Hsync' Hw']. split; [assumption |].
    unfold in_sync in Hsync'.
    destruct (process_all batch st) as [logs file w]. cbn in *. subst w.
    destruct file as [stored |]; subst; reflexivity.
  - revert st. induction batch as [| audit_data rest IH]; intros st Hw; [reflexivity |].
    cbn [process_all].
    destruct (process_audit_log_file audit_data st) as (Hw' & Hfile & _).
    rewrite IH by congruence. auto.
Qed.

End Notes.

(** ** The HTTP endpoints *)

Section Endpoints.

Context `{Runtime}.

(** The engine only decides dictionaries: for any other trigger both
    strategies raise [AttributeError]. *)
Lemma perform_ai_validation_no_dict
    (a : ValidationAgent.agent) (trigger_data : pyval) (e : exn) :
  vget trigger_data "type" (VStr "unknown") = Raise e ->
  e = AttributeError
  /\ ValidationAgent.perform_ai_validation a trigger_data = Raise AttributeError.
Proof.
  unfold ValidationAgent.perform_ai_validation, ValidationAgent.create_psd3_validation_prompt,
    ValidationAgent.mock_validation, ValidationAgent.risk_rules.
  destruct trigger_data; cbn; try discriminate;
    (intros [= <-]; split; [reflexivity |]); now destruct (ValidationAgent.client a).
Qed.

(** X17: what [/validate] answers is fixed by the body and the decision
    engine.  A body that is no JSON is answered 500.  An empty body
    (null, an empty object such as the trigger [{}], 0, empty text) is
    answered 400 with "No trigger data provided".  For any other body,
    when the engine returns a result the answer is that result with the
    status 200 and exactly one request has been issued, an
    "audit_log_request" to the audit agent with the result and the
    trigger as its payload; when the engine raises, the answer is 500.
    The 400 and 500 answers come without any request, and a 500 answer
    has the text of the exception, the decision "error" and the
    confidence 0.0. *)
Theorem validate_consent_replies
    (a : ValidationAgent.agent) (body : result pyval) (sent : A2AMessageQueue.outbox) :
  let failure (e : exn) : pyval * Z :=
    (VDict [ ("error", VStr (exn_str e)); ("decision", VStr "error");
             ("confidence", VFloat (FFin 0)) ], 500%Z) in
  match body with
  | Raise e => ValidationAgent.validate_consent a body sent = (failure e, sent)
  | Ok trigger_data =>
      if truthy trigger_data then
        match ValidationAgent.perform_ai_validation a trigger_data with
        | Ok result =>
            exists forwarded,
              ValidationAgent.validate_consent a body sent
              = ((result, 200%Z),
                 sent ++ [("http://audit-agent-service.agents-ns.svc.cluster.local:8080/a2a",
                           forwarded)])
              /\ field forwarded "to_agent" = VStr "AuditAgent"
              /\ field forwarded "message_type" = VStr "audit_log_request"
              /\ field forwarded "payload"
                 = VDict [ ("validation_result", result);
                           ("trigger_data", trigger_data);
                           ("source_agent", VStr ValidationAgent.name);
                           ("timestamp", now) ]
        | Raise e => ValidationAgent.validate_consent a body sent = (failure e, sent)
        end
      else
        ValidationAgent.validate_consent a body sent
        = ((VDict [ ("error", VStr "No trigger data provided") ], 400%Z), sent)
  end.
Proof.
  cbv zeta. unfold ValidationAgent.validate_consent.
  destruct body as [trigger_data | e]; [| reflexivity].
  destruct (truthy trigger_data) eqn:Htruthy; cbn [negb]; [| reflexivity].
  destruct (vget trigger_data "type" (VStr "unknown")) as [type | e] eqn:Htype.
  - destruct (ValidationAgent.perform_ai_validation a trigger_data) as [result | e];
      [| reflexivity].
    destruct (send_to_audit_agent_request result trigger_data VNone sent)
      as (audit_id & -> & _).
    eexists. split; [reflexivity |]. repeat split; reflexivity.
  - destruct (perform_ai_validation_no_dict a _ _ Htype) as [-> ->]. reflexivity.
Qed.

(** X18: a direct submission and an A2A submission record the same.  For
    an audit request whose payload is not empty, posting the payload to
    [/audit] and posting the envelope to [/a2a] leave the agent in the
    same state; [/audit] answers 200 when the entry is recorded and 500
    when it cannot be built, while [/a2a] answers 200 in both cases and
    tells them apart only by the status field of its reply. *)
Theorem direct_and_a2a_submission_agree (envelope : dict) (st : AuditAgent.state) :
  py_eq (get_none envelope "protocol") (VStr "A2A/1.0") = true ->
  py_eq (get_none envelope "to_agent") (VStr AuditAgent.name) = true ->
  py_eq (get_none envelope "message_type") (VStr "audit_log_request") = true ->
  truthy (get envelope "payload" (VDict [])) = true ->
  let payload := get envelope "payload" (VDict []) in
  let direct := AuditAgent.receive_audit (Ok payload) st in
  let by_a2a := AuditAgent.handle_a2a_message (Ok (VDict envelope)) st in
  snd by_a2a = snd direct
  /\ snd (fst by_a2a) = 200%Z
  /\ (snd (fst direct) = 200%Z /\ field (fst (fst by_a2a)) "status" = VStr "accepted"
      /\ succeeds (AuditAgent.make_entry payload) = true
      \/ snd (fst direct) = 500%Z /\ field (fst (fst by_a2a)) "status" = VStr "error"
         /\ succeeds (AuditAgent.make_entry payload) = false /\ snd direct = st).
Proof.
  intros Hprotocol Hto Htype Htruthy. cbv zeta.
  unfold AuditAgent.receive_audit, AuditAgent.handle_a2a_message.
  rewrite Htruthy. cbn [negb].
  assert (Henvelope : truthy (VDict envelope) = true).
  { destruct envelope; [discriminate Hprotocol | reflexivity]. }
  rewrite Henvelope. cbn [negb].
  rewrite (audit_handles_request envelope st Hprotocol Hto Htype).
  pose proof (process_audit_log_cases (get envelope "payload" (VDict [])) st) as Hlog.
  destruct (AuditAgent.make_entry (get envelope "payload" (VDict [])))
    as [[[audit_entry td] vr] | e].
  - destruct Hlog as (Hok & _).
    destruct (AuditAgent.process_audit_log (get envelope "payload" (VDict [])) st)
      as [[done | e] st']; cbn [fst snd] in *; [| discriminate].
    split; [reflexivity |]. split; [reflexivity |]. left. repeat split; reflexivity.
  - rewrite Hlog. cbn [fst snd].
    split; [reflexivity |]. split; [reflexivity |]. right. repeat split; reflexivity.
Qed.

End Endpoints.

(** ** The file-based queue *)

Section FileQueue.

Import SharedMessageQueue.

Context `{Runtime}.

Lemma sort_messages_filter (agent_name : string) (queue messages remaining : list pyval) :
  forallb has_addressee queue = true ->
  sort_messages agent_name queue messages remaining
  = Ok (messages ++ filter (addressed_to agent_name) queue,
        remaining ++ filter (fun msg => negb (addressed_to agent_name msg)) queue).
Proof.
  revert messages remaining. induction queue as [| msg rest IH]; intros messages remaining.
  - intros _. cbn. now rewrite !app_nil_r.
  - cbn [forallb]. intros Hall. apply andb_true_iff in Hall as [Hmsg Hrest].
    cbn [sort_messages filter]. unfold has_addressee in Hmsg. unfold addressed_to.
    destruct (getitem msg "to") as [to |]; [| discriminate]. cbn [bind negb].
    destruct (py_eq to (VStr agent_name)); cbn [negb]; rewrite (IH _ _ Hrest);
      now rewrite <- app_assoc.
Qed.

Lemma filter_kept_addressed (agent_name : string) (queue : list pyval) :
  filter (addressed_to agent_name)
    (filter (fun msg => negb (addressed_to agent_name msg)) queue) = [].
Proof.
  induction queue as [| msg rest IH]; [reflexivity |].
  cbn [filter]. destruct (addressed_to agent_name msg) eqn:Hmsg; cbn [negb filter];
    [exact IH |]. now rewrite Hmsg.
Qed.

Lemma filter_kept_kept (agent_name : string) (queue : list pyval) :
  filter (fun msg => negb (addressed_to agent_name msg))
    (filter (fun msg => negb (addressed_to agent_name msg)) queue)
  = filter (fun msg => negb (addressed_to agent_name msg)) queue.
Proof.
  induction queue as [| msg rest IH]; [reflexivity |].
  cbn [filter]. destruct (addressed_to agent_name msg) eqn:Hmsg; cbn [negb filter];
    [exact IH |]. rewrite Hmsg. cbn [negb]. now rewrite IH.
Qed.

Lemma forallb_filter (A : Type) (keep good : A -> bool) (l : list A) :
  forallb good l = true -> forallb good (filter keep l) = true.
Proof.
  rewrite !forallb_forall. intros Hall x Hin. apply filter_In in Hin as [Hin _]. auto.
Qed.

Lemma get_messages_sorts (agent_name : string) (queue : list pyval) :
  forallb has_addressee queue = true ->
  get_messages agent_name {| queue_file := Json (VList queue); lock_file := false |}
  = Returns (Ok (filter (addressed_to agent_name) queue))
      {| queue_file :=
           Json (VList (filter (fun msg => negb (addressed_to agent_name msg)) queue));
         lock_file := false |}.
Proof.
  intros Hall. unfold get_messages, acquire_lock, get_locked, load_queue, iterate.
  cbn [lock_file queue_file bind]. rewrite (sort_messages_filter _ _ _ _ Hall).
  reflexivity.
Qed.

(** X19: [get_messages] hands out each message once.  With the lock free
    and a queue whose messages all name an addressee, the call returns
    the messages of the agent in the order they were queued, leaves the
    messages of the other agents in the file in their order and releases
    the lock; asking again at once returns nothing and changes nothing. *)
Theorem get_messages_consumes (agent_name : string) (queue : list pyval) :
  forallb has_addressee queue = true ->
  let fs := {| queue_file := Json (VList queue); lock_file := false |} in
  let kept := filter (fun msg => negb (addressed_to agent_name msg)) queue in
  let fs' := {| queue_file := Json (VList kept); lock_file := false |} in
  get_messages agent_name fs = Returns (Ok (filter (addressed_to agent_name) queue)) fs'
  /\ get_messages agent_name fs' = Returns (Ok []) fs'.
Proof.
  intros Hall fs kept fs'. split; [apply get_messages_sorts, Hall |].
  unfold fs'. rewrite get_messages_sorts by (apply forallb_filter, Hall).
  unfold kept. now rewrite filter_kept_addressed, filter_kept_kept.
Qed.

(** X20: what [send_message] queues is delivered to its addressee and to
    nobody else.  With the lock free and a queue whose messages all name
    an addressee, sending a dictionary succeeds, appends one message that
    carries it as its payload and keeps that property of the queue; the
    next [get_messages] of the addressee returns its earlier messages
    followed by the new one, and that of any other agent returns exactly
    what it would have returned before. *)
Theorem sent_message_reaches_addressee
    (agent_name : string) (message : dict) (queue : list pyval) :
  forallb has_addressee queue = true ->
  let fs := {| queue_file := Json (VList queue); lock_file := false |} in
  exists msg,
    send_message agent_name (VDict message) fs
    = Returns (Ok tt) {| queue_file := Json (VList (queue ++ [msg])); lock_file := false |}
    /\ field msg "payload" = VDict message
    /\ forallb has_addressee (queue ++ [msg]) = true
    /\ forall reader,
         match get_messages reader
                 {| queue_file := Json (VList (queue ++ [msg])); lock_file := false |} with
         | Returns (Ok messages) _ =>
             messages
             = filter (addressed_to reader) queue
               ++ (if String.eqb agent_name reader then [msg] else [])
         | _ => False
         end.
Proof.
  intros Hall fs. eexists. split; [reflexivity |]. split; [reflexivity |].
  assert (Hqueue : forallb has_addressee
            (queue ++ [VDict [ ("to", VStr agent_name); ("payload", VDict message);
                               ("timestamp", now);
                               ("id", VStr (py_str now ++ "_"
                                            ++ py_str (VInt (py_hash (py_str (VDict message)))))) ]])
          = true).
  { rewrite forallb_app, Hall. reflexivity. }
  split; [exact Hqueue |].
  intros reader. rewrite (get_messages_sorts reader _ Hqueue).
  rewrite filter_app. reflexivity.
Qed.

(** X21: the lock is never left behind and a failed read loses nothing.
    A call waits for ever exactly when the lock file exists at the call;
    otherwise it returns, also by an exception, with the lock released;
    [get_messages] that raises leaves the queue file as it was, and it
    raises for every agent once the queue holds a message without
    addressee. *)
Theorem queue_lock_discipline
    (agent_name : string) (message : pyval) (fs : files) :
  match get_messages agent_name fs with
  | Waits => lock_file fs = true
  | Returns r fs' =>
      lock_file fs = false /\ lock_file fs' = false
      /\ (succeeds r = true \/ queue_file fs' = queue_file fs)
  end
  /\ match send_message agent_name message fs with
     | Waits => lock_file fs = true
     | Returns r fs' => lock_file fs = false /\ lock_file fs' = false
     end
  /\ forall queue,
       queue_file fs = Json (VList queue) ->
       forallb has_addressee queue = false ->
       lock_file fs = false ->
       exists e, get_messages agent_name fs = Returns (Raise e) fs.
Proof.
  destruct fs as [content lock]. split; [| split].
  - unfold get_messages, acquire_lock. cbn [lock_file queue_file].
    destruct lock; [reflexivity |].
    unfold get_locked.
    destruct (queue <- load_queue _ ;; items <- iterate queue ;;
              sort_messages agent_name items [] []) as [[messages remaining] | e];
      cbn [release_lock write_queue lock_file queue_file];
      repeat split; auto.
  - unfold send_message, acquire_lock. cbn [lock_file queue_file].
    destruct lock; [reflexivity |].
    destruct (send_locked _ message _) as [r fs']. cbn [release_lock lock_file].
    split; reflexivity.
  - cbn [lock_file queue_file]. intros queue -> Hbad ->.
    assert (Hraises : forall messages remaining,
              exists e, sort_messages agent_name queue messages remaining = Raise e).
    { induction queue as [| msg rest IH]; [discriminate |].
      intros messages remaining. cbn [forallb] in Hbad. cbn [sort_messages].
      unfold has_addressee in Hbad.
      destruct (getitem msg "to") as [to |] eqn:Hto; cbn [bind]; [| eauto].
      cbn [succeeds andb] in Hbad.
      destruct (py_eq to (VStr agent_name)); apply IH, Hbad. }
    destruct (Hraises [] []) as [e He]. exists e.
    unfold get_messages, acquire_lock, get_locked, load_queue, iterate.
    cbn [lock_file queue_file bind]. rewrite He. reflexivity.
Qed.

(** X22: the polling loop of the audit agent records nothing and loses
    what it reads.  A turn of [run_loop] that ends leaves the agent's
    state as it was, whatever the queue holds; with the lock free and a
    well-formed queue it takes the messages addressed to the audit agent
    off the shared queue, and they are gone: the method they are handed
    to does not exist.  Without a queue the turn does nothing. *)
Theorem run_loop_records_nothing
    (a2a_queue : option files) (st : AuditAgent.state) :
  match AuditAgent.run_loop_turn a2a_queue st with
  | Some (st', _) => st' = st
  | None => exists fs, a2a_queue = Some fs /\ lock_file fs = true
  end
  /\ AuditAgent.run_loop_turn None st = Some (st, None)
  /\ forall queue,
       forallb has_addressee queue = true ->
       AuditAgent.run_loop_turn
         (Some {| queue_file := Json (VList queue); lock_file := false |}) st
       = Some (st, Some {| queue_file :=
                             Json (VList (filter (fun msg =>
                                            negb (addressed_to AuditAgent.name msg)) queue));
                           lock_file := false |}).
Proof.
  assert (Hdropped : forall messages, snd (AuditAgent.process_messages messages st) = st).
  { intros [| message rest]; reflexivity. }
  split; [| split].
  - destruct a2a_queue as [fs |]; [| reflexivity]. unfold AuditAgent.run_loop_turn.
    destruct fs as [content lock]. unfold get_messages, acquire_lock.
    cbn [lock_file queue_file]. destruct lock; [eauto |].
    destruct (get_locked _ _) as [[messages | e] fs']; [apply Hdropped | reflexivity].
  - reflexivity.
  - intros queue Hall. unfold AuditAgent.run_loop_turn.
    rewrite (get_messages_sorts _ _ Hall). now rewrite Hdropped.
Qed.

End FileQueue.

(** ** The processing cycle of the monitoring agent *)

Section Cycle.

Import A2AMessageQueue MonitoringCycle.

Context `{Runtime}.

Variable requests_get : string -> bool -> http_outcome.
Variable choice : list string -> string.
Variable randint : Z -> Z -> Z.

Lemma dict_set_get (V : Type) (d : list (string * V)) (key : string) (x : V) :
  assoc_get (dict_set d key x) key = Some x.
Proof.
  induction d as [| [k y] rest IH]; cbn [dict_set assoc_get].
  - now rewrite String.eqb_refl.
  - destruct (String.eqb k key) eqn:Hk; cbn [assoc_get]; rewrite Hk; [reflexivity | exact IH].
Qed.

Lemma tag_all_tagged (account_id : string) (records found : list pyval) :
  tag_all account_id records = Ok found ->
  Forall (fun tx => getitem tx "account_id" = Ok (VStr account_id)) found.
Proof.
  revert found. induction records as [| tx rest IH]; intros found; cbn [tag_all].
  - intros [= <-]. constructor.
  - destruct tx as [| | | | | | d]; try discriminate. cbn [setitem bind].
    destruct (tag_all account_id rest) as [rest' |]; cbn [bind]; [| discriminate].
    intros [= <-]. constructor; [| now apply IH].
    cbn [getitem]. now rewrite dict_set_get.
Qed.

Lemma tag_all_stamps (account_id : string) (records found : list pyval) :
  tag_all account_id records = Ok found ->
  Forall2 (fun record tx => setitem record "account_id" (VStr account_id) = Ok tx)
          records found.
Proof.
  revert found. induction records as [| tx rest IH]; intros found; cbn [tag_all].
  - intros [= <-]. constructor.
  - destruct (setitem tx "account_id" (VStr account_id)) as [tx' |] eqn:Htx; cbn [bind];
      [| discriminate].
    destruct (tag_all account_id rest) as [rest' |]; cbn [bind]; [| discriminate].
    intros [= <-]. constructor; [exact Htx | now apply IH].
Qed.

Lemma poll_account_polled (account_id : string) (all_transactions found : list pyval) :
  poll_account requests_get account_id all_transactions = Ok found ->
  exists records,
    found = all_transactions ++ records /\ polled_for requests_get account_id records.
Proof.
  assert (Hnone : polled_for requests_get account_id []).
  { split; [constructor | now left]. }
  unfold poll_account, fetch. fold (history_url account_id).
  destruct (requests_get (history_url account_id) true) as [e | code json] eqn:Hfirst;
    cbn [bind]; [discriminate |].
  cbn [fst snd].
  assert (Hanswer : forall with_headers status_code body,
            requests_get (history_url account_id) with_headers = Response status_code body ->
            (if (status_code =? 200)%Z then
               account_transactions <- body ;;
               match account_transactions with
               | VList records =>
                   tagged <- tag_all account_id records ;; Ok (all_transactions ++ tagged)
               | _ => Ok all_transactions
               end
             else Ok all_transactions) = Ok found ->
            exists records,
              found = all_transactions ++ records
              /\ polled_for requests_get account_id records).
  { intros with_headers status_code body Hget.
    destruct (status_code =? 200)%Z eqn:Hcode;
      [| intros [= <-]; exists []; split; [now rewrite app_nil_r | exact Hnone]].
    apply Z.eqb_eq in Hcode. subst status_code.
    destruct body as [account_transactions |]; cbn [bind]; [| discriminate].
    destruct account_transactions as [| | | | | answer |];
      try (intros [= <-]; exists []; split; [now rewrite app_nil_r | exact Hnone]).
    destruct (tag_all account_id answer) as [records |] eqn:Htag; cbn [bind]; [| discriminate].
    intros [= <-]. exists records. split; [reflexivity |].
    split; [exact (tag_all_tagged _ _ _ Htag) |].
    right. exists with_headers, answer. split; [exact Hget | exact (tag_all_stamps _ _ _ Htag)]. }
  destruct (code =? 401)%Z.
  - destruct (requests_get (history_url account_id) false) as [e | code' json'] eqn:Hsecond;
      cbn [bind]; [discriminate |].
    cbn [fst snd]. apply (Hanswer false code' json' Hsecond).
  - cbn [bind fst snd]. apply (Hanswer true code json Hfirst).
Qed.

Lemma poll_accounts_polled (accounts : list string) (all_transactions : list pyval) :
  match poll_accounts requests_get accounts all_transactions with
  | Ok found =>
      exists per_account,
        found = all_transactions ++ concat per_account
        /\ Forall2 (polled_for requests_get) accounts per_account
  | Raise e => e <> RequestException
  end.
Proof.
  revert all_transactions. induction accounts as [| account_id rest IH];
    intros all_transactions; cbn [poll_accounts].
  - exists []. split; [now rewrite app_nil_r | constructor].
  - assert (Hskip :
      match poll_accounts requests_get rest all_transactions with
      | Ok found =>
          exists per_account,
            found = all_transactions ++ concat per_account
            /\ Forall2 (polled_for requests_get) (account_id :: rest) per_account
      | Raise e => e <> RequestException
      end).
    { specialize (IH all_transactions).
      destruct (poll_accounts requests_get rest all_transactions) as [found | e];
        [| exact IH].
      destruct IH as (per_account & -> & Hall). exists ([] :: per_account).
      split; [reflexivity |]. constructor; [| exact Hall].
      split; [constructor | now left]. }
    destruct (poll_account requests_get account_id all_transactions) as [found | e] eqn:Hpoll.
    + destruct (poll_account_polled _ _ _ Hpoll) as (records & -> & Hrecords).
      specialize (IH (all_transactions ++ records)).
      destruct (poll_accounts requests_get rest (all_transactions ++ records))
        as [found | e]; [| exact IH].
      destruct IH as (per_account & -> & Hall). exists (records :: per_account).
      split; [cbn [concat]; now rewrite app_assoc |]. now constructor.
    + destruct e; try discriminate. exact Hskip.
Qed.

(** X23: what [poll_transactions] returns is made of one group of records
    for each monitored account, in the order of the accounts.  A group is
    empty, or it is the list the service answered with the status 200 on
    the address of that account, and each of its records is a dictionary
    that carries that account as its [account_id], whatever the service
    put there.  The result is [None] exactly when all groups are empty,
    never an empty list, and a request exception never leaves
    [poll_transactions]. *)
Theorem polled_records_are_tagged :
  match poll_transactions requests_get with
  | Ok polled =>
      exists per_account,
        Forall2 (polled_for requests_get) monitored_accounts per_account
        /\ polled = match concat per_account with
                    | [] => None
                    | tx :: rest => Some (tx :: rest)
                    end
  | Raise e => e <> RequestException
  end.
Proof.
  unfold poll_transactions.
  pose proof (poll_accounts_polled monitored_accounts []) as Hpolled.
  destruct (poll_accounts requests_get monitored_accounts []) as [found | e];
    cbn [bind]; [| exact Hpolled].
  destruct Hpolled as (per_account & -> & Hall). cbn [app].
  exists per_account. split; [exact Hall |]. now destruct (concat per_account).
Qed.

Lemma send_to_validation_agent_request (trigger : pyval) (sent : outbox) :
  snd (send_to_validation_agent trigger sent) = sent ++ [validation_request trigger]
  /\ ((forall endpoint message, delivery_outcome (requests_post endpoint message)) ->
      fst (send_to_validation_agent trigger sent) = Ok tt).
Proof.
  unfold send_to_validation_agent, io_bind.
  rewrite (send_message_known name "ValidationAgent" "consent_validation_request"
             "http://validation-agent-service.agents-ns.svc.cluster.local:8080/a2a"
             trigger VNone sent eq_refl).
  cbv zeta. fold (validation_request trigger).
  match goal with |- context [requests_post ?endpoint ?envelope] =>
    set (endpoint' := endpoint); set (envelope' := envelope) end.
  split.
  - destruct (requests_post endpoint' envelope') as [e | status_code json].
    + destruct e; reflexivity.
    + destruct (status_code =? 200)%Z; [| reflexivity].
      destruct json as [result | e]; [destruct result | destruct e]; reflexivity.
  - intros Hdelivery. specialize (Hdelivery endpoint' envelope').
    destruct (requests_post endpoint' envelope') as [e | status_code json];
      cbn [delivery_outcome] in Hdelivery.
    + subst e. reflexivity.
    + destruct (status_code =? 200)%Z eqn:Hcode; [| reflexivity].
      apply Z.eqb_eq in Hcode.
      destruct (Hdelivery Hcode) as [[d ->] | ->]; reflexivity.
Qed.

Lemma analyze_gives_typed (transaction trigger : pyval) :
  MonitoringAgent.analyze_transaction_for_consent transaction = Ok trigger ->
  truthy trigger = true ->
  succeeds (getitem trigger "type") = true.
Proof.
  unfold MonitoringAgent.analyze_transaction_for_consent.
  destruct (MonitoringAgent.analyze_rules transaction) as [found | e] eqn:Hrules.
  - intros [= <-]. revert Hrules. unfold MonitoringAgent.analyze_rules.
    repeat match goal with
           | |- context [bind ?m _] =>
               let v := fresh "v" in destruct m as [v |]; cbn [bind]; [| discriminate]
           | |- context [if ?b then _ else _] => destruct b
           end;
      intros [= <-]; intros Htruthy; try reflexivity; discriminate Htruthy.
  - destruct e; try discriminate; intros [= <-]; discriminate.
Qed.

Lemma analyze_all_typed (transactions triggers found : list pyval) :
  MonitoringAgent.analyze_all transactions triggers = Ok found ->
  forallb (fun trigger => succeeds (getitem trigger "type")) triggers = true ->
  forallb (fun trigger => succeeds (getitem trigger "type")) found = true.
Proof.
  revert triggers. induction transactions as [| transaction rest IH]; intros triggers;
    cbn [MonitoringAgent.analyze_all].
  - now intros [= <-].
  - destruct (MonitoringAgent.analyze_transaction_for_consent transaction)
      as [trigger |] eqn:Htrigger; cbn [bind]; [| discriminate].
    intros Hrest Hall. apply (IH _ Hrest).
    destruct (truthy trigger) eqn:Htruthy; [| exact Hall].
    rewrite forallb_app, Hall. cbn [forallb andb].
    now rewrite (analyze_gives_typed _ _ Htrigger Htruthy).
Qed.

Lemma detected_triggers_typed
    (st st' : MonitoringAgent.state) (transactions users triggers : list pyval) :
  MonitoringAgent.detect_consent_triggers st transactions users = (Ok triggers, st') ->
  forallb (fun trigger => succeeds (getitem trigger "type")) triggers = true.
Proof.
  unfold MonitoringAgent.detect_consent_triggers.
  destruct transactions as [| transaction rest]; [now intros [= <- _] |].
  destruct (if (_ <? _)%nat then _ else _) as [new_transactions st''].
  destruct (MonitoringAgent.analyze_all (transaction :: rest) []) as [found |] eqn:Hfound;
    cbn [bind]; [| discriminate].
  pose proof (analyze_all_typed _ _ _ Hfound eq_refl) as Htyped.
  destruct found as [| trigger found']; [| now intros [= <- _]].
  destruct new_transactions as [| tx new']; [now intros [= <- _] |].
  destruct (MonitoringAgent.group_by_account (tx :: new') []) as [acts |];
    cbn [bind]; [| discriminate].
  intros [= <- _]. rewrite review_triggers_filter. cbn [app].
  apply forallb_forall. intros trigger Hin. apply in_map_iff in Hin as (entry & <- & _).
  reflexivity.
Qed.

Lemma send_triggers_requests
    (triggers : list pyval) (wrapped_transactions wrapped_users : pyval) (sent : outbox) :
  (forall endpoint message, delivery_outcome (requests_post endpoint message)) ->
  forallb (fun trigger => succeeds (getitem trigger "type")) triggers = true ->
  send_triggers triggers wrapped_transactions wrapped_users sent
  = (Ok tt, sent ++ map validation_request triggers).
Proof.
  intros Hdelivery. revert sent. induction triggers as [| trigger rest IH]; intros sent.
  - intros _. cbn. now rewrite app_nil_r.
  - cbn [forallb]. intros Hall. apply andb_true_iff in Hall as [Htype Hrest].
    cbn [send_triggers map]. unfold io_bind at 1, lift.
    destruct (getitem trigger "type") as [trigger_type |]; [| discriminate].
    unfold io_bind at 1.
    destruct (send_to_validation_agent_request trigger sent) as [Hsent Hok].
    specialize (Hok Hdelivery).
    destruct (send_to_validation_agent trigger sent) as [r sent'].
    cbn [fst snd] in Hsent, Hok. subst r sent'.
    rewrite (IH _ Hrest). now rewrite <- app_assoc.
Qed.

(** X24: a cycle that polled records sends one validation request for
    each trigger of the detector, in the order of the triggers; the
    payload of a request is the trigger alone, without the wrapped
    context the cycle builds.  When the detector raises, nothing is
    sent.  (Deliveries fail at most as deliveries, so that no send
    raises.) *)
Theorem one_request_per_trigger
    (st : MonitoringAgent.state) (sent : outbox) (transactions users : list pyval) :
  (forall endpoint message, delivery_outcome (requests_post endpoint message)) ->
  poll_transactions requests_get = Ok (Some transactions) ->
  poll_users requests_get = Ok (Some users) ->
  match MonitoringAgent.detect_consent_triggers st transactions users with
  | (Ok triggers, st') =>
      process_cycle requests_get choice randint st sent
      = ((Ok tt, st'), sent ++ map validation_request triggers)
      /\ Forall (fun request => exists trigger,
                   In trigger triggers /\ field (snd request) "payload" = trigger)
           (map validation_request triggers)
  | (Raise e, st') =>
      process_cycle requests_get choice randint st sent = ((Raise e, st'), sent)
  end.
Proof.
  intros Hdelivery Htransactions Husers. unfold process_cycle.
  rewrite Htransactions, Husers.
  destruct (MonitoringAgent.detect_consent_triggers st transactions users)
    as [[triggers | e] st'] eqn:Hdetect; [| reflexivity].
  rewrite (send_triggers_requests _ _ _ _ Hdelivery
             (detected_triggers_typed _ _ _ _ _ Hdetect)).
  split; [reflexivity |].
  apply Forall_forall. intros request Hin. apply in_map_iff in Hin as (trigger & <- & Hin).
  exists trigger. split; [exact Hin | reflexivity].
Qed.

Lemma quiet_accounts (accounts : list string) :
  (forall account_id, In account_id accounts ->
     requests_get (history_url account_id) true = Response 200 (Ok (VList []))) ->
  poll_accounts requests_get accounts [] = Ok [].
Proof.
  induction accounts as [| account_id rest IH]; intros Hquiet; [reflexivity |].
  cbn [poll_accounts]. unfold poll_account, fetch. fold (history_url account_id).
  rewrite (Hquiet account_id (or_introl eq_refl)). cbn.
  apply IH. intros a Ha. apply Hquiet. now right.
Qed.

(** X25: a bank without activity makes the agent invent a trigger.  When
    every monitored account answers 200 with an empty list, the poll
    gives [None], the value that stands for a failed poll, and the cycle
    sends one validation request for a randomly made demo trigger; the
    detector state stays as it was. *)
Theorem quiet_bank_sends_demo_trigger
    (st : MonitoringAgent.state) (sent : outbox) (users : option (list pyval)) :
  (forall account_id, In account_id monitored_accounts ->
     requests_get (history_url account_id) true = Response 200 (Ok (VList []))) ->
  poll_users requests_get = Ok users ->
  poll_transactions requests_get = Ok None
  /\ snd (process_cycle requests_get choice randint st sent)
     = sent ++ [validation_request (demo_trigger choice randint)]
  /\ snd (fst (process_cycle requests_get choice randint st sent)) = st.
Proof.
  intros Hquiet Husers.
  assert (Hnone : poll_transactions requests_get = Ok None).
  { unfold poll_transactions. now rewrite (quiet_accounts _ Hquiet). }
  split; [exact Hnone |]. unfold process_cycle. rewrite Hnone, Husers.
  unfold generate_demo_trigger_and_send, io_bind, lift. cbn [getitem demo_trigger assoc_get
    String.eqb Ascii.eqb Bool.eqb].
  fold (demo_trigger choice randint).
  destruct (send_to_validation_agent_request (demo_trigger choice randint) sent)
    as [Hsent _].
  destruct (send_to_validation_agent (demo_trigger choice randint) sent) as [r sent'].
  cbn [fst snd] in *. split; [exact Hsent | reflexivity].
Qed.

Lemma fgt_int (n k : Z) : fgt (FFin (inject_Z n)) (FFin (inject_Z k)) = (k <? n)%Z.
Proof.
  unfold fgt, flt, Qlt_bool, Qle_bool. cbn [Qnum Qden inject_Z].
  rewrite !Z.mul_1_r. now rewrite Z.ltb_antisym.
Qed.

(** X26: what the rules make of a demo trigger depends on its amount
    alone.  Whatever is drawn, the rule-based strategy rejects the demo
    trigger with HIGH risk exactly when its amount is above 5000;
    otherwise it approves it, with MEDIUM risk for the type
    "account_review" and LOW risk for the other types. *)
Theorem demo_trigger_under_rules :
  (forall options, options <> [] -> In (choice options) options) ->
  exists result,
    ValidationAgent.mock_validation (demo_trigger choice randint) = Ok result
    /\ if (5000 <? randint 100 10000)%Z
       then field result "decision" = VStr "REJECT"
            /\ field result "risk_level" = VStr "HIGH"
       else field result "decision" = VStr "APPROVE"
            /\ field result "risk_level"
               = VStr (if String.eqb (choice trigger_types) "account_review"
                       then "MEDIUM" else "LOW").
Proof.
  intros Hchoice.
  pose proof (Hchoice trigger_types ltac:(discriminate)) as Htype.
  pose proof (Hchoice purposes ltac:(discriminate)) as Hpurpose.
  pose proof (Hchoice providers ltac:(discriminate)) as Hprovider.
  unfold ValidationAgent.mock_validation, demo_trigger.
  match goal with |- context [ValidationAgent.risk_rules (VDict ?d)] =>
    rewrite (risk_rules_unfold d (FFin (inject_Z (randint 100 10000))) (choice purposes)
               eq_refl eq_refl)
  end.
  cbv zeta. rewrite fgt_int.
  set (type := choice trigger_types) in *. set (purpose := choice purposes) in *.
  set (provider := choice providers) in *. clearbody type purpose provider.
  unfold trigger_types, purposes, providers in *. cbn [In] in *.
  destruct (5000 <? randint 100 10000)%Z;
    destruct Htype as [<- | [<- | [<- | [<- | []]]]];
    destruct Hpurpose as [<- | [<- | [<- | [<- | []]]]];
    destruct Hprovider as [<- | [<- | [<- | [<- | []]]]];
    (eexists; split; [reflexivity | split; vm_compute; reflexivity]).
Qed.

End Cycle.

(** ** Examples of the further properties *)

Lemma audit_request_recorded_or_error_witness :
  let st := AuditAgent.load_audit_logs None true in
  fst (AuditAgent.process_a2a_message (H := plain_runtime)
         (VDict (envelope_for "AuditAgent" "audit_log_request" (numbered_message 1))) st)
  = VDict [ ("status", VStr "accepted"); ("message_id", VStr "m1");
            ("message", VStr "Audit log recorded via A2A") ]
  /\ length (AuditAgent.audit_logs
               (snd (AuditAgent.process_a2a_message (H := plain_runtime)
                       (VDict (envelope_for "AuditAgent" "audit_log_request"
                                 (numbered_message 1))) st))) = 1
  /\ AuditAgent.process_a2a_message (H := plain_runtime)
       (VDict (envelope_for "AuditAgent" "audit_log_request" (VInt 7))) st
     = (AuditAgent.error_reply (H := plain_runtime) AttributeError, st).
Proof.
  intros st.
  pose proof (audit_request_recorded_or_error (H := plain_runtime)
                (envelope_for "AuditAgent" "audit_log_request" (numbered_message 1)) st
                eq_refl eq_refl eq_refl) as Hrecorded.
  pose proof (audit_request_recorded_or_error (H := plain_runtime)
                (envelope_for "AuditAgent" "audit_log_request" (VInt 7)) st
                eq_refl eq_refl eq_refl) as Herror.
  destruct (AuditAgent.make_entry (H := plain_runtime)
              (get (envelope_for "AuditAgent" "audit_log_request" (numbered_message 1))
                 "payload" (VDict [])))
    as [[[audit_entry td] vr] | e] eqn:Hentry; [| discriminate Hentry].
  destruct Hrecorded as [Hreply Hlogs].
  split; [exact Hreply |]. split; [rewrite Hlogs; reflexivity | exact Herror].
Defined.

Lemma only_requests_have_effects_witness :
  let st := AuditAgent.load_audit_logs None true in
  let message := VDict (envelope_for "AuditAgent" "ping" (numbered_message 1)) in
  snd (AuditAgent.process_a2a_message (H := plain_runtime) message st) = st
  /\ snd (ValidationAgent.process_a2a_message (H := plain_runtime)
            {| ValidationAgent.client := None |} message []) = [].
Proof.
  intros st message.
  pose proof (only_requests_have_effects (H := plain_runtime) message st
                {| ValidationAgent.client := None |} []) as Hnone.
  cbv zeta in Hnone. destruct Hnone as [Haudit Hvalidation].
  split; [apply Haudit | apply Hvalidation]; reflexivity.
Defined.

Lemma validation_request_answered_witness :
  exists reply forwarded,
    ValidationAgent.process_a2a_message (H := plain_runtime)
      {| ValidationAgent.client := None |}
      (VDict (envelope_for "ValidationAgent" "consent_validation_request" small_loan)) []
    = (reply,
       [ ("http://audit-agent-service.agents-ns.svc.cluster.local:8080/a2a", forwarded) ])
    /\ field reply "status" = VStr "accepted"
    /\ field (field forwarded "payload") "trigger_data" = small_loan
    /\ field forwarded "message_id" = VStr "m1".
Proof.
  pose proof (validation_request_answered (H := plain_runtime)
                {| ValidationAgent.client := None |}
                (envelope_for "ValidationAgent" "consent_validation_request" small_loan) []
                eq_refl eq_refl eq_refl) as Hanswered.
  cbv zeta in Hanswered.
  destruct (ValidationAgent.perform_ai_validation (H := plain_runtime) _ _)
    as [result | e] eqn:Hresult; [| discriminate Hresult].
  destruct Hanswered as (audit_id & forwarded & Hrun & _ & _ & _ & Htrigger & Hid & _).
  eexists. exists forwarded. split; [exact Hrun |]. split; [reflexivity |].
  split; [exact Htrigger |]. apply Hid. discriminate.
Defined.

Lemma seen_records_trigger_again_witness :
  let st := {| MonitoringAgent.last_transaction_count := 1 |} in
  let transactions := [ VDict [ ("id", VStr "t1"); ("amount", VInt 6000) ] ] in
  exists trigger,
    MonitoringAgent.detect_consent_triggers (H := plain_runtime) st transactions []
    = (Ok [trigger], st)
    /\ field trigger "type" = VStr "high_value_transaction".
Proof.
  intros st transactions.
  destruct (seen_records_trigger_again (H := plain_runtime) st transactions [])
    as [Hseen _].
  rewrite (Hseen (le_n 1)). eexists. split; reflexivity.
Defined.

Lemma detector_triggers_under_rules_witness :
  exists trigger result,
    MonitoringAgent.analyze_transaction_for_consent (H := plain_runtime)
      (VDict [ ("id", VStr "t1"); ("amount", VInt 6000) ]) = Ok trigger
    /\ ValidationAgent.mock_validation trigger = Ok result
    /\ field result "decision" = VStr "REJECT".
Proof.
  destruct (detector_triggers_under_rules (H := plain_runtime)
              [ ("id", VStr "t1"); ("amount", VInt 6000) ] (FFin (inject_Z 6000))
              VNone [] eq_refl)
    as [(trigger & Hrun & [Hnone | (result & Hresult & Hhigh)]) _].
  - rewrite Hnone in Hrun. discriminate Hrun.
  - exists trigger, result. split; [exact Hrun |]. split; [exact Hresult |].
    exact (proj1 (proj2 Hhigh)).
Defined.

Lemma rejected_by_the_rules_witness :
  exists result,
    ValidationAgent.mock_validation
      (VDict [ ("type", VStr "account_review"); ("amount", VInt 100);
               ("purpose", VStr "International payment");
               ("third_party_provider", VStr "FinTechCorp") ]) = Ok result
    /\ field result "decision" = VStr "REJECT".
Proof.
  destruct (rejected_by_the_rules
              [ ("type", VStr "account_review"); ("amount", VInt 100);
                ("purpose", VStr "International payment");
                ("third_party_provider", VStr "FinTechCorp") ]
              (FFin (inject_Z 100)) "International payment" eq_refl eq_refl)
    as (score & reasons & result & _ & Hresult & _ & _ & Hreject).
  exists result. split; [exact Hresult | apply Hreject; reflexivity].
Defined.

Lemma engine_total_on_typed_triggers_witness :
  exists result,
    ValidationAgent.perform_ai_validation (H := plain_runtime)
      {| ValidationAgent.client := Some (fun _ _ => Ok VNone) |}
      (VDict [ ("amount", VInt 100); ("purpose", VStr "loan") ]) = Ok result
    /\ complete_result result.
Proof.
  destruct (engine_total_on_typed_triggers (H := plain_runtime)
              {| ValidationAgent.client := Some (fun _ _ => Ok VNone) |}
              [ ("amount", VInt 100); ("purpose", VStr "loan") ]
              (FFin (inject_Z 100)) "loan" eq_refl eq_refl)
    as (result & Hresult & Hcomplete & _).
  exists result. split; [exact Hresult | exact Hcomplete].
Defined.

Lemma rule_based_results_noted_as_ai_witness :
  exists result audit_entry td vr header rest,
    ValidationAgent.mock_validation small_loan = Ok result
    /\ AuditAgent.make_entry (H := plain_runtime)
         (VDict [ ("validation_result", result); ("trigger_data", small_loan) ])
       = Ok (audit_entry, td, vr)
    /\ field audit_entry "regulatory_notes" = VList (VStr header :: rest)
    /\ startswith header "✅ AI Assessment: " = true.
Proof.
  destruct (ValidationAgent.mock_validation small_loan) as [result | e] eqn:Hresult;
    [| discriminate Hresult].
  destruct (AuditAgent.make_entry (H := plain_runtime)
              (VDict [ ("validation_result", result); ("trigger_data", small_loan) ]))
    as [[[audit_entry td] vr] | e] eqn:Hentry.
  - destruct (rule_based_results_noted_as_ai (H := plain_runtime) small_loan result
                (VDict [ ("validation_result", result); ("trigger_data", small_loan) ])
                audit_entry td vr Hresult eq_refl Hentry)
      as (header & rest & Hnotes & Hheader).
    exists result, audit_entry, td, vr, header, rest.
    split; [reflexivity |]. split; [exact Hentry |]. split; [exact Hnotes |].
    vm_compute in Hresult. injection Hresult as <-.
    vm_compute in Hentry. injection Hentry as <- _ _.
    vm_compute in Hnotes. injection Hnotes as <- _. reflexivity.
  - vm_compute in Hresult. injection Hresult as <-. vm_compute in Hentry. discriminate Hentry.
Defined.

Lemma warnings_only_when_rejected_witness :
  exists notes,
    AuditAgent.generate_regulatory_notes (H := plain_runtime)
      (VDict [ ("valid", VBool false); ("confidence", lit 0.6) ]) (VDict []) = Ok notes
    /\ In "WARNING: Moderate confidence - additional verification recommended" notes
    /\ length notes = 7.
Proof.
  destruct (AuditAgent.generate_regulatory_notes (H := plain_runtime)
              (VDict [ ("valid", VBool false); ("confidence", lit 0.6) ]) (VDict []))
    as [notes | e] eqn:Hnotes; [| discriminate Hnotes].
  pose proof (warnings_only_when_rejected (H := plain_runtime) _ _ notes Hnotes) as Hwarn.
  cbv zeta in Hwarn.
  destruct Hwarn as (is_valid & confidence & Hvalid & Hconfidence & _ & _ & Hwarning & _).
  injection Hvalid as <-. injection Hconfidence as <-.
  exists notes. split; [reflexivity |].
  split; [apply Hwarning; repeat split; vm_compute; reflexivity |].
  vm_compute in Hnotes. injection Hnotes as <-. reflexivity.
Defined.

Lemma ledger_file_follows_memory_witness :
  let st := AuditAgent.load_audit_logs None true in
  let batch := [ numbered_message 1; numbered_message 2 ] in
  AuditAgent.load_audit_logs
    (option_map Ok (AuditAgent.audit_log_file (process_all (H := plain_runtime) batch st)))
    true
  = process_all (H := plain_runtime) batch st
  /\ length (AuditAgent.audit_logs (process_all (H := plain_runtime) batch st)) = 2.
Proof.
  intros st batch.
  destruct (ledger_file_follows_memory (H := plain_runtime) batch st) as [Hwritable _].
  destruct (Hwritable eq_refl eq_refl) as [_ Hresume].
  split; [exact Hresume | reflexivity].
Defined.

Lemma direct_and_a2a_submission_agree_witness :
  let st := AuditAgent.load_audit_logs None true in
  let envelope := envelope_for "AuditAgent" "audit_log_request" (numbered_message 1) in
  snd (AuditAgent.handle_a2a_message (H := plain_runtime) (Ok (VDict envelope)) st)
  = snd (AuditAgent.receive_audit (H := plain_runtime) (Ok (numbered_message 1)) st)
  /\ snd (fst (AuditAgent.handle_a2a_message (H := plain_runtime) (Ok (VDict envelope)) st))
     = 200%Z.
Proof.
  intros st envelope.
  pose proof (direct_and_a2a_submission_agree (H := plain_runtime) envelope st
                eq_refl eq_refl eq_refl eq_refl) as Hagree.
  cbv zeta in Hagree. destruct Hagree as (Hstate & Hcode & _).
  split; [exact Hstate | exact Hcode].
Defined.

Lemma get_messages_consumes_witness :
  let msg to text := VDict [ ("to", VStr to); ("payload", VStr text) ] in
  let queue := [ msg "AuditAgent" "a"; msg "ValidationAgent" "b"; msg "AuditAgent" "c" ] in
  SharedMessageQueue.get_messages "AuditAgent"
    {| SharedMessageQueue.queue_file := SharedMessageQueue.Json (VList queue);
       SharedMessageQueue.lock_file := false |}
  = SharedMessageQueue.Returns (Ok [ msg "AuditAgent" "a"; msg "AuditAgent" "c" ])
      {| SharedMessageQueue.queue_file :=
           SharedMessageQueue.Json (VList [ msg "ValidationAgent" "b" ]);
         SharedMessageQueue.lock_file := false |}.
Proof.
  intros msg queue.
  pose proof (get_messages_consumes "AuditAgent" queue eq_refl) as Hget.
  cbv zeta in Hget. exact (proj1 Hget).
Defined.

Lemma sent_message_reaches_addressee_witness :
  exists msg,
    SharedMessageQueue.send_message (H := plain_runtime) "AuditAgent"
      (VDict [ ("type", VStr "audit") ])
      {| SharedMessageQueue.queue_file := SharedMessageQueue.Json (VList []);
         SharedMessageQueue.lock_file := false |}
    = SharedMessageQueue.Returns (Ok tt)
        {| SharedMessageQueue.queue_file := SharedMessageQueue.Json (VList [msg]);
           SharedMessageQueue.lock_file := false |}
    /\ field msg "payload" = VDict [ ("type", VStr "audit") ]
    /\ field msg "to" = VStr "AuditAgent".
Proof.
  pose proof (sent_message_reaches_addressee (H := plain_runtime) "AuditAgent"
                [ ("type", VStr "audit") ] [] eq_refl) as Hsent.
  cbv zeta in Hsent. destruct Hsent as (msg & Hrun & Hpayload & _ & _).
  exists msg. split; [exact Hrun |]. split; [exact Hpayload |].
  vm_compute in Hrun. injection Hrun as <-. reflexivity.
Defined.

Lemma queue_lock_discipline_witness :
  let fs := {| SharedMessageQueue.queue_file :=
                 SharedMessageQueue.Json (VList [ VDict [ ("payload", VStr "a") ] ]);
               SharedMessageQueue.lock_file := false |} in
  exists e,
    SharedMessageQueue.get_messages "AuditAgent" fs
    = SharedMessageQueue.Returns (Raise e) fs.
Proof.
  intros fs.
  destruct (queue_lock_discipline (H := plain_runtime) "AuditAgent" VNone fs)
    as (_ & _ & Hpoison).
  exact (Hpoison _ eq_refl eq_refl eq_refl).
Defined.

Lemma run_loop_records_nothing_witness :
  let st := AuditAgent.load_audit_logs None true in
  let msg := VDict [ ("to", VStr "AuditAgent"); ("payload", numbered_message 1) ] in
  AuditAgent.run_loop_turn
    (Some {| SharedMessageQueue.queue_file := SharedMessageQueue.Json (VList [msg]);
             SharedMessageQueue.lock_file := false |}) st
  = Some (st, Some {| SharedMessageQueue.queue_file := SharedMessageQueue.Json (VList []);
                      SharedMessageQueue.lock_file := false |}).
Proof.
  intros st msg.
  destruct (run_loop_records_nothing
              (Some {| SharedMessageQueue.queue_file := SharedMessageQueue.Json (VList [msg]);
                       SharedMessageQueue.lock_file := false |}) st)
    as (_ & _ & Hdrained).
  exact (Hdrained [msg] eq_refl).
Defined.

Lemma one_request_per_trigger_witness :
  exists requests,
    MonitoringCycle.process_cycle (H := unreachable_runtime) busy_bank first_option
      lower_bound MonitoringAgent.init []
    = ((Ok tt, {| MonitoringAgent.last_transaction_count := 3 |}), requests)
    /\ map (fun request => field (field (snd request) "payload") "user_id") requests
       = [ VStr "1234567890"; VStr "0987654321"; VStr "1111111111" ].
Proof.
  destruct (MonitoringCycle.poll_transactions busy_bank) as [[transactions |] | e]
    eqn:Htransactions; try discriminate Htransactions.
  destruct (MonitoringCycle.poll_users busy_bank) as [[users |] | e] eqn:Husers;
    try discriminate Husers.
  pose proof (one_request_per_trigger (H := unreachable_runtime) busy_bank first_option
                lower_bound MonitoringAgent.init [] transactions users
                (fun _ _ => eq_refl) Htransactions Husers) as Hcycle.
  destruct (MonitoringAgent.detect_consent_triggers (H := unreachable_runtime)
              MonitoringAgent.init transactions users)
    as [[triggers | e] st'] eqn:Hdetect.
  - destruct Hcycle as [Hrun _]. rewrite Hrun.
    vm_compute in Htransactions. injection Htransactions as <-.
    vm_compute in Husers. injection Husers as <-.
    vm_compute in Hdetect. injection Hdetect as <- <-.
    eexists. split; reflexivity.
  - vm_compute in Htransactions. injection Htransactions as <-.
    vm_compute in Husers. injection Husers as <-.
    vm_compute in Hdetect. discriminate Hdetect.
Defined.

Lemma quiet_bank_sends_demo_trigger_witness :
  MonitoringCycle.poll_transactions quiet_bank = Ok None
  /\ map (fun request => field (field (snd request) "payload") "type")
         (snd (MonitoringCycle.process_cycle (H := plain_runtime) quiet_bank first_option
                 lower_bound MonitoringAgent.init []))
     = [ VStr "third_party_sharing" ].
Proof.
  destruct (quiet_bank_sends_demo_trigger (H := plain_runtime) quiet_bank first_option
              lower_bound MonitoringAgent.init [] (Some [VList []; VList []; VList []])
              (fun _ _ => eq_refl) eq_refl)
    as (Hnone & Hsent & _).
  split; [exact Hnone |]. rewrite Hsent. reflexivity.
Defined.

Lemma demo_trigger_under_rules_witness :
  exists result,
    ValidationAgent.mock_validation (MonitoringCycle.demo_trigger (H := plain_runtime)
                                       first_option lower_bound) = Ok result
    /\ field result "decision" = VStr "APPROVE"
    /\ field result "risk_level" = VStr "LOW".
Proof.
  assert (Hchoice : forall options, options <> [] -> In (first_option options) options).
  { intros [| option rest] Hsome; [now elim Hsome | now left]. }
  destruct (demo_trigger_under_rules (H := plain_runtime) first_option lower_bound Hchoice)
    as (result & Hresult & Hverdict).
  exists result. split; [exact Hresult | exact Hverdict].
Defined.

Lemma polled_records_are_tagged_witness :
  exists per_account,
    Forall2 (polled_for busy_bank) MonitoringCycle.monitored_accounts per_account
    /\ map (fun tx => field tx "account_id") (concat per_account)
       = [ VStr "1234567890"; VStr "0987654321"; VStr "1111111111" ]
    /\ MonitoringCycle.poll_transactions busy_bank = Ok (Some (concat per_account)).
Proof.
  pose proof (polled_records_are_tagged busy_bank) as Hpolled.
  destruct (MonitoringCycle.poll_transactions busy_bank) as [polled | e] eqn:Hrun;
    [| discriminate Hrun].
  destruct Hpolled as (per_account & Hall & Hconcat).
  exists per_account. split; [exact Hall |].
  vm_compute in Hrun. injection Hrun as <-.
  destruct (concat per_account) as [| tx rest]; [discriminate Hconcat |].
  injection Hconcat as <- <-. split; reflexivity.
Defined.

(** ** The API for manual triggers *)

Section Manual.

Import A2AMessageQueue MonitoringCycle.

Context `{Runtime}.

Variable randint : Z -> Z -> Z.
Variable choice_trigger : list pyval -> pyval.

(** X27: a manual trigger is never rejected by the rules, and the answer
    of [/trigger-consent] follows the send.  Whatever is drawn, with
    [randint] within its bounds, the rule-based strategy approves the
    trigger with LOW risk (its amount is at most 5000, its provider is no
    bank, its purpose is domestic).  The handler issues one validation
    request, which carries that trigger.  It answers 200 with the
    trigger when the request is answered or fails as a delivery (a
    request exception, a status other than 200, a JSON object, a body
    whose decoding raises a request exception), and 500 with the text of
    the exception when the send raises: on any other exception of the
    request or of the decoding, and on a 200 reply that is no JSON
    object. *)
Theorem manual_trigger_is_approved (sent : outbox) :
  (forall options, options <> [] -> In (choice_trigger options) options) ->
  (forall low high, (low <= high -> low <= randint low high <= high)%Z) ->
  let demo_trigger := generate_demo_trigger randint choice_trigger in
  let success : pyval * Z :=
    (VDict [ ("status", VStr "success");
             ("trigger", demo_trigger);
             ("message", VStr "Consent trigger sent to validation agent") ], 200%Z) in
  let failure (e : exn) : pyval * Z :=
    (VDict [ ("status", VStr "error"); ("message", VStr (exn_str e)) ], 500%Z) in
  (exists result,
     ValidationAgent.mock_validation demo_trigger = Ok result
     /\ field result "decision" = VStr "APPROVE"
     /\ field result "risk_level" = VStr "LOW")
  /\ snd (trigger_consent randint choice_trigger sent)
     = sent ++ [validation_request demo_trigger]
  /\ fst (trigger_consent randint choice_trigger sent)
     = match requests_post (fst (validation_request demo_trigger))
               (snd (validation_request demo_trigger)) with
       | PostRaises RequestException => success
       | PostRaises e => failure e
       | Response status_code json =>
           if (status_code =? 200)%Z then
             match json with
             | Ok (VDict _) => success
             | Ok _ => failure AttributeError
             | Raise RequestException => success
             | Raise e => failure e
             end
           else success
       end.
Proof.
  intros Hchoice Hrandint demo_trigger success failure.
  assert (Hsmall : forall low high, (low <= high)%Z -> (high <= 5000)%Z ->
            (5000 <? randint low high)%Z = false).
  { intros low high Hle Hhigh. apply Z.ltb_ge. specialize (Hrandint low high Hle). lia. }
  assert (Hfirst := Hsmall 100%Z 5000%Z ltac:(lia) ltac:(lia)).
  assert (Hsecond := Hsmall 50%Z 1000%Z ltac:(lia) ltac:(lia)).
  assert (Htrigger :
    (exists result,
       ValidationAgent.mock_validation demo_trigger = Ok result
       /\ field result "decision" = VStr "APPROVE"
       /\ field result "risk_level" = VStr "LOW")
    /\ succeeds (getitem demo_trigger "type") = true).
  { unfold demo_trigger, generate_demo_trigger.
    match goal with |- context [choice_trigger ?options] =>
      pose proof (Hchoice options ltac:(discriminate)) as Hin;
      set (chosen := choice_trigger options) in *; clearbody chosen
    end.
    cbn [In] in Hin. destruct Hin as [<- | [<- | [<- | []]]];
      (split; [| reflexivity]); unfold ValidationAgent.mock_validation;
      match goal with |- context [ValidationAgent.risk_rules (VDict ?d)] =>
        match d with
        | context [("amount", VInt ?n)] =>
            match d with
            | context [("purpose", VStr ?p)] =>
                rewrite (risk_rules_unfold d (FFin (inject_Z n)) p eq_refl eq_refl)
            end
        end
      end;
      cbv zeta; rewrite fgt_int; rewrite ?Hfirst, ?Hsecond;
      (eexists; split; [reflexivity | split; vm_compute; reflexivity]). }
  destruct Htrigger as [Happroved Htype]. split; [exact Happroved |].
  unfold trigger_consent. fold demo_trigger. unfold io_bind, lift.
  destruct (getitem demo_trigger "type") as [type |]; [| discriminate Htype].
  rewrite (send_message_known name "ValidationAgent" "consent_validation_request"
             "http://validation-agent-service.agents-ns.svc.cluster.local:8080/a2a"
             demo_trigger VNone sent eq_refl).
  cbv zeta. fold (validation_request demo_trigger). cbn [fst snd].
  destruct (requests_post _ _) as [e | status_code json].
  - destruct e; split; reflexivity.
  - destruct (status_code =? 200)%Z; [| split; reflexivity].
    destruct json as [reply | e]; [destruct reply | destruct e]; split; reflexivity.
Qed.

End Manual.

Lemma manual_trigger_is_approved_witness :
  exists result,
    ValidationAgent.mock_validation
      (MonitoringCycle.generate_demo_trigger (H := plain_runtime) lower_bound first_trigger)
    = Ok result
    /\ field result "decision" = VStr "APPROVE"
    /\ snd (fst (MonitoringCycle.trigger_consent (H := plain_runtime) lower_bound
                   first_trigger [])) = 200%Z
    /\ snd (fst (MonitoringCycle.trigger_consent (H := unreachable_runtime) lower_bound
                   first_trigger [])) = 200%Z.
Proof.
  assert (Hchoice : forall options, options <> [] -> In (first_trigger options) options).
  { intros [| option rest] Hsome; [now elim Hsome | now left]. }
  assert (Hrandint : forall low high, (low <= high -> low <= lower_bound low high <= high)%Z).
  { intros low high Hle. unfold lower_bound. split; [apply Z.le_refl | exact Hle]. }
  pose proof (manual_trigger_is_approved (H := plain_runtime) lower_bound first_trigger []
                Hchoice Hrandint) as Hmanual.
  pose proof (manual_trigger_is_approved (H := unreachable_runtime) lower_bound
                first_trigger [] Hchoice Hrandint) as Hdown.
  cbv zeta in Hmanual, Hdown.
  destruct Hmanual as ((result & Hresult & Hdecision & _) & _ & Hanswer).
  destruct Hdown as (_ & _ & Hanswer').
  exists result. split; [exact Hresult |]. split; [exact Hdecision |].
  split; [rewrite Hanswer | rewrite Hanswer']; reflexivity.
Defined.

(** ** The mock consent manager *)

Section Consents.

Import PSD3ConsentManager.

Variable isoformat : Z -> string.
Variable fromisoformat : string -> result Z.
Variable list_of_set : list string -> list string.

Lemma drop_last_app (s : string) (c : ascii) :
  drop_last (s ++ String c EmptyString)%string = s.
Proof.
  induction s as [| a s' IH]; [reflexivity |].
  cbn [append drop_last]. rewrite IH. now destruct s'.
Qed.

Lemma generated_consent
    (uuid_hex : string) (utcnow : nat -> Z) (user_id purpose : string)
    (third_party_name : option string) (consents : store) (consent : Consent.t) :
  fst (generate_consent isoformat uuid_hex utcnow user_id purpose third_party_name consents)
  = Ok consent ->
  exists template,
    In template (map snd consent_templates)
    /\ assoc_get consent_templates purpose = Some template
    /\ Consent.permissions consent = generate_permissions template
    /\ Consent.status consent = "active"
    /\ Consent.revocable consent = true
    /\ Consent.user_id consent = user_id
    /\ Consent.valid_until consent
       = (isoformat (utcnow 1 + timedelta (Template.retention_period_days template))
          ++ "Z")%string
    /\ length (Consent.audit_trail consent) = 1
    /\ assoc_get (snd (generate_consent isoformat uuid_hex utcnow user_id purpose
                         third_party_name consents)) (Consent.consent_id consent)
       = Some consent.
Proof.
  unfold generate_consent.
  destruct (assoc_get consent_templates purpose) as [template |] eqn:Htemplate;
    [| discriminate].
  cbn [fst snd]. intros [= <-]. exists template. cbn.
  assert (Hin : In template (map snd consent_templates)
                /\ Template.revocable template = true).
  { revert Htemplate. unfold consent_templates. cbn [assoc_get].
    repeat match goal with
           | |- context [if ?b then _ else _] => destruct b
           end;
      try discriminate; intros [= <-]; cbn; auto. }
  destruct Hin as [Hin Hrevocable].
  repeat split; try assumption; try reflexivity. apply dict_set_get.
Qed.

(** X28: the permission check reads the verb of the action only.  For
    every consent the manager generates, an action is permitted exactly
    when it starts with "read", "access" or "share": what follows the
    verb, and the data scope of the consent, make no difference. *)
Theorem permission_check_reads_the_verb
    (uuid_hex : string) (utcnow : nat -> Z) (user_id purpose : string)
    (third_party_name : option string) (consents : store) (consent : Consent.t)
    (action : string) :
  fst (generate_consent isoformat uuid_hex utcnow user_id purpose third_party_name consents)
  = Ok consent ->
  check_permission consent action
  = startswith action "read" || startswith action "access" || startswith action "share".
Proof.
  intros Hconsent.
  destruct (generated_consent _ _ _ _ _ _ _ Hconsent)
    as (template & Hin & _ & Hpermissions & _).
  unfold check_permission. rewrite Hpermissions.
  cbn [map snd consent_templates In] in Hin.
  destruct Hin as [<- | [<- | [<- | []]]]; cbv -[startswith orb];
    destruct (startswith action "read"), (startswith action "access"),
      (startswith action "share"); reflexivity.
Qed.

(** X29: the life of a consent.  A consent generated for a known
    purpose validates until its retention period is over; it can then be
    revoked, after which every validation before the expiry answers
    "Consent status: revoked", whatever the action; the store keeps the
    consent with two events in its trail, and revoking it again succeeds
    again.  After the retention period the answer is "Consent expired",
    revoked or not: the expiry is checked first.  (Dates are read back
    as they were written.) *)
Theorem consent_lifecycle
    (uuid_hex : string) (utcnow : nat -> Z) (user_id purpose : string)
    (third_party_name reason requested_action : option string) (consents : store)
    (template : Template.t) (now later : Z) :
  assoc_get consent_templates purpose = Some template ->
  let generated :=
    generate_consent isoformat uuid_hex utcnow user_id purpose third_party_name consents in
  let expiry := (utcnow 1%nat + timedelta (Template.retention_period_days template))%Z in
  fromisoformat (isoformat expiry) = Ok expiry ->
  exists consent,
    fst generated = Ok consent
    /\ let id := Consent.consent_id consent in
       let revoked := snd (revoke_consent isoformat later id reason (snd generated)) in
       ((now <= expiry)%Z ->
        validate_consent fromisoformat now id None (snd generated)
        = Ok {| Validation.valid := true; Validation.reason := "Consent valid";
                Validation.compliant := true;
                Validation.expires_at := Some (Consent.valid_until consent) |}
        /\ validate_consent fromisoformat now id requested_action revoked
           = Ok {| Validation.valid := false;
                   Validation.reason := "Consent status: revoked";
                   Validation.compliant := true; Validation.expires_at := None |})
       /\ ((expiry < now)%Z ->
           forall granted_or_revoked,
             In granted_or_revoked [snd generated; revoked] ->
             validate_consent fromisoformat now id requested_action granted_or_revoked
             = Ok {| Validation.valid := false; Validation.reason := "Consent expired";
                     Validation.compliant := true; Validation.expires_at := None |})
       /\ fst (revoke_consent isoformat later id reason (snd generated)) = true
       /\ (exists c,
             assoc_get revoked id = Some c
             /\ Consent.status c = "revoked"
             /\ length (Consent.audit_trail c) = 2)
       /\ fst (revoke_consent isoformat later id reason revoked) = true.
Proof.
  intros Htemplate generated expiry Hround.
  assert (Hconsent : exists consent, fst generated = Ok consent).
  { unfold generated, generate_consent. rewrite Htemplate. eexists. reflexivity. }
  destruct Hconsent as [consent Hconsent]. exists consent. split; [exact Hconsent |].
  destruct (generated_consent _ _ _ _ _ _ _ Hconsent)
    as (template' & _ & Htemplate' & _ & Hstatus & Hrevocable & _ & Huntil & Htrail & Hstored).
  rewrite Htemplate in Htemplate'. injection Htemplate' as <-.
  fold generated in Hstored. fold expiry in Huntil.
  cbv zeta.
  set (id := Consent.consent_id consent) in *.
  assert (Hrevoke : revoke_consent isoformat later id reason (snd generated)
                    = (true,
                       dict_set (snd generated) id
                         (Consent.append_event (Consent.set_status consent "revoked")
                            {| Event.timestamp := (isoformat later ++ "Z")%string;
                               Event.action := "consent_revoked";
                               Event.actor := "user";
                               Event.details := or_default reason "User revoked consent" |}))).
  { unfold revoke_consent. rewrite Hstored, Hrevocable. reflexivity. }
  rewrite Hrevoke. cbn [fst snd].
  assert (Hparse : forall c, Consent.valid_until c = Consent.valid_until consent ->
            fromisoformat (drop_last (Consent.valid_until c)) = Ok expiry).
  { intros c ->. rewrite Huntil, drop_last_app. exact Hround. }
  split; [| split; [| split; [reflexivity | split]]].
  - intros Hfresh. apply Z.ltb_ge in Hfresh. split.
    + unfold validate_consent. rewrite Hstored, (Hparse consent eq_refl). cbn [bind].
      rewrite Hfresh, Hstatus. reflexivity.
    + unfold validate_consent. rewrite dict_set_get.
      match goal with |- context [fromisoformat (drop_last (Consent.valid_until ?c))] =>
        rewrite (Hparse c eq_refl) end.
      cbn [bind]. rewrite Hfresh. reflexivity.
  - intros Hlate granted_or_revoked Hin. apply Z.ltb_lt in Hlate.
    destruct Hin as [<- | [<- | []]]; unfold validate_consent.
    + rewrite Hstored, (Hparse consent eq_refl). cbn [bind]. now rewrite Hlate.
    + rewrite dict_set_get.
      match goal with |- context [fromisoformat (drop_last (Consent.valid_until ?c))] =>
        rewrite (Hparse c eq_refl) end.
      cbn [bind]. now rewrite Hlate.
  - eexists. split; [apply dict_set_get |]. split; [reflexivity |].
    cbn. rewrite length_app, Htrail. reflexivity.
  - unfold revoke_consent. rewrite dict_set_get. cbn. now rewrite Hrevocable.
Qed.

Lemma dict_set_Forall (V : Type) (Q : V -> Prop) (d : list (string * V))
    (key : string) (x : V) :
  Forall (fun kv => Q (snd kv)) d -> Q x ->
  Forall (fun kv => Q (snd kv)) (dict_set d key x).
Proof.
  intros Hall Hx. induction Hall as [| [k y] rest Hy Hrest IH]; cbn [dict_set].
  - constructor; [exact Hx | constructor].
  - destruct (String.eqb k key); constructor; auto.
Qed.

Lemma dict_set_length (V : Type) (d : list (string * V)) (key : string) (x : V) :
  length (dict_set d key x)
  = match assoc_get d key with Some _ => length d | None => S (length d) end.
Proof.
  induction d as [| [k y] rest IH]; cbn [dict_set assoc_get]; [reflexivity |].
  destruct (String.eqb k key); [reflexivity |]. cbn [length]. rewrite IH.
  now destruct (assoc_get rest key).
Qed.

Lemma reachable_statuses (consents : store) :
  reachable isoformat consents ->
  Forall (fun kv => Consent.status (snd kv) = "active"
                    \/ Consent.status (snd kv) = "revoked") consents.
Proof.
  induction 1 as [| uuid_hex utcnow user_id purpose third_party_name consents _ IH
                  | utcnow consent_id reason consents _ IH].
  - constructor.
  - unfold generate_consent.
    destruct (assoc_get consent_templates purpose); [| exact IH].
    cbn [snd].
    apply (dict_set_Forall _ (fun c => Consent.status c = "active"
                                       \/ Consent.status c = "revoked"));
      [exact IH | now left].
  - unfold revoke_consent.
    destruct (assoc_get consents consent_id) as [consent |]; [| exact IH].
    destruct (Consent.revocable consent); cbn [negb snd]; [| exact IH].
    apply (dict_set_Forall _ (fun c => Consent.status c = "active"
                                       \/ Consent.status c = "revoked"));
      [exact IH | now right].
Qed.

Lemma count_by_status (consents : list Consent.t) :
  Forall (fun c => Consent.status c = "active" \/ Consent.status c = "revoked") consents ->
  length consents
  = length (filter (fun c => String.eqb (Consent.status c) "active") consents)
    + length (filter (fun c => String.eqb (Consent.status c) "revoked") consents).
Proof.
  induction 1 as [| c rest [Hc | Hc] _ IH]; [reflexivity | |];
    cbn [filter length]; rewrite Hc; cbn; rewrite IH; lia.
Qed.

(** X30: the counts of a summary add up.  In every store the manager
    can reach from the empty one by generating and revoking consents, a
    consent is active or revoked, so the summary of a user counts as many
    consents as it counts active and revoked ones together, and no more
    than the store holds; a summary for the empty user id counts the
    consents of all users. *)
Theorem summary_counts_add_up (consents : store) (user_id : string) :
  reachable isoformat consents ->
  let summary := get_consent_summary list_of_set user_id consents in
  Summary.total_consents summary
  = Summary.active_consents summary + Summary.revoked_consents summary
  /\ Summary.total_consents summary <= length consents
  /\ Summary.total_consents (get_consent_summary list_of_set "" consents) = length consents.
Proof.
  intros Hreachable. cbv zeta. unfold get_consent_summary, list_consents.
  cbn [Summary.total_consents Summary.active_consents Summary.revoked_consents filter_by].
  pose proof (reachable_statuses _ Hreachable) as Hstatuses.
  assert (Hvalues : Forall (fun c => Consent.status c = "active"
                                     \/ Consent.status c = "revoked") (map snd consents)).
  { apply Forall_map. exact Hstatuses. }
  cbn [String.eqb]. split; [| split].
  - apply count_by_status.
    destruct (String.eqb user_id ""); [exact Hvalues |].
    apply Forall_forall. intros c Hin. apply filter_In in Hin as [Hin _].
    rewrite Forall_forall in Hvalues. auto.
  - destruct (String.eqb user_id ""); [now rewrite length_map |].
    etransitivity; [apply filter_length_le | now rewrite length_map].
  - now rewrite length_map.
Qed.

End Consents.

Lemma permission_check_reads_the_verb_witness :
  exists consent,
    fst (PSD3ConsentManager.generate_consent written "0123456789abcdef0123456789abcdef"
           (fun _ => 5%Z) "alice" "budgeting" None []) = Ok consent
    /\ PSD3ConsentManager.check_permission consent "read:accounts" = true
    /\ PSD3ConsentManager.check_permission consent "delete:transactions" = false.
Proof.
  eexists. split; [reflexivity |].
  rewrite !(permission_check_reads_the_verb written "0123456789abcdef0123456789abcdef"
              (fun _ => 5%Z) "alice" "budgeting" None [] _ _ eq_refl).
  split; reflexivity.
Defined.

Lemma consent_lifecycle_witness :
  let generated :=
    PSD3ConsentManager.generate_consent written "0123456789abcdef0123456789abcdef"
      (fun _ => 5%Z) "alice" "payment_initiation" None [] in
  let revoked :=
    snd (PSD3ConsentManager.revoke_consent written 7 "consent_0123456789abcdef" None
           (snd generated)) in
  (exists v,
     PSD3ConsentManager.validate_consent read_back 6 "consent_0123456789abcdef" None
       (snd generated) = Ok v
     /\ PSD3ConsentManager.Validation.valid v = true)
  /\ (exists v,
        PSD3ConsentManager.validate_consent read_back 8 "consent_0123456789abcdef"
          (Some "read:accounts") revoked = Ok v
        /\ PSD3ConsentManager.Validation.reason v = "Consent status: revoked").
Proof.
  intros generated revoked.
  pose proof (consent_lifecycle written read_back "0123456789abcdef0123456789abcdef"
                (fun _ => 5%Z) "alice" "payment_initiation" None None
                (Some "read:accounts") [] _ 6%Z 7%Z eq_refl) as Hfirst.
  pose proof (consent_lifecycle written read_back "0123456789abcdef0123456789abcdef"
                (fun _ => 5%Z) "alice" "payment_initiation" None None
                (Some "read:accounts") [] _ 8%Z 7%Z eq_refl) as Hsecond.
  cbv zeta in Hfirst, Hsecond.
  destruct (Hfirst ltac:(vm_compute; reflexivity)) as (consent1 & Hconsent1 & Hfresh & _).
  destruct (Hsecond ltac:(vm_compute; reflexivity)) as (consent2 & Hconsent2 & Hlater & _).
  injection Hconsent1 as <-. injection Hconsent2 as <-.
  destruct (Hfresh ltac:(vm_compute; discriminate)) as [Hvalid _].
  destruct (Hlater ltac:(vm_compute; discriminate)) as [_ Hrevoked].
  split; eexists; (split; [eassumption | reflexivity]).
Defined.

Lemma summary_counts_add_up_witness :
  let generated :=
    snd (PSD3ConsentManager.generate_consent written "0123456789abcdef0123456789abcdef"
           (fun _ => 5%Z) "alice" "budgeting" None []) in
  let revoked :=
    snd (PSD3ConsentManager.revoke_consent written 7 "consent_0123456789abcdef" None
           generated) in
  let summary := PSD3ConsentManager.get_consent_summary (fun items => items) "alice" revoked in
  PSD3ConsentManager.Summary.total_consents summary = 1
  /\ PSD3ConsentManager.Summary.revoked_consents summary = 1.
Proof.
  intros generated revoked summary.
  destruct (summary_counts_add_up written (fun items => items) revoked "alice"
              (reachable_revoke written 7 "consent_0123456789abcdef" None generated
                 (reachable_generate written "0123456789abcdef0123456789abcdef"
                    (fun _ => 5%Z) "alice" "budgeting" None [] (reachable_empty written))))
    as (Htotal & _ & _).
  split; [reflexivity |]. fold summary in Htotal.
  change (PSD3ConsentManager.Summary.total_consents summary) with 1 in Htotal.
  change (PSD3ConsentManager.Summary.active_consents summary) with 0 in Htotal.
  symmetry. exact Htotal.
Defined.
